(** * AutoErrorArticleGen: discovery, aggregation and quality gate

    A shallow embedding of the algorithmic core of the repository:
      - [src/discovery/error_finder.py]    (module [ErrorFinder]),
      - [src/collection/info_collector.py] (module [InfoCollector]),
      - [src/publication/quality_checker.py] (module [QualityChecker]),
    followed by the properties checked against it.

    Modelling conventions.
      - A Python [str] is a list of Unicode code points ([pystr]); literals
        of the source are written as UTF-8 strings and decoded by [py].
      - A Python [dict] holding numbers or flags is a [gmap string _];
        [d.get(k, v)] is [get d k v].  Dicts with a fixed set of fields of
        different types (candidates, articles, solutions) are records whose
        fields are options: [None] is an absent key.
      - Python [int] is [Z]. A Python [float] is the rational it denotes
        ([Q]); a float literal and the result of each float operation are
        rounded to binary64, to nearest with ties to even, by
        [Binary64.fl]. The exponent range is not bounded: there is neither
        overflow nor underflow, and none can occur on the scores, counts
        and ratios of this program.
      - What the Unicode database decides ([str.lower], [str.isspace],
        the regex class [\d]) is a parameter, class [Unicode]; so is
        [urllib.parse.urlparse], class [UrlLib].
      - Network adapters, the clock and the random generator are inputs. *)

From Stdlib Require Import ZArith QArith Qpower Qabs Qminmax Qround.
From Stdlib Require Import Lia Lqa Bool List.
From Stdlib Require Import Strings.String Strings.Ascii.
From Stdlib Require Import Sorting.Sorted Sorting.Permutation.
From stdpp Require Import base option list gmap strings sets.
From Equations Require Import Equations.

Local Open Scope Z_scope.

(** ** Python strings *)

Module Py.

Local Open Scope N_scope.

Definition char := N.
Bind Scope N_scope with char.
Definition pystr := list N.

(** Decoding of UTF-8 bytes into code points (source literals only). *)
Fixpoint utf8_decode (bs : list N) : pystr :=
  match bs with
  | [] => []
  | b0 :: r0 =>
    if (b0 <? 128)%N then b0 :: utf8_decode r0
    else match r0 with
    | [] => [b0]
    | b1 :: r1 =>
      if (b0 <? 224)%N
      then (N.lor (N.shiftl (N.land b0 31) 6) (N.land b1 63)) :: utf8_decode r1
      else match r1 with
      | [] => [b0; b1]
      | b2 :: r2 =>
        if (b0 <? 240)%N
        then (N.lor (N.shiftl (N.land b0 15) 12)
               (N.lor (N.shiftl (N.land b1 63) 6) (N.land b2 63)))
             :: utf8_decode r2
        else match r2 with
        | [] => [b0; b1; b2]
        | b3 :: r3 =>
          (N.lor (N.shiftl (N.land b0 7) 18)
            (N.lor (N.shiftl (N.land b1 63) 12)
              (N.lor (N.shiftl (N.land b2 63) 6) (N.land b3 63))))
          :: utf8_decode r3
        end
      end
    end
  end.

Definition py (s : string) : pystr :=
  utf8_decode (map N_of_ascii (list_ascii_of_string s)).

Definition LF : char := 10.

(** [bool(s)] of a string: non-empty. *)
Definition truthy {A} (s : list A) : bool :=
  match s with [] => false | _ => true end.

(** [len(s)] as a Python int. *)
Definition len {A} (s : list A) : Z := Z.of_nat (length s).

Definition eqc (a b : char) : bool := (a =? b)%N.

(** [s.startswith(p)]. *)
Fixpoint startswith (p s : pystr) : bool :=
  match p, s with
  | [], _ => true
  | _ :: _, [] => false
  | a :: p', b :: s' => eqc a b && startswith p' s'
  end.

(** [sub in s]. *)
Fixpoint contains (sub s : pystr) : bool :=
  startswith sub s ||
  match s with
  | [] => false
  | _ :: s' => contains sub s'
  end.

(** Left-to-right scan for non-overlapping occurrences of a non-empty
    [sub]: [skip] characters of the current occurrence are still to be
    passed over. *)
Fixpoint count_from (sub s : pystr) (skip : nat) : nat :=
  match s with
  | [] => 0
  | _ :: s' =>
    match skip with
    | S k => count_from sub s' k
    | O => if startswith sub s
           then S (count_from sub s' (pred (length sub)))
           else count_from sub s' 0
    end
  end%nat.

(** [s.count(sub)]; for the empty [sub] Python answers [len(s) + 1]. *)
Definition count (sub s : pystr) : Z :=
  match sub with
  | [] => (len s + 1)%Z
  | _ => Z.of_nat (count_from sub s 0)
  end.

(** [s.split(sep)] for a non-empty separator: [cur] is the piece being
    read, in reverse. *)
Fixpoint split_from (sep s : pystr) (skip : nat) (cur : pystr) : list pystr :=
  match s with
  | [] => [rev cur]
  | c :: s' =>
    match skip with
    | S k => split_from sep s' k cur
    | O => if startswith sep s
           then match pred (length sep) with
                | O => rev cur :: split_from sep s' 0 []
                | S k => rev cur :: split_from sep s' (S k) []
                end
           else split_from sep s' 0 (c :: cur)
    end
  end.

Definition split (sep s : pystr) : list pystr := split_from sep s 0 [].

(** [re.split('[...]', s)] for a class of single characters. *)
Fixpoint split_class (cls : char -> bool) (s cur : pystr) : list pystr :=
  match s with
  | [] => [rev cur]
  | c :: s' =>
    if cls c then rev cur :: split_class cls s' []
    else split_class cls s' (c :: cur)
  end.

(** The lines that a MULTILINE [^] can anchor at: the text after the
    start of the string and after each line feed. *)
Definition lines (s : pystr) : list pystr := split_class (eqc LF) s [].

Definition in_range (lo hi c : char) : bool := ((lo <=? c) && (c <=? hi))%N.

Definition one_of (cs : pystr) (c : char) : bool := existsb (eqc c) cs.

(** The maximal prefix of [s] inside a class, and what follows it. *)
Fixpoint span (cls : char -> bool) (s : pystr) : pystr * pystr :=
  match s with
  | [] => ([], [])
  | c :: s' =>
    if cls c then let '(a, b) := span cls s' in (c :: a, b)
    else ([], s)
  end.

(** What the Unicode character database decides. *)
Class Unicode := {
  lower : pystr -> pystr;      (* str.lower() *)
  isspace : char -> bool;      (* str.isspace(), regex \s *)
  isdecimal : char -> bool;    (* regex \d *)
  lower_empty : lower [] = []  (* ''.lower() == '' *)
}.

(** The restriction of the database to ASCII text. *)
Definition ascii_lower_char (c : char) : char :=
  if in_range 65 90 c then (c + 32)%N else c.

Definition ascii_isspace (c : char) : bool :=
  in_range 9 13 c || in_range 28 32 c.

Definition Ascii_text : Unicode :=
  {| lower := map ascii_lower_char;
     isspace := ascii_isspace;
     isdecimal := in_range 48 57;
     lower_empty := eq_refl |}.

Section Text.
Context {U : Unicode}.

(** [s.strip()]. *)
Fixpoint lstrip (s : pystr) : pystr :=
  match s with
  | [] => []
  | c :: s' => if isspace c then lstrip s' else s
  end.

Definition strip (s : pystr) : pystr := rev (lstrip (rev (lstrip s))).

(** [len(s.split())]: the number of maximal runs of non-blank
    characters; [inword] tells whether the scan is inside one. *)
Fixpoint count_words (s : pystr) (inword : bool) : nat :=
  match s with
  | [] => 0
  | c :: s' =>
    if isspace c then count_words s' false
    else if inword then count_words s' true
    else S (count_words s' true)
  end%nat.

Definition len_split (s : pystr) : Z := Z.of_nat (count_words s false).

End Text.

End Py.

Import Py.

(** ** Numbers and dictionaries *)

Definition get {V} (d : gmap string V) (k : string) (dflt : V) : V :=
  default dflt (d !! k).

Definition Qleb (a b : Q) : bool := Qle_bool a b.
Definition Qltb (a b : Q) : bool := negb (Qle_bool b a).

Infix "<=?" := Qleb : Q_scope.
Infix "<?" := Qltb : Q_scope.

Definition Z2Q (z : Z) : Q := inject_Z z.

(** The integer nearest to [x], a tie going to the even one. *)
Definition round_half_even (x : Q) : Z :=
  let f := Qfloor x in
  let r := (x - Z2Q f)%Q in
  if (r <? 0.5)%Q then f
  else if (0.5 <? r)%Q then f + 1
  else if Z.even f then f else f + 1.

(** ** Binary64 arithmetic *)

Module Binary64.

Definition pow2 (e : Z) : Q := (2 ^ e)%Q.

(** For [x > 0], the exponent [e] with [2^e <= x < 2^(e+1)]. *)
Definition ilog2 (x : Q) : Z :=
  let e := Z.log2 (Qnum x) - Z.log2 (Zpos (Qden x)) in
  if (pow2 e <=? x)%Q then e else e - 1.

(** For [x > 0], the float nearest to [x]: a significand of 53 bits,
    rounded to nearest, ties to even. *)
Definition nearest (x : Q) : Q :=
  let e := ilog2 x - 52 in
  (Z2Q (round_half_even (x / pow2 e)) * pow2 e)%Q.

Definition fl (x : Q) : Q :=
  match Qnum x with
  | Z0 => 0%Q
  | Zpos _ => nearest x
  | Zneg _ => (- nearest (- x))%Q
  end.

(** [x + y], [x * y] and [x / y] on floats; [n / m] on ints is [fdiv] of
    the two ints, the correctly rounded quotient. *)
Definition fadd (x y : Q) : Q := fl (x + y).
Definition fmul (x y : Q) : Q := fl (x * y).
Definition fdiv (x y : Q) : Q := fl (x / y).

(** [round(x, 1)]: the float nearest to the tenth nearest to [x]. *)
Definition round1 (x : Q) : Q := fl (Z2Q (round_half_even (x * 10)) / 10).

End Binary64.

Import Binary64.

Infix "⊕" := fadd (at level 50, left associativity).
Infix "⊗" := fmul (at level 40, left associativity).
Infix "⊘" := fdiv (at level 40, left associativity).

(** Outcome of a call that may raise. *)
Inductive exn := KeyError | ValueError | IndexError.

Inductive result (A : Type) :=
| Returned (a : A)
| Raised (e : exn).
Arguments Returned {A} a.
Arguments Raised {A} e.

(** Sequencing: an exception raised by the first call propagates. *)
#[global] Instance result_bind : MBind result :=
  fun A B (k : A -> result B) (r : result A) =>
    match r with
    | Returned a => k a
    | Raised e => Raised e
    end.

(** ** Python library functions used by the source *)

Module PyLib.

Section Sorted.
Context {A : Type} (key : A -> Q).

(** [sorted(l, key=key, reverse=True)]: a stable sort, the elements of
    equal key keep the order they have in [l]. [insert_desc x l] puts [x],
    which came before all of [l], in front of the first element whose key
    is not greater than its own. *)
Fixpoint insert_desc (x : A) (l : list A) : list A :=
  match l with
  | [] => [x]
  | y :: r => if (key x <? key y)%Q then y :: insert_desc x r else x :: y :: r
  end.

Definition sorted_desc (l : list A) : list A := foldr insert_desc [] l.

End Sorted.

(** [itertools.accumulate(ws)]: running sums. *)
Fixpoint accumulate_from (acc : Z) (ws : list Z) : list Z :=
  match ws with
  | [] => []
  | w :: r => (acc + w) :: accumulate_from (acc + w) r
  end.

Definition accumulate (ws : list Z) : list Z := accumulate_from 0 ws.

Definition midpoint (lo hi : nat) : nat := ((lo + hi) / 2)%nat.

(** [bisect.bisect_right(a, x, lo, hi)]:
    [while lo < hi: mid = (lo + hi) // 2;
       if x < a[mid]: hi = mid  else: lo = mid + 1] and [return lo]. *)
Equations bisect (a : list Z) (x : Q) (lo hi : nat) : result nat
  by wf (hi - lo)%nat lt :=
bisect a x lo hi with decide (lo < hi)%nat => {
  | right _ => Returned lo
  | left H with a !! midpoint lo hi => {
    | None => Raised IndexError
    | Some am with (x <? Z2Q am)%Q => {
      | true => bisect a x lo (midpoint lo hi)
      | false => bisect a x (S (midpoint lo hi)) hi } } }.
Next Obligation.
  intros. unfold midpoint.
  pose proof (Nat.div_mod_eq (lo + hi) 2).
  pose proof (Nat.mod_upper_bound (lo + hi) 2). lia.
Qed.
Next Obligation.
  intros. unfold midpoint.
  pose proof (Nat.div_mod_eq (lo + hi) 2).
  pose proof (Nat.mod_upper_bound (lo + hi) 2). lia.
Qed.

(** [random.choices(population, weights=weights)[0]], where [rnd] is the
    value that the generator's [random()] returns for the draw. *)
Definition choices {A} (population : list A) (weights : list Z) (rnd : Q)
  : result A :=
  let n := length population in
  let cum_weights := accumulate weights in
  if negb (length cum_weights =? n)%nat then Raised ValueError else
  match last cum_weights with
  | None => Raised IndexError                      (* cum_weights[-1] *)
  | Some w =>
    let total := Z2Q w ⊕ 0 in                      (* + 0.0 *)
    if (total <=? 0)%Q then Raised ValueError else
    let hi := (n - 1)%nat in
    i ← bisect cum_weights (rnd ⊗ total) 0 hi;
    match population !! i with
    | Some c => Returned c
    | None => Raised IndexError
    end
  end.

End PyLib.

(** ** src/discovery/error_finder.py *)

Module ErrorFinder.

(** An error candidate, as the three adapters build it. *)
Record candidate := {
  error_message : option pystr;
  source : option pystr;
  source_url : option pystr;
  title : option pystr;
  confidence_score : option Q
}.

(** [config['error_discovery']]: for each source its [enabled] flag, and
    the [selection_criteria] dict. *)
Record config := {
  sources_config : gmap string bool;
  criteria : gmap string Q
}.

(** What the three network adapters answer in one run. *)
Record adapters := {
  _search_stackoverflow : list candidate;
  _search_reddit : list candidate;
  _search_google_trends : list candidate
}.

(** [ArticleManager]: only [is_error_already_processed] is called. *)
Record article_manager := {
  is_error_already_processed : pystr -> bool
}.

Definition _calculate_stackoverflow_confidence (item : gmap string Z) : Q :=
  let score := get item "score" 0 in
  let view_count := get item "view_count" 0 in
  let answer_count := get item "answer_count" 0 in
  let confidence := 0.0%Q in
  let confidence :=
    if score >? 10 then confidence ⊕ fl 0.3
    else if score >? 5 then confidence ⊕ fl 0.2
    else if score >? 0 then confidence ⊕ fl 0.1
    else confidence in
  let confidence :=
    if view_count >? 1000 then confidence ⊕ fl 0.2
    else if view_count >? 500 then confidence ⊕ fl 0.1
    else confidence in
  let confidence :=
    if answer_count >? 2 then confidence ⊕ fl 0.3
    else if answer_count >? 0 then confidence ⊕ fl 0.2
    else confidence in
  Qmin confidence 1.0.

Definition _calculate_reddit_confidence (post_data : gmap string Z) : Q :=
  let upvotes := get post_data "ups" 0 in
  let comments := get post_data "num_comments" 0 in
  let confidence := 0.0%Q in
  let confidence :=
    if upvotes >? 50 then confidence ⊕ fl 0.4
    else if upvotes >? 20 then confidence ⊕ fl 0.3
    else if upvotes >? 5 then confidence ⊕ fl 0.2
    else confidence in
  let confidence :=
    if comments >? 20 then confidence ⊕ fl 0.3
    else if comments >? 10 then confidence ⊕ fl 0.2
    else if comments >? 5 then confidence ⊕ fl 0.1
    else confidence in
  Qmin confidence 1.0.

Section Finder.
Context {U : Unicode}.

(** [candidate.get('confidence_score', 0)]. *)
Definition confidence (c : candidate) : Q := default 0%Q (confidence_score c).

(** [candidate.get('error_message', '')]. *)
Definition message (c : candidate) : pystr := default [] (error_message c).

Definition exclude_keywords : list pystr :=
  [py "test"; py "sample"; py "example"; py "dummy"].

(** One turn of the loop of [_filter_candidates]: [false] where the source
    says [continue], [true] where it reaches [filtered.append]. *)
Definition keeps (cfg : config) (c : candidate) : bool :=
  let min_confidence := get (criteria cfg) "min_confidence_score" 0.5%Q in
  if (confidence c <? min_confidence)%Q then false else
  let error_msg := lower (message c) in
  if len error_msg <? 10 then false else
  if existsb (fun keyword => contains keyword error_msg) exclude_keywords
  then false else
  true.

Fixpoint _filter_candidates (cfg : config) (candidates : list candidate)
  : list candidate :=
  match candidates with
  | [] => []
  | c :: rest =>
    if keeps cfg c then c :: _filter_candidates cfg rest
    else _filter_candidates cfg rest
  end.

(** Lines 79-92: the candidates that history has not seen; without an
    article manager the list is left as it is. *)
Fixpoint unique_candidates (am : article_manager) (filtered : list candidate)
  : list candidate :=
  match filtered with
  | [] => []
  | c :: rest =>
    if negb (is_error_already_processed am (message c))
    then c :: unique_candidates am rest
    else unique_candidates am rest
  end.

Definition top_count (sorted_candidates : list candidate) : Z :=
  Z.max 3 (len sorted_candidates / 3).

Definition top_candidates (filtered : list candidate) : list candidate :=
  let sorted_candidates := PyLib.sorted_desc confidence filtered in
  take (Z.to_nat (top_count sorted_candidates)) sorted_candidates.

(** [weights]: one entry per window position [i], [max(1, 4 - i)]. *)
Definition weights (top : list candidate) : list Z :=
  imap (fun i _ => Z.max 1 (4 - Z.of_nat i)) top.

(** Lines 94-113. The logging line reads [best_candidate['error_message']]
    and raises [KeyError] when the key is absent. *)
Definition select (filtered : list candidate) (rnd : Q) : result candidate :=
  let top := top_candidates filtered in
  best_candidate ← PyLib.choices top (weights top) rnd;
  match error_message best_candidate with
  | None => Raised KeyError
  | Some _ => Returned best_candidate
  end.

Definition enabled (cfg : config) (src : string) : bool :=
  get (sources_config cfg) src false.

Definition all_candidates (cfg : config) (net : adapters) : list candidate :=
  let all := [] in
  let all := if enabled cfg "stackoverflow"
             then all ++ _search_stackoverflow net else all in
  let all := if enabled cfg "reddit"
             then all ++ _search_reddit net else all in
  let all := if enabled cfg "google_trends"
             then all ++ _search_google_trends net else all in
  all.

Definition find_trending_error (cfg : config) (net : adapters)
    (manager : option article_manager) (rnd : Q)
  : result (option candidate) :=
  let all := all_candidates cfg net in
  if negb (truthy all) then Returned None else
  let filtered_candidates := _filter_candidates cfg all in
  if negb (truthy filtered_candidates) then Returned None else
  match manager with
  | Some am =>
    let unique := unique_candidates am filtered_candidates in
    if negb (truthy unique) then Returned None else
    best ← select unique rnd; Returned (Some best)
  | None =>
    best ← select filtered_candidates rnd; Returned (Some best)
  end.

(** The filter stage as a whole: [_filter_candidates] followed by the
    history check of [find_trending_error]. *)
Definition survivors (cfg : config) (manager : option article_manager)
    (pool : list candidate) : list candidate :=
  let filtered := _filter_candidates cfg pool in
  match manager with
  | Some am => unique_candidates am filtered
  | None => filtered
  end.

End Finder.

End ErrorFinder.

(** ** src/collection/info_collector.py *)

Module InfoCollector.

(** A solution fragment. *)
Record solution := {
  description : option pystr;
  steps : option pystr;
  reliability : option Q;
  source_url : option pystr;
  source_title : option pystr
}.

(** A source citation. *)
Record source := {
  title : option pystr;
  url : option pystr;
  type_ : option pystr;
  source_reliability : option Q
}.

Record collection_summary := {
  total_solutions : Z;
  total_sources : Z;
  collection_time : Q;
  reliability_scores : list Q;
  avg_reliability : Q
}.

Record integrated_info := {
  error_message : pystr;
  error_candidate : ErrorFinder.candidate;
  solutions : list solution;
  sources : list source;
  summary : collection_summary
}.

(** The two list objects that the caller passes by reference, as they are
    in memory. *)
Record heap := {
  solutions_list : list solution;
  sources_list : list source
}.

(** [x.get('reliability', 0)]. *)
Definition reliability_of (x : solution) : Q := default 0%Q (reliability x).

(** [source.get('url', '')]. *)
Definition url_of (x : source) : pystr := default [] (url x).

(** The loop of lines 388-394, with its two accumulators. *)
Fixpoint unique_loop (srcs : list source) (seen_urls : gset pystr)
    (unique_sources : list source) : list source :=
  match srcs with
  | [] => unique_sources
  | src :: rest =>
    let u := url_of src in
    if truthy u && bool_decide (u ∉ seen_urls)
    then unique_loop rest ({[u]} ∪ seen_urls) (unique_sources ++ [src])
    else unique_loop rest seen_urls unique_sources
  end.

(** [sum(...)] over floats: additions from left to right (from Python
    3.12 on the rounding errors of the additions are compensated). *)
Definition sum_Q (qs : list Q) : Q := foldl fadd 0%Q qs.

(** [_integrate_information(error_candidate, solutions, sources)], with
    [now] the value of [time.time()]. The result comes with the heap after
    the call: [solutions.sort(...)] sorts the caller's list in place. *)
Definition _integrate_information (error_candidate : ErrorFinder.candidate)
    (now : Q) (h : heap) : integrated_info * heap :=
  let solutions := PyLib.sorted_desc reliability_of (solutions_list h) in
  let h' := {| solutions_list := solutions; sources_list := sources_list h |} in
  let unique_sources := unique_loop (sources_list h) ∅ [] in
  ({| error_message := default [] (ErrorFinder.error_message error_candidate);
      error_candidate := error_candidate;
      solutions := take 10 solutions;
      sources := take 15 unique_sources;
      summary :=
        {| total_solutions := len solutions;
           total_sources := len unique_sources;
           collection_time := now;
           reliability_scores := map reliability_of solutions;
           avg_reliability :=
             if truthy solutions
             then sum_Q (map reliability_of solutions) ⊘ Z2Q (len solutions)
             else 0%Q |} |},
   h').

End InfoCollector.

(** ** src/publication/quality_checker.py *)

Module QualityChecker.

Inductive severity := low | medium | high.

(** The issue messages of the source; the values that its f-strings
    interpolate are the arguments. *)
Inductive message :=
| word_count_short (word_count : Z) (min_words : Q)  (* 文字数不足 *)
| word_count_long (word_count : Z) (max_words : Q)   (* 文字数過多 *)
| title_missing                                      (* タイトルがありません *)
| title_short                                        (* タイトルが短すぎます *)
| title_long                                         (* タイトルが長すぎます *)
| content_missing                                    (* コンテンツがありません *)
| excerpt_missing              (* メタディスクリプションがありません *)
| excerpt_length               (* メタディスクリプションの長さが不適切です *)
| keyword_not_in_title         (* タイトルにメインキーワードが含まれていません *)
| keyword_not_in_excerpt       (* メタディスクリプションにキーワードが含まれていません *)
| density_low (keyword_density : Q)                  (* キーワード密度が低すぎます *)
| density_high (keyword_density : Q)                 (* キーワード密度が高すぎます *)
| keyword_rare                 (* キーワードがコンテンツに十分含まれていません *)
| slug_format                                        (* スラッグの形式が不適切です *)
| tags_few                                           (* タグの数が少なすぎます *)
| tags_missing                                       (* タグが設定されていません *)
| images_without_alt (n : Z)                 (* n個の画像にALTテキストがありません *)
| h1_missing                                         (* H1見出しがありません *)
| h1_many (h1_count : Z)                             (* H1見出しが複数あります *)
| h2_few                                             (* H2見出しの数が少なすぎます *)
| h2_missing                                         (* H2見出しがありません *)
| list_few                                           (* リストアイテムが少なすぎます *)
| list_missing                                       (* リストが含まれていません *)
| paragraphs_long (n : Z)                            (* n個の段落が長すぎます *)
| sentences_long                                     (* 長すぎる文が多すぎます *)
| kanji_density_off (kanji_density : Q)              (* 漢字密度が不適切です *)
| connectives_few                                    (* 接続詞の使用が少なすぎます *)
| blank_lines_few                                    (* 改行や空白行が少なすぎます *)
| title_repeats                                      (* タイトルに重複表現があります *)
| url_invalid (url : pystr)                          (* 無効なURL形式 *)
| check_error (e : exn).                             (* 品質チェックエラー *)

Record issue := {
  issue_message : message;
  issue_severity : severity
}.

Definition Issue (m : message) (s : severity) : issue :=
  {| issue_message := m; issue_severity := s |}.

(** [i.get('severity') == 'high']. *)
Definition is_high (i : issue) : bool :=
  match issue_severity i with high => true | _ => false end.
Definition is_medium (i : issue) : bool :=
  match issue_severity i with medium => true | _ => false end.
Definition is_low (i : issue) : bool :=
  match issue_severity i with low => true | _ => false end.

(** The dict that each sub-check returns. The early return of
    [_check_readability] has no ['passed'] key. *)
Record check_result := {
  score : Z;
  max_score : Z;
  issues : list issue;
  passed : option bool
}.

(** The dict that [_check_duplicates] and [_check_links] return. *)
Record flag_result := {
  flag_passed : bool;
  flag_issues : list issue
}.

Record article := {
  title : option pystr;
  content : option pystr;
  excerpt : option pystr;
  error_message : option pystr;
  slug : option pystr;
  tags : option (list pystr);
  html_content : option pystr;
  word_count : option Z
}.

(** [config['quality']]: the [thresholds] and [checks] dicts. *)
Record config := {
  thresholds : gmap string Q;
  checks_config : gmap string bool
}.

Record detailed_results := {
  basic_quality : check_result;
  seo_quality : check_result;
  content_structure : check_result;
  readability : check_result;
  duplicate_check : option flag_result;
  link_validation : option flag_result
}.

Record summary := {
  total_issues : Z;
  high_severity_issues : Z;
  medium_severity_issues : Z;
  low_severity_issues : Z
}.

(** The report; the one built by the [except] clause has neither
    ['detailed_results'] nor ['summary']. *)
Record report := {
  report_passed : bool;
  overall_score : Q;
  seo_score : Q;
  readability_score : Q;
  report_issues : list issue;
  report_details : option detailed_results;
  report_summary : option summary
}.

(** [urllib.parse.urlparse(url)]: the scheme and the netloc of the result,
    or the [ValueError] it raises on a malformed netloc. *)
Class UrlLib := {
  urlparse : pystr -> result (pystr * pystr)
}.

Section Checker.
Context {U : Unicode} {L : UrlLib}.

Definition _check_basic_quality (cfg : config) (article_data : article)
  : check_result :=
  let score := 0 in
  let max_score := 100 in
  let issues := [] in
  let word_count := default 0 (word_count article_data) in
  let min_words := get (thresholds cfg) "min_word_count" 2000%Q in
  let max_words := get (thresholds cfg) "max_word_count" 8000%Q in
  let '(score, issues) :=
    if (Z2Q word_count <? min_words)%Q
    then (score, issues ++ [Issue (word_count_short word_count min_words) high])
    else if (max_words <? Z2Q word_count)%Q
    then (score, issues ++ [Issue (word_count_long word_count max_words) medium])
    else (score + 30, issues) in
  let title := default [] (title article_data) in
  let '(score, issues) :=
    if negb (truthy title) then (score, issues ++ [Issue title_missing high])
    else if len title <? 20 then (score, issues ++ [Issue title_short medium])
    else if len title >? 70 then (score, issues ++ [Issue title_long medium])
    else (score + 25, issues) in
  let content := default [] (content article_data) in
  let '(score, issues) :=
    if negb (truthy content)
    then (score, issues ++ [Issue content_missing high])
    else (score + 20, issues) in
  let excerpt := default [] (excerpt article_data) in
  let '(score, issues) :=
    if negb (truthy excerpt)
    then (score, issues ++ [Issue excerpt_missing medium])
    else if (len excerpt <? 100) || (len excerpt >? 160)
    then (score, issues ++ [Issue excerpt_length low])
    else (score + 25, issues) in
  {| score := score; max_score := max_score; issues := issues;
     passed := Some (score >=? 70) |}.

(** Lines 218-242: the keyword-density block, entered when
    [error_message] is non-empty; it updates [score] and [issues]. *)
Definition keyword_density (content error_message : pystr) : Q :=
  let keyword_count := count (lower error_message) (lower content) in
  let content_words := len_split content in
  Z2Q keyword_count ⊘ Z2Q content_words ⊗ 100.

Definition density_block (content error_message : pystr)
    (st : Z * list issue) : Z * list issue :=
  let '(score, issues) := st in
  if truthy content then
    let content_words := len_split content in
    if content_words >? 0 then
      let keyword_density := keyword_density content error_message in
      if (1 <=? keyword_density)%Q && (keyword_density <=? 3)%Q
      then (score + 25, issues)
      else if (0.5 <=? keyword_density)%Q && (keyword_density <? 1)%Q
      then (score + 15, issues ++ [Issue (density_low keyword_density) low])
      else if (3 <? keyword_density)%Q
      then (score, issues ++ [Issue (density_high keyword_density) medium])
      else (score, issues ++ [Issue keyword_rare medium])
    else (score, issues)
  else (score, issues).

(** [re.match(r'^[a-z0-9\-]+$', slug)]; [$] also matches before a line
    feed that ends the string. *)
Definition slug_char (c : char) : bool :=
  in_range 97 122 c || in_range 48 57 c || eqc c 45.

Definition slug_matches (slug : pystr) : bool :=
  let '(run, rest) := span slug_char slug in
  truthy run &&
  match rest with
  | [] => true
  | [c] => eqc c LF
  | _ => false
  end.

(** [re.findall(r'<img[^>]*>', html_content)]. *)
Fixpoint findall_img (s : pystr) (skip : nat) : list pystr :=
  match s with
  | [] => []
  | _ :: s' =>
    match skip with
    | S k => findall_img s' k
    | O =>
      if startswith (py "<img") s then
        let '(body, rest) := span (fun c => negb (eqc c 62)) (drop 4 s) in
        match rest with
        | [] => findall_img s' 0
        | gt :: _ =>
          let tag := py "<img" ++ body ++ [gt] in
          tag :: findall_img s' (pred (length tag))
        end
      else findall_img s' 0
    end
  end.

Definition _check_seo_quality (article_data : article) : check_result :=
  let score := 0 in
  let max_score := 100 in
  let issues := [] in
  let title := default [] (title article_data) in
  let content := default [] (content article_data) in
  let excerpt := default [] (excerpt article_data) in
  let error_message := default [] (error_message article_data) in
  let '(score, issues) :=
    if truthy error_message then
      let '(score, issues) :=
        if contains (lower error_message) (lower title)
        then (score + 20, issues)
        else (score, issues ++ [Issue keyword_not_in_title high]) in
      let '(score, issues) :=
        if contains (lower error_message) (lower excerpt)
        then (score + 15, issues)
        else (score, issues ++ [Issue keyword_not_in_excerpt medium]) in
      density_block content error_message (score, issues)
    else (score, issues) in
  let slug := default [] (slug article_data) in
  let '(score, issues) :=
    if truthy slug then
      if slug_matches slug then (score + 10, issues)
      else (score, issues ++ [Issue slug_format low])
    else (score, issues) in
  let tags := default [] (tags article_data) in
  let '(score, issues) :=
    if len tags >=? 3 then (score + 15, issues)
    else if len tags >=? 1 then (score + 10, issues ++ [Issue tags_few low])
    else (score, issues ++ [Issue tags_missing medium]) in
  let html_content := default [] (html_content article_data) in
  let '(score, issues) :=
    if truthy html_content then
      let img_tags := findall_img html_content 0 in
      let img_without_alt :=
        List.filter (fun img => negb (contains (py "alt=") img)) img_tags in
      if truthy img_without_alt
      then (score, issues ++ [Issue (images_without_alt (len img_without_alt)) medium])
      else (score + 15, issues)
    else (score, issues) in
  {| score := score; max_score := max_score; issues := issues;
     passed := Some (score >=? 60) |}.

(** [len(re.findall(r'^P', content, re.MULTILINE))] for a pattern [P] that
    stays on its line: the number of lines that [P] matches at their
    start. *)
Definition count_lines (matches : pystr -> bool) (content : pystr) : Z :=
  len (List.filter matches (lines content)).

(** [[-*+] ] or [\d+\. ] at the start of a line. *)
Definition list_item (l : pystr) : bool :=
  match l with
  | c :: sp :: _ => one_of (py "-*+") c && eqc sp 32
  | _ => false
  end ||
  (let '(digits, rest) := span isdecimal l in
   truthy digits && startswith (py ". ") rest).

Definition _check_content_structure (article_data : article) : check_result :=
  let score := 0 in
  let max_score := 100 in
  let issues := [] in
  let content := default [] (content article_data) in
  let h1_count := count_lines (startswith (py "# ")) content in
  let h2_count := count_lines (startswith (py "## ")) content in
  let h3_count := count_lines (startswith (py "### ")) content in
  let '(score, issues) :=
    if h1_count =? 1 then (score + 20, issues)
    else if h1_count =? 0 then (score, issues ++ [Issue h1_missing high])
    else (score, issues ++ [Issue (h1_many h1_count) medium]) in
  let '(score, issues) :=
    if h2_count >=? 3 then (score + 25, issues)
    else if h2_count >=? 1 then (score + 15, issues ++ [Issue h2_few low])
    else (score, issues ++ [Issue h2_missing medium]) in
  let score :=
    if h3_count >=? 2 then score + 15
    else if h3_count >=? 1 then score + 10
    else score in
  let list_count := count_lines list_item content in
  let '(score, issues) :=
    if list_count >=? 3 then (score + 20, issues)
    else if list_count >=? 1 then (score + 10, issues ++ [Issue list_few low])
    else (score, issues ++ [Issue list_missing low]) in
  let code_blocks := count (py "```") content in
  let score := if code_blocks >=? 2 then score + 10 else score in
  let paragraphs := split [LF; LF] content in
  let long_paragraphs := List.filter (fun p => len p >? 500) paragraphs in
  let '(score, issues) :=
    if truthy long_paragraphs
    then (score, issues ++ [Issue (paragraphs_long (len long_paragraphs)) low])
    else (score + 10, issues) in
  {| score := score; max_score := max_score; issues := issues;
     passed := Some (score >=? 60) |}.

(** [re.search(rf'{term}[（\(].*?[）\)]', content)]: the term, an opening
    bracket right after it, and a closing one further on the same line. *)
Fixpoint closes (s : pystr) : bool :=
  match s with
  | [] => false
  | c :: s' =>
    if one_of (py "）)") c then true
    else if eqc c LF then false
    else closes s'
  end.

Definition explained_here (term s : pystr) : bool :=
  startswith term s &&
  match drop (length term) s with
  | c :: rest => one_of (py "（(") c && closes rest
  | [] => false
  end.

Fixpoint explained (term s : pystr) : bool :=
  explained_here term s ||
  match s with
  | [] => false
  | _ :: s' => explained term s'
  end.

(** [re.findall(r'\n\s*\n', content)]. After a line feed,
    [blank_close r] is the length of the longest prefix of [r] that is
    blank and ends in a line feed. *)
Fixpoint blank_close (r : pystr) : option nat :=
  match r with
  | [] => None
  | c :: r' =>
    if isspace c then
      match blank_close r' with
      | Some k => Some (S k)
      | None => if eqc c LF then Some 1%nat else None
      end
    else if eqc c LF then Some 1%nat else None
  end.

Fixpoint count_blank (s : pystr) (skip : nat) : nat :=
  match s with
  | [] => 0
  | c :: s' =>
    match skip with
    | S k => count_blank s' k
    | O =>
      if eqc c LF then
        match blank_close s' with
        | Some k => S (count_blank s' k)
        | None => count_blank s' 0
        end
      else count_blank s' 0
    end
  end%nat.

Definition technical_terms : list pystr :=
  [py "API"; py "SQL"; py "HTTP"; py "URL"; py "OS"; py "CPU"; py "RAM"].

Definition connectives : list pystr :=
  [py "しかし"; py "ただし"; py "また"; py "さらに"; py "そのため";
   py "つまり"; py "なお"].

(** [sum(...)] over a list of ints. *)
Definition sum_Z (zs : list Z) : Z := foldl Z.add 0 zs.

Definition _check_readability (article_data : article) : check_result :=
  let score := 0 in
  let max_score := 100 in
  let issues := [] in
  let content := default [] (content article_data) in
  if negb (truthy content) then
    {| score := 0; max_score := max_score;
       issues := [Issue content_missing high]; passed := None |}
  else
  let sentences := split_class (one_of (py "。！？")) content [] in
  let long_sentences :=
    List.filter (fun s => len (strip s) >? 100) sentences in
  let '(score, issues) :=
    if (Z2Q (len long_sentences) ⊘ Z2Q (len sentences) <? fl 0.2)%Q
    then (score + 25, issues)
    else (score, issues ++ [Issue sentences_long medium]) in
  let kanji_count := len (List.filter (in_range 19968 40879) content) in
  let total_chars := len (List.filter (fun c => negb (isspace c)) content) in
  let '(score, issues) :=
    if total_chars >? 0 then
      let kanji_density := Z2Q kanji_count ⊘ Z2Q total_chars in
      if (fl 0.2 <=? kanji_density)%Q && (kanji_density <=? fl 0.4)%Q
      then (score + 25, issues)
      else (score, issues ++ [Issue (kanji_density_off kanji_density) low])
    else (score, issues) in
  let explained_terms :=
    len (List.filter
           (fun term => contains term content && explained term content)
           technical_terms) in
  let score := if explained_terms >? 0 then score + 15 else score in
  let connective_count :=
    sum_Z (map (fun conn => count conn content) connectives) in
  let '(score, issues) :=
    if connective_count >=? 3 then (score + 15, issues)
    else if connective_count >=? 1 then (score + 10, issues)
    else (score, issues ++ [Issue connectives_few low]) in
  let empty_lines := Z.of_nat (count_blank content 0) in
  let '(score, issues) :=
    if empty_lines >=? 5 then (score + 20, issues)
    else if empty_lines >=? 2 then (score + 15, issues)
    else (score, issues ++ [Issue blank_lines_few low]) in
  {| score := score; max_score := max_score; issues := issues;
     passed := Some (score >=? 60) |}.

Definition _check_duplicates (article_data : article) : flag_result :=
  let issues := [] in
  let title := default [] (title article_data) in
  let issues :=
    if count (py "解決方法") title >? 1
    then issues ++ [Issue title_repeats low]
    else issues in
  {| flag_passed := negb (truthy issues); flag_issues := issues |}.

(** [re.findall(r'\[([^\]]+)\]\(([^)]+)\)', content)]: the url of each
    Markdown link. [link_here s] reads a link at the start of [s] and
    gives its url and its length. *)
Definition link_here (s : pystr) : option (pystr * nat) :=
  match s with
  | 91%N :: r =>
    let '(text, r1) := span (fun c => negb (eqc c 93)) r in
    match text, r1 with
    | _ :: _, _ :: 40%N :: r2 =>
      let '(url, r3) := span (fun c => negb (eqc c 41)) r2 in
      match url, r3 with
      | _ :: _, _ :: _ => Some (url, (length text + length url + 4)%nat)
      | _, _ => None
      end
    | _, _ => None
    end
  | _ => None
  end.

Fixpoint findall_links (s : pystr) (skip : nat) : list pystr :=
  match s with
  | [] => []
  | _ :: s' =>
    match skip with
    | S k => findall_links s' k
    | O =>
      match link_here s with
      | Some (url, n) => url :: findall_links s' (pred n)
      | None => findall_links s' 0
      end
    end
  end.

(** The loop of [_check_links]; [urlparse] may raise. *)
Fixpoint links_loop (links : list pystr) (issues : list issue)
  : result (list issue) :=
  match links with
  | [] => Returned issues
  | url :: rest =>
    parsed ← urlparse url;
    let '(scheme, netloc) := parsed in
    if negb (truthy scheme) || negb (truthy netloc)
    then links_loop rest (issues ++ [Issue (url_invalid url) medium])
    else links_loop rest issues
  end.

Definition _check_links (article_data : article) : result flag_result :=
  let content := default [] (content article_data) in
  let links := findall_links content 0 in
  issues ← links_loop links [];
  Returned {| flag_passed := negb (truthy issues); flag_issues := issues |}.

(** [len([i for i in issues if i.get('severity') == s])]. *)
Definition count_severity (is_s : issue -> bool) (issues : list issue) : Z :=
  len (List.filter is_s issues).

(** The state of [check_quality] when its six checks are done (lines
    47-92): the two running sums, the issues collected and the results of
    the checks. *)
Record tally := {
  total_score : Z;
  tally_max_score : Z;
  tally_issues : list issue;
  check_results : detailed_results
}.

Definition run_checks (cfg : config) (article_data : article) : result tally :=
  let issues := [] in
  let total_score := 0 in
  let max_score := 0 in
  let basic_result := _check_basic_quality cfg article_data in
  let total_score := total_score + score basic_result in
  let max_score := max_score + QualityChecker.max_score basic_result in
  let issues := issues ++ QualityChecker.issues basic_result in
  let seo_result := _check_seo_quality article_data in
  let total_score := total_score + score seo_result in
  let max_score := max_score + QualityChecker.max_score seo_result in
  let issues := issues ++ QualityChecker.issues seo_result in
  let structure_result := _check_content_structure article_data in
  let total_score := total_score + score structure_result in
  let max_score := max_score + QualityChecker.max_score structure_result in
  let issues := issues ++ QualityChecker.issues structure_result in
  let readability_result := _check_readability article_data in
  let total_score := total_score + score readability_result in
  let max_score := max_score + QualityChecker.max_score readability_result in
  let issues := issues ++ QualityChecker.issues readability_result in
  let '(duplicate_result, issues) :=
    if get (checks_config cfg) "duplicate_detection" false then
      let duplicate_result := _check_duplicates article_data in
      (Some duplicate_result,
       if negb (flag_passed duplicate_result)
       then issues ++ flag_issues duplicate_result else issues)
    else (None, issues) in
  link_and_issues ←
    (if get (checks_config cfg) "link_validation" false then
       link_result ← _check_links article_data;
       Returned (Some link_result,
                 if negb (flag_passed link_result)
                 then issues ++ flag_issues link_result else issues)
     else Returned (None, issues));
  let '(link_result, issues) := link_and_issues in
  Returned
    {| total_score := total_score;
       tally_max_score := max_score;
       tally_issues := issues;
       check_results :=
         {| basic_quality := basic_result;
            seo_quality := seo_result;
            content_structure := structure_result;
            readability := readability_result;
            duplicate_check := duplicate_result;
            link_validation := link_result |} |}.

(** Line 95: [(total_score / max_score * 100) if max_score > 0 else 0]. *)
Definition overall (t : tally) : Q :=
  if tally_max_score t >? 0
  then Z2Q (total_score t) ⊘ Z2Q (tally_max_score t) ⊗ 100
  else 0%Q.

(** [round(r['score'] / r['max_score'] * 100, 1) if r['max_score'] > 0
    else 0]. *)
Definition percent (r : check_result) : Q :=
  if max_score r >? 0
  then round1 (Z2Q (score r) ⊘ Z2Q (max_score r) ⊗ 100)
  else 0%Q.

(** Lines 94-114: the verdict and the report. *)
Definition verdict (cfg : config) (t : tally) : report :=
  let overall_score := overall t in
  let issues := tally_issues t in
  let min_score := get (thresholds cfg) "min_seo_score" 70%Q in
  let passed :=
    (min_score <=? overall_score)%Q &&
    (count_severity is_high issues =? 0) in
  {| report_passed := passed;
     overall_score := round1 overall_score;
     seo_score := percent (seo_quality (check_results t));
     readability_score := percent (readability (check_results t));
     report_issues := issues;
     report_details := Some (check_results t);
     report_summary :=
       Some {| total_issues := len issues;
               high_severity_issues := count_severity is_high issues;
               medium_severity_issues := count_severity is_medium issues;
               low_severity_issues := count_severity is_low issues |} |}.

(** The body of the [try] block of [check_quality]. *)
Definition check_quality_body (cfg : config) (article_data : article)
  : result report :=
  t ← run_checks cfg article_data;
  Returned (verdict cfg t).

(** [check_quality]: the [except] clause turns an exception into a failed
    report. *)
Definition check_quality (cfg : config) (article_data : article) : report :=
  match check_quality_body cfg article_data with
  | Returned result => result
  | Raised e =>
    {| report_passed := false;
       overall_score := 0%Q;
       seo_score := 0%Q;
       readability_score := 0%Q;
       report_issues := [Issue (check_error e) high];
       report_details := None;
       report_summary := None |}
  end.

End Checker.

End QualityChecker.

(** ** src/utils/article_manager.py *)

Module ArticleManager.

(** What [re] and [int] take from the Unicode database: the class [\w],
    and the class [\d] with the value that [int] gives to each of its
    digits. The ASCII letters, digits and the underscore are word
    characters, and the ASCII digits have their usual value. *)
Class WordTable := {
  isword : char -> bool;
  digit_value : char -> option Z;
  isword_ascii : forall c,
    in_range 48 57 c || in_range 65 90 c || in_range 97 122 c || eqc c 95
      = true -> isword c = true;
  digit_value_ascii : forall c,
    in_range 48 57 c = true -> digit_value c = Some (Z.of_N c - 48);
  digit_value_range : forall c v, digit_value c = Some v -> 0 <= v <= 9
}.

(** The table restricted to ASCII. *)
Definition ascii_isword (c : char) : bool :=
  in_range 48 57 c || in_range 65 90 c || in_range 97 122 c || eqc c 95.

Definition ascii_digit_value (c : char) : option Z :=
  if in_range 48 57 c then Some (Z.of_N c - 48) else None.

(** [s.lstrip(chars)], [s.rstrip(chars)] and [s.strip(chars)] for the
    characters of a class. *)
Fixpoint lstrip_of (cls : char -> bool) (s : pystr) : pystr :=
  match s with
  | [] => []
  | c :: s' => if cls c then lstrip_of cls s' else s
  end.

Definition rstrip_of (cls : char -> bool) (s : pystr) : pystr :=
  rev (lstrip_of cls (rev s)).

Definition strip_of (cls : char -> bool) (s : pystr) : pystr :=
  rstrip_of cls (lstrip_of cls s).

(** [s.replace(old, new)] for a non-empty [old]: the occurrences of [old]
    are found from left to right and do not overlap. *)
Fixpoint replace_from (old new s : pystr) (skip : nat) : pystr :=
  match s with
  | [] => []
  | c :: s' =>
    match skip with
    | S k => replace_from old new s' k
    | O => if startswith old s
           then new ++ replace_from old new s' (pred (length old))
           else c :: replace_from old new s' 0
    end
  end.

Definition replace (old new s : pystr) : pystr := replace_from old new s 0.

(** [s.split(sep, 1)] for a separator of one character. *)
Definition split_once (sep : char) (s : pystr) : list pystr :=
  let '(before, rest) := span (fun c => negb (eqc c sep)) s in
  match rest with
  | [] => [before]
  | _ :: after => [before; after]
  end.

(** [str(n)] for [n >= 0]: the decimal digits, the most significant
    first. [fuel] bounds the number of digits. *)
Fixpoint digits (fuel : nat) (n : Z) : pystr :=
  match fuel with
  | O => []
  | S f =>
    (if n <? 10 then [] else digits f (n / 10)) ++ [Z.to_N (48 + n mod 10)]
  end.

Definition str_int (n : Z) : pystr := digits (S (Z.to_nat (Z.log2 n))) n.

(** [f"{n:04d}"] for [n >= 0]: zeros in front up to a width of four. *)
Definition format_04d (n : Z) : pystr :=
  let s := str_int n in
  repeat 48%N (4 - length s) ++ s.

(** An entry of the articles directory: what [iterdir()] yields, with the
    answer of [is_dir()]. *)
Record item := {
  name : pystr;
  is_dir : bool
}.

(** The outcome of a call into the file system. *)
Inductive os_result (A : Type) :=
| Done (a : A)
| FileExistsError.
Arguments Done {A} a.
Arguments FileExistsError {A}.

(** [(articles_dir / dir_name).mkdir(exist_ok=True)]: an existing
    directory of that name is left as it is, an existing file of that name
    raises. *)
Definition mkdir_exist_ok (articles_dir : list item) (dir_name : pystr)
  : os_result (list item) :=
  match List.find (fun i => bool_decide (name i = dir_name)) articles_dir with
  | Some i => if is_dir i then Done articles_dir else FileExistsError
  | None => Done (articles_dir ++ [{| name := dir_name; is_dir := true |}])
  end.

Definition underscore : char := 95.

Section Manager.
Context {W : WordTable}.

(** [re.sub(r'[^\w\-_]', '_', error_message)]. *)
Definition safe_char (c : char) : bool :=
  isword c || eqc c 45 || eqc c underscore.

Definition sub_unsafe (s : pystr) : pystr :=
  map (fun c => if safe_char c then c else underscore) s.

(** [re.sub(r'_+', '_', s)]: [in_run] tells that the character before was
    an underscore, which has been written already. *)
Fixpoint sub_runs (s : pystr) (in_run : bool) : pystr :=
  match s with
  | [] => []
  | c :: s' =>
    if eqc c underscore
    then if in_run then sub_runs s' true else underscore :: sub_runs s' true
    else c :: sub_runs s' false
  end.

Definition _sanitize_error_name (error_message : pystr) : pystr :=
  let safe_name := sub_unsafe error_message in
  let safe_name := sub_runs safe_name false in
  let safe_name := strip_of (eqc underscore) safe_name in
  let safe_name :=
    if len safe_name >? 50
    then rstrip_of (eqc underscore) (take 50 safe_name)
    else safe_name in
  if negb (truthy safe_name) then py "UNKNOWN_ERROR" else safe_name.

(** One turn of the loop of [is_error_already_processed] on a directory
    name: [true] where the source returns [True]. *)
Definition names_error (sanitized_error dir_name : pystr) : bool :=
  match split_once underscore dir_name with
  | _ :: part :: _ =>
    let error_part := replace (py "_記事") [] part in
    bool_decide (error_part = sanitized_error)
  | _ => false
  end.

Definition is_error_already_processed (articles_dir : list item)
    (error_message : pystr) : bool :=
  let sanitized_error := _sanitize_error_name error_message in
  existsb (fun i => is_dir i && names_error sanitized_error (name i))
    articles_dir.

(** [re.match(r'^(\d{4})_', name)] followed by [int(match.group(1))]. *)
Definition article_number (dir_name : pystr) : option Z :=
  match dir_name with
  | a :: b :: c :: d :: u :: _ =>
    if eqc u underscore then
      a ← digit_value a; b ← digit_value b;
      c ← digit_value c; d ← digit_value d;
      Some (((a * 10 + b) * 10 + c) * 10 + d)
    else None
  | _ => None
  end.

(** The list [existing_dirs] when the scan is over. *)
Fixpoint existing_dirs (articles_dir : list item) : list Z :=
  match articles_dir with
  | [] => []
  | i :: rest =>
    if is_dir i then
      match article_number (name i) with
      | Some n => n :: existing_dirs rest
      | None => existing_dirs rest
      end
    else existing_dirs rest
  end.

Definition get_next_article_number (articles_dir : list item) : Z :=
  match existing_dirs articles_dir with
  | [] => 1
  | n :: ns => foldl Z.max n ns + 1
  end.

(** [create_article_directory]: the name of the directory and the
    articles directory after the call. *)
Definition create_article_directory (articles_dir : list item)
    (error_message : pystr) : os_result (pystr * list item) :=
  let article_number := get_next_article_number articles_dir in
  let safe_error_name := _sanitize_error_name error_message in
  let dir_name :=
    format_04d article_number ++ py "_" ++ safe_error_name ++ py "_記事" in
  match mkdir_exist_ok articles_dir dir_name with
  | Done articles_dir' => Done (dir_name, articles_dir')
  | FileExistsError => FileExistsError
  end.

End Manager.

Definition Ascii_words : WordTable.
Proof.
  refine {| isword := ascii_isword; digit_value := ascii_digit_value |}.
  - intros c H. exact H.
  - intros c H. unfold ascii_digit_value. by rewrite H.
  - intros c v. unfold ascii_digit_value, in_range.
    destruct (_ && _) eqn:E; [|done].
    intros [= <-]. apply andb_true_iff in E as [E1 E2].
    apply N.leb_le in E1, E2. lia.
Defined.

End ArticleManager.

(** ** src/collection/info_collector.py: the search for solutions *)

Module SolutionSearch.
Import InfoCollector.

(** An item of the result page of the Apple search: the text of its
    [h3], when it has one, and its first link, when it has one, with the
    [href] attribute of that link, when it has one. *)
Record search_result := {
  title_elem : option pystr;
  link_elem : option (option pystr)
}.

(** What the network answers to the searches for an error message: the
    solutions and sources that the Microsoft Learn and Stack Overflow
    adapters return, and the items that the Apple search page shows (none
    when the request fails). The adapters catch their own exceptions. *)
Record answers := {
  _search_microsoft_learn : pystr -> list solution * list source;
  _search_stackoverflow_solutions : pystr -> list solution * list source;
  apple_results : pystr -> list search_result
}.

Definition macos_keywords : list pystr :=
  [py "macos"; py "mac os"; py "darwin"; py "kernel panic";
   py "cocoa"; py "xcode"; py "safari"; py "finder"].

(** One turn of the loop of [_search_apple_support]: the source that it
    appends, if any. *)
Definition apple_source (result : search_result) : option source :=
  match title_elem result, link_elem result with
  | Some title, Some href =>
    let url := default [] href in
    let is_official := contains (py "support.apple.com") url in
    let reliability := if is_official then 1.0%Q else fl 0.7 in
    Some {| InfoCollector.title := Some title;
            InfoCollector.url := Some url;
            type_ := Some (if is_official then py "official"
                           else py "community");
            source_reliability := Some reliability |}
  | _, _ => None
  end.

Section Search.
Context {U : Unicode}.

Definition _is_macos_error (error_message : pystr) : bool :=
  let error_lower := lower error_message in
  existsb (fun keyword => contains keyword error_lower) macos_keywords.

(** [_search_apple_support]: the list [solutions] is returned as it was
    created. *)
Definition _search_apple_support (net : answers) (error_message : pystr)
  : list solution * list source :=
  let solutions := [] in
  let sources := omap apple_source (take 3 (apple_results net error_message)) in
  (solutions, sources).

(** [collect_solution_info], with [now] the value of [time.time()]. *)
Definition collect_solution_info (net : answers) (now : Q)
    (error_candidate : ErrorFinder.candidate) : option integrated_info :=
  let error_message :=
    default [] (ErrorFinder.error_message error_candidate) in
  let all_solutions := [] in
  let all_sources := [] in
  let '(ms_solutions, ms_sources) :=
    _search_microsoft_learn net error_message in
  let all_solutions := all_solutions ++ ms_solutions in
  let all_sources := all_sources ++ ms_sources in
  let '(so_solutions, so_sources) :=
    _search_stackoverflow_solutions net error_message in
  let all_solutions := all_solutions ++ so_solutions in
  let all_sources := all_sources ++ so_sources in
  let '(all_solutions, all_sources) :=
    if _is_macos_error error_message then
      let '(apple_solutions, apple_sources) :=
        _search_apple_support net error_message in
      (all_solutions ++ apple_solutions, all_sources ++ apple_sources)
    else (all_solutions, all_sources) in
  if negb (truthy all_solutions) then None else
  let integrated_info :=
    fst (_integrate_information error_candidate now
           {| solutions_list := all_solutions;
              sources_list := all_sources |}) in
  Some integrated_info.

End Search.

End SolutionSearch.

(** ** src/main.py *)

Module Main.

(** The result of [publish_article]: the JSON of the new post, of which
    the ['link'] is read. *)
Record publication := {
  link : option pystr
}.

(** The configuration: the sections that the three modules read, and the
    flags that [run_full_cycle] reads itself,
    [config['quality']['allow_low_quality']] and
    [config['wordpress']['auto_publish']]. *)
Record config := {
  error_discovery : ErrorFinder.config;
  quality : QualityChecker.config;
  quality_flags : gmap string bool;
  wordpress : gmap string bool
}.

(** What lies outside the program in one cycle: the answers of the
    network to discovery and search, the draw of the random generator,
    the clock, the article that the language model writes for a bundle
    ([None] when generation fails) and the answer of WordPress ([None]
    when publication fails). *)
Record services := {
  discovery_net : ErrorFinder.adapters;
  rnd : Q;
  search_net : SolutionSearch.answers;
  now : Q;
  generate_article :
    InfoCollector.integrated_info -> option QualityChecker.article;
  publish_article : QualityChecker.article -> option publication
}.

(** What a cycle can change: the articles directory, the data saved in
    the article directories ([save_article_data]: the article, its
    quality report), the results saved after publication
    ([save_wordpress_result]), and the articles handed to WordPress. *)
Record world := {
  articles_dir : list ArticleManager.item;
  saved_data :
    list (pystr * QualityChecker.article * QualityChecker.report);
  saved_results : list (pystr * publication);
  handed_to_wordpress : list QualityChecker.article
}.

(** What the [except] clause of [run_full_cycle] catches. *)
Inductive error :=
| Python (e : exn)
| FileExists.

(** The dict that [run_full_cycle] returns, by its ['status']. *)
Inductive outcome :=
| no_error_found
| info_collection_failed
| article_generation_failed
| quality_check_failed (issues : list QualityChecker.issue)
| wordpress_publish_failed
| success (article_directory error_message article_title : pystr)
    (quality_score : Q) (wordpress_url : option pystr)
| system_error (e : error).

Section Cycle.
Context {U : Unicode} {L : QualityChecker.UrlLib}
  {W : ArticleManager.WordTable}.

(** [self.article_manager], as [find_trending_error] sees it. *)
Definition manager_of (articles_dir : list ArticleManager.item)
  : ErrorFinder.article_manager :=
  {| ErrorFinder.is_error_already_processed :=
       ArticleManager.is_error_already_processed articles_dir |}.

(** The end of the [try] block: the result dict, which reads
    [article_data['title']]. *)
Definition success_result (article_dir error_message : pystr)
    (article_data : QualityChecker.article)
    (quality_result : QualityChecker.report)
    (wordpress_url : option pystr) (w : world) : outcome * world :=
  match QualityChecker.title article_data with
  | None => (system_error (Python KeyError), w)
  | Some article_title =>
    (success article_dir error_message article_title
       (QualityChecker.seo_score quality_result) wordpress_url, w)
  end.

(** Phases 5 and 6. *)
Definition save_and_publish (cfg : config) (env : services)
    (error_message : pystr) (article_data : QualityChecker.article)
    (quality_result : QualityChecker.report) (w : world) : outcome * world :=
  match ArticleManager.create_article_directory (articles_dir w)
          error_message with
  | ArticleManager.FileExistsError => (system_error FileExists, w)
  | ArticleManager.Done (article_dir, articles_dir') =>
    let w :=
      {| articles_dir := articles_dir';
         saved_data :=
           saved_data w ++ [(article_dir, article_data, quality_result)];
         saved_results := saved_results w;
         handed_to_wordpress := handed_to_wordpress w |} in
    if get (wordpress cfg) "auto_publish" true then
      let w :=
        {| articles_dir := articles_dir w;
           saved_data := saved_data w;
           saved_results := saved_results w;
           handed_to_wordpress := handed_to_wordpress w ++ [article_data] |} in
      match publish_article env article_data with
      | Some publication_result =>
        match link publication_result with
        | None => (system_error (Python KeyError), w)
        | Some url =>
          let w :=
            {| articles_dir := articles_dir w;
               saved_data := saved_data w;
               saved_results :=
                 saved_results w ++ [(article_dir, publication_result)];
               handed_to_wordpress := handed_to_wordpress w |} in
          success_result article_dir error_message article_data
            quality_result (Some url) w
        end
      | None => (wordpress_publish_failed, w)
      end
    else
      success_result article_dir error_message article_data quality_result
        None w
  end.

Definition run_full_cycle (cfg : config) (env : services) (w : world)
  : outcome * world :=
  match ErrorFinder.find_trending_error (error_discovery cfg)
          (discovery_net env) (Some (manager_of (articles_dir w)))
          (rnd env) with
  | Raised e => (system_error (Python e), w)
  | Returned None => (no_error_found, w)
  | Returned (Some error_candidate) =>
    match ErrorFinder.error_message error_candidate with
    | None => (system_error (Python KeyError), w)
    | Some error_message =>
      match SolutionSearch.collect_solution_info (search_net env) (now env)
              error_candidate with
      | None => (info_collection_failed, w)
      | Some solution_info =>
        match generate_article env solution_info with
        | None => (article_generation_failed, w)
        | Some article_data =>
          let quality_result :=
            QualityChecker.check_quality (quality cfg) article_data in
          if negb (QualityChecker.report_passed quality_result)
             && negb (get (quality_flags cfg) "allow_low_quality" false)
          then (quality_check_failed
                  (QualityChecker.report_issues quality_result), w)
          else save_and_publish cfg env error_message article_data
                 quality_result w
        end
      end
    end
  end.

End Cycle.

End Main.

(** ** Vocabulary of the properties *)

(** [a] may stand before [b] in a list sorted by descending key. *)
Definition desc {A} (key : A -> Q) (a b : A) : Prop := (key b <= key a)%Q.

(** The elements whose key is [q]. *)
Definition has_key {A} (key : A -> Q) (q : Q) (a : A) : bool :=
  Qeq_bool (key a) q.

(** The two providers that are scored from engagement metrics, the
    metrics that each scorer reads, and the scorer itself. *)
Inductive provider := stackoverflow | reddit.

Definition metrics (p : provider) : list string :=
  match p with
  | stackoverflow => ["score"; "view_count"; "answer_count"]
  | reddit => ["ups"; "num_comments"]
  end.

Definition scorer (p : provider) : gmap string Z -> Q :=
  match p with
  | stackoverflow => ErrorFinder._calculate_stackoverflow_confidence
  | reddit => ErrorFinder._calculate_reddit_confidence
  end.


(** The sum of a list of weights. *)
Definition total_weight (ws : list Z) : Z := foldr Z.add 0 ws.



(** The article without its ['content'] key: the SEO check of it gives
    the points and the issues that do not come from the keyword
    density. *)
Definition without_content (a : QualityChecker.article)
  : QualityChecker.article :=
  {| QualityChecker.title := QualityChecker.title a;
     QualityChecker.content := None;
     QualityChecker.excerpt := QualityChecker.excerpt a;
     QualityChecker.error_message := QualityChecker.error_message a;
     QualityChecker.slug := QualityChecker.slug a;
     QualityChecker.tags := QualityChecker.tags a;
     QualityChecker.html_content := QualityChecker.html_content a;
     QualityChecker.word_count := QualityChecker.word_count a |}.

(** The weight of a window position, in the words of the
    specification, and the sum of the weights of the positions before
    position [n]. *)
Definition position_weight (i : nat) : Z := Z.max 1 (4 - Z.of_nat i).

Definition weight_before (n : nat) : Z :=
  total_weight (position_weight <$> seq 0 n).

(** The invariant of the quality gate, read on the report. *)
Definition gate_invariant (cfg : QualityChecker.config)
    (r : QualityChecker.report) : Prop :=
  QualityChecker.report_passed r = true ->
  (get (QualityChecker.thresholds cfg) "min_seo_score" 70 <=
     QualityChecker.overall_score r)%Q /\
  Forall (fun i => QualityChecker.issue_severity i <> QualityChecker.high)
    (QualityChecker.report_issues r).

(** A name that is safe for a directory, as [_sanitize_error_name] means
    it: not empty, at most 50 characters, only word characters, hyphens
    and underscores, no underscore at either end and no two underscores
    in a row. *)
Definition directory_safe `{ArticleManager.WordTable} (s : pystr) : Prop :=
  s <> [] /\ (length s <= 50)%nat /\
  Forall (fun c => ArticleManager.safe_char c = true) s /\
  head s <> Some ArticleManager.underscore /\
  last s <> Some ArticleManager.underscore /\
  contains (py "__") s = false.

(** The ASCII digit of a value between 0 and 9. *)
Definition digit_char (d : Z) : char := Z.to_N (48 + d).

(** What an article needs in order to have no issue of severity high:
    enough words, a title, a content, the keyword in the title when there
    is a keyword, and a first-level heading. *)
Definition essentials `{Unicode} (cfg : QualityChecker.config)
    (a : QualityChecker.article) : Prop :=
  let title := default [] (QualityChecker.title a) in
  let content := default [] (QualityChecker.content a) in
  let keyword := default [] (QualityChecker.error_message a) in
  (get (QualityChecker.thresholds cfg) "min_word_count" 2000
     <= Z2Q (default 0%Z (QualityChecker.word_count a)))%Q /\
  title <> [] /\
  content <> [] /\
  (keyword <> [] -> contains (lower keyword) (lower title) = true) /\
  0 < QualityChecker.count_lines (startswith (py "# ")) content.

Definition not_high (i : QualityChecker.issue) : Prop :=
  QualityChecker.issue_severity i <> QualityChecker.high.

(** The report that the [except] clause of [check_quality] builds. *)
Definition error_report (e : exn) : QualityChecker.report :=
  {| QualityChecker.report_passed := false;
     QualityChecker.overall_score := 0%Q;
     QualityChecker.seo_score := 0%Q;
     QualityChecker.readability_score := 0%Q;
     QualityChecker.report_issues :=
       [QualityChecker.Issue (QualityChecker.check_error e) QualityChecker.high];
     QualityChecker.report_details := None;
     QualityChecker.report_summary := None |}.

(** A number that is a percentage. *)
Definition percentage (q : Q) : Prop := (0 <= q <= 100)%Q.

(** A tally of [n] points out of 400. *)
Definition points (n : Z) : QualityChecker.tally :=
  let none := {| QualityChecker.score := 0; QualityChecker.max_score := 0;
                 QualityChecker.issues := []; QualityChecker.passed := None |} in
  {| QualityChecker.total_score := n;
     QualityChecker.tally_max_score := 400;
     QualityChecker.tally_issues := [];
     QualityChecker.check_results :=
       {| QualityChecker.basic_quality := none;
          QualityChecker.seo_quality := none;
          QualityChecker.content_structure := none;
          QualityChecker.readability := none;
          QualityChecker.duplicate_check := None;
          QualityChecker.link_validation := None |} |}.

(** ** Inputs of the examples *)

(** A text given by its lines, each ended by a line feed. *)
Definition text (ls : list string) : pystr :=
  concat (map (fun l => py l ++ [LF]) ls).

(** [urlparse] on urls of the shape [scheme://netloc/...]. *)
Definition plain_urlparse (url : pystr) : result (pystr * pystr) :=
  let '(scheme, rest) := span (fun c => negb (eqc c 58)) url in
  match rest with
  | _ :: 47%N :: 47%N :: r =>
    Returned (scheme, fst (span (fun c => negb (one_of (py "/?#") c)) r))
  | _ :: _ => Returned (scheme, [])
  | [] => Returned ([], [])
  end.

Definition Plain_urls : QualityChecker.UrlLib :=
  {| QualityChecker.urlparse := plain_urlparse |}.

Definition so_popular : gmap string Z :=
  {[ "score" := 12; "view_count" := 1500; "answer_count" := 3 ]}.

Definition so_quiet : gmap string Z := {[ "score" := 6 ]}.

Definition default_finder : ErrorFinder.config :=
  {| ErrorFinder.sources_config := {[ "stackoverflow" := true ]};
     ErrorFinder.criteria := ∅ |}.

(** A candidate with its text and the float of its confidence. *)
Definition found (msg : string) (conf : Q) : ErrorFinder.candidate :=
  {| ErrorFinder.error_message := Some (py msg);
     ErrorFinder.source := Some (py "stackoverflow");
     ErrorFinder.source_url := None;
     ErrorFinder.title := None;
     ErrorFinder.confidence_score := Some (fl conf) |}.

Definition sample_pool : list ErrorFinder.candidate :=
  [ found "OUT_OF_MEMORY_0x1" 0.9; found "DISK_FULL" 0.6;
    found "test sample error" 0.95; found "Connection refused ssh" 0.9 ].

Definition sample_net : ErrorFinder.adapters :=
  {| ErrorFinder._search_stackoverflow := sample_pool;
     ErrorFinder._search_reddit := [];
     ErrorFinder._search_google_trends := [] |}.

Definition fragment (r : Q) : InfoCollector.solution :=
  {| InfoCollector.description := None;
     InfoCollector.steps := None;
     InfoCollector.reliability := Some (fl r);
     InfoCollector.source_url := None;
     InfoCollector.source_title := None |}.

Definition citation (u : string) : InfoCollector.source :=
  {| InfoCollector.title := Some (py "Apple Support");
     InfoCollector.url := Some (py u);
     InfoCollector.type_ := Some (py "community");
     InfoCollector.source_reliability := Some (fl 0.7) |}.


Definition collected_unsorted : InfoCollector.heap :=
  {| InfoCollector.solutions_list := [fragment 0.5; fragment 0.9];
     InfoCollector.sources_list := [citation "https://a.example/1"] |}.

Definition default_quality : QualityChecker.config :=
  {| QualityChecker.thresholds := ∅; QualityChecker.checks_config := ∅ |}.

Definition strict_quality : QualityChecker.config :=
  {| QualityChecker.thresholds := {[ "min_seo_score" := 71.25%Q ]};
     QualityChecker.checks_config := ∅ |}.

Definition long_form_quality : QualityChecker.config :=
  {| QualityChecker.thresholds :=
       {[ "min_word_count" := 3000%Q; "max_word_count" := 5000%Q ]};
     QualityChecker.checks_config := ∅ |}.

Definition fair_article : QualityChecker.article :=
  {| QualityChecker.title := Some (py "How to fix err quickly now");
     QualityChecker.content := Some (text
       [ "# Fix err"; "";
         "## Cause"; "";
         "## Steps"; "";
         "## Notes"; "";
         "### One"; "";
         "- a"; "- b"; "- c"; "";
         "```x```";
         "また API(interface) helps." ]);
     QualityChecker.excerpt := None;
     QualityChecker.error_message := Some (py "err");
     QualityChecker.slug := Some (py "fix-err");
     QualityChecker.tags := Some [py "err"; py "fix"; py "howto"];
     QualityChecker.html_content := None;
     QualityChecker.word_count := Some 2500 |}.

Definition short_article : QualityChecker.article :=
  {| QualityChecker.title := Some (py "Fix the err now");
     QualityChecker.content := Some (py "x");
     QualityChecker.excerpt := None;
     QualityChecker.error_message := None;
     QualityChecker.slug := None;
     QualityChecker.tags := None;
     QualityChecker.html_content := None;
     QualityChecker.word_count := Some 500 |}.

Definition stuffed_article : QualityChecker.article :=
  {| QualityChecker.title := Some (py "err");
     QualityChecker.content := Some (py "err err");
     QualityChecker.excerpt := Some (py "err");
     QualityChecker.error_message := Some (py "err");
     QualityChecker.slug := None;
     QualityChecker.tags := None;
     QualityChecker.html_content := None;
     QualityChecker.word_count := Some 2 |}.


Definition kernel_panic : ErrorFinder.candidate :=
  found "Kernel Panic com.apple.kext" 0.6.

(** Three candidates that pass the filter, in discovery order. *)
Definition three_errors : list ErrorFinder.candidate :=
  [ found "NullPointerException at boot" 0.7;
    found "Segmentation fault core" 0.9;
    found "Permission denied /usr" 0.8 ].

Definition three_net : ErrorFinder.adapters :=
  {| ErrorFinder._search_stackoverflow := three_errors;
     ErrorFinder._search_reddit := [];
     ErrorFinder._search_google_trends := [] |}.

Definition silent_net : ErrorFinder.adapters :=
  {| ErrorFinder._search_stackoverflow := [];
     ErrorFinder._search_reddit := [];
     ErrorFinder._search_google_trends := [] |}.

(** The word characters of ASCII together with the CJK ideographs, which
    [\w] matches as well. *)
Definition Cjk_words : ArticleManager.WordTable.
Proof.
  refine {| ArticleManager.isword := fun c =>
              ArticleManager.ascii_isword c || in_range 19968 40959 c;
            ArticleManager.digit_value := ArticleManager.ascii_digit_value |}.
  - intros c H. apply orb_true_iff. by left.
  - apply (ArticleManager.digit_value_ascii (WordTable := ArticleManager.Ascii_words)).
  - apply (ArticleManager.digit_value_range (WordTable := ArticleManager.Ascii_words)).
Defined.

Definition folder (n : string) : ArticleManager.item :=
  {| ArticleManager.name := py n; ArticleManager.is_dir := true |}.

(** An articles directory with one article and a stray file. *)
Definition archive : list ArticleManager.item :=
  [ folder "0001_OUT_OF_MEMORY_0x1_記事";
    {| ArticleManager.name := py "notes.txt"; ArticleManager.is_dir := false |} ].

(** An articles directory whose last article has the number 9999. *)
Definition full_archive : list ArticleManager.item :=
  [ folder "9998_DISK_FULL_記事"; folder "9999_Kernel_Panic_記事" ].

(** [urlparse] as [plain_urlparse], with the [ValueError] that the
    library raises for a netloc with one square bracket and not the
    other ("Invalid IPv6 URL"). *)
Definition bracket_urlparse (url : pystr) : result (pystr * pystr) :=
  match plain_urlparse url with
  | Returned (scheme, netloc) =>
    if xorb (contains (py "[") netloc) (contains (py "]") netloc)
    then Raised ValueError
    else Returned (scheme, netloc)
  | Raised e => Raised e
  end.

Definition Bracket_urls : QualityChecker.UrlLib :=
  {| QualityChecker.urlparse := bracket_urlparse |}.

(** The two optional checks switched on. *)
Definition thorough_quality : QualityChecker.config :=
  {| QualityChecker.thresholds := ∅;
     QualityChecker.checks_config :=
       {[ "duplicate_detection" := true; "link_validation" := true ]} |}.

(** [fair_article] with a repetitive title and two links, of which the
    first is relative and the second has a broken host. *)
Definition linked_article (second_link : string) : QualityChecker.article :=
  {| QualityChecker.title :=
       Some (py "err 解決方法 and again 解決方法");
     QualityChecker.content := Some (text
       [ "# Fix err"; "";
         "## Cause"; "";
         "## Steps"; "";
         "## Notes"; "";
         "### One"; "";
         "- a"; "- b"; "- c"; "";
         "```x```";
         "また API(interface) helps.";
         "[docs](docs/index.html)";
         second_link ]);
     QualityChecker.excerpt := None;
     QualityChecker.error_message := Some (py "err");
     QualityChecker.slug := Some (py "fix-err");
     QualityChecker.tags := Some [py "err"; py "fix"; py "howto"];
     QualityChecker.html_content := None;
     QualityChecker.word_count := Some 2500 |}.

(** A network where only the Apple search has something to show. *)
Definition apple_only : SolutionSearch.answers :=
  {| SolutionSearch._search_microsoft_learn := fun _ => ([], []);
     SolutionSearch._search_stackoverflow_solutions := fun _ => ([], []);
     SolutionSearch.apple_results := fun _ =>
       [ {| SolutionSearch.title_elem := Some (py "If your Mac restarts");
            SolutionSearch.link_elem :=
              Some (Some (py "https://support.apple.com/HT200553")) |} ] |}.

(** The configuration that leaves every key to its default. *)
Definition default_config : Main.config :=
  {| Main.error_discovery := default_finder;
     Main.quality := default_quality;
     Main.quality_flags := ∅;
     Main.wordpress := ∅ |}.

(** Services that answer: Stack Overflow shows the sample pool, Microsoft
    Learn has one solution for every error, the language model writes
    [fair_article] and WordPress accepts it. *)
Definition sample_services : Main.services :=
  {| Main.discovery_net := sample_net;
     Main.rnd := 0.5;
     Main.search_net :=
       {| SolutionSearch._search_microsoft_learn := fun _ =>
            ([fragment 0.9], [citation "https://learn.example/1"]);
          SolutionSearch._search_stackoverflow_solutions := fun _ => ([], []);
          SolutionSearch.apple_results := fun _ => [] |};
     Main.now := 1700000000;
     Main.generate_article := fun _ => Some fair_article;
     Main.publish_article := fun _ =>
       Some {| Main.link := Some (py "https://blog.example/?p=1") |} |}.

(** The archive, with nothing saved or published yet. *)
Definition sample_world : Main.world :=
  {| Main.articles_dir := archive;
     Main.saved_data := [];
     Main.saved_results := [];
     Main.handed_to_wordpress := [] |}.

(** A later answer of Stack Overflow: the error of the cycle before, and
    a new one of lower confidence. *)
Definition later_net : ErrorFinder.adapters :=
  {| ErrorFinder._search_stackoverflow :=
       [ found "Connection refused ssh" 0.9;
         found "Segmentation fault core" 0.8 ];
     ErrorFinder._search_reddit := [];
     ErrorFinder._search_google_trends := [] |}.

(** * Properties *)

(** ** Comparisons on rationals *)

Lemma Qleb_le (a b : Q) : (a <=? b)%Q = true <-> (a <= b)%Q.
Proof. apply Qle_bool_iff. Qed.

Lemma Qltb_lt (a b : Q) : (a <? b)%Q = true <-> (a < b)%Q.
Proof.
  unfold Qltb. rewrite negb_true_iff, <- not_true_iff_false, Qle_bool_iff.
  split; [apply Qnot_le_lt | apply Qlt_not_le].
Qed.

Lemma Qltb_ge (a b : Q) : (a <? b)%Q = false <-> (b <= a)%Q.
Proof.
  unfold Qltb. rewrite negb_false_iff. apply Qle_bool_iff.
Qed.

(** ** Rounding to binary64 *)

Section Rounding.
Local Open Scope Q_scope.

Lemma pow2_pos (e : Z) : 0 < pow2 e.
Proof. by apply Qpower_0_lt. Qed.

Lemma pow2_plus (a b : Z) : pow2 (a + b) == pow2 a * pow2 b.
Proof. by apply Qpower_plus. Qed.

Lemma pow2_succ (a : Z) : pow2 (a + 1) == 2 * pow2 a.
Proof. rewrite pow2_plus. change (pow2 1) with 2. ring. Qed.

Lemma pow2_Z (a : Z) : (0 <= a)%Z -> pow2 a == Z2Q (2 ^ a).
Proof. intros H. unfold pow2, Z2Q. by rewrite Zpower_Qpower. Qed.

Lemma pow2_le (a b : Z) : (a <= b)%Z -> pow2 a <= pow2 b.
Proof. intros H. by apply Qpower_le_compat_l. Qed.

Lemma pow2_lt_inv (a b : Z) : pow2 a < pow2 b -> (a < b)%Z.
Proof. intros H. by eapply Qpower_lt_compat_l_inv. Qed.

Lemma log2_bounds (n : Z) :
  (0 < n)%Z -> pow2 (Z.log2 n) <= Z2Q n /\ Z2Q n < 2 * pow2 (Z.log2 n).
Proof.
  intros Hn. pose proof (Z.log2_spec n Hn) as [Hl Hu].
  pose proof (Z.log2_nonneg n).
  rewrite <- pow2_succ, !pow2_Z by lia. unfold Z2Q.
  rewrite <- Zle_Qle, <- Zlt_Qlt. change (Z.succ (Z.log2 n)) with (Z.log2 n + 1)%Z in Hu. done.
Qed.

Lemma ilog2_spec (x : Q) :
  0 < x -> pow2 (ilog2 x) <= x /\ x < pow2 (ilog2 x + 1).
Proof.
  intros Hx. destruct x as [n d].
  assert (0 < n)%Z as Hn by (unfold Qlt in Hx; cbn in Hx; lia).
  destruct (log2_bounds n Hn) as [Ha1 Ha2].
  destruct (log2_bounds (Zpos d) eq_refl) as [Hb1 Hb2].
  unfold ilog2. cbn [Qnum Qden].
  set (a := Z.log2 n) in *. set (b := Z.log2 (Z.pos d)) in *.
  assert (pow2 (a - b) * pow2 b == pow2 a) as He.
  { rewrite <- pow2_plus. by replace (a - b + b)%Z with a by lia. }
  assert ((n # d) * Z2Q (Zpos d) == Z2Q n) as Hnd.
  { rewrite (Qmake_Qdiv n d). unfold Z2Q. field. discriminate. }
  pose proof (pow2_pos a). pose proof (pow2_pos b). pose proof (pow2_pos (a - b)).
  assert (0 < Z2Q (Zpos d)) as Hd by done.
  destruct (pow2 (a - b) <=? n # d) eqn:E.
  - apply Qleb_le in E. split; [done|]. rewrite pow2_succ.
    apply (Qmult_lt_r _ _ (Z2Q (Zpos d)) Hd). rewrite Hnd.
    eapply Qlt_le_trans; [exact Ha2|]. rewrite <- He. nra.
  - apply not_true_iff_false in E. rewrite Qleb_le in E. apply Qnot_le_lt in E.
    replace (a - b - 1 + 1)%Z with (a - b)%Z by lia. split; [|done].
    assert (pow2 (a - b) == 2 * pow2 (a - b - 1)) as H2.
    { rewrite <- pow2_succ. by replace (a - b - 1 + 1)%Z with (a - b)%Z by lia. }
    apply (Qmult_le_r _ _ (Z2Q (Zpos d)) Hd). rewrite Hnd.
    eapply Qle_trans; [|exact Ha1]. rewrite <- He, H2. 
    pose proof (pow2_pos (a - b - 1)). nra.
Qed.

Lemma round_half_even_bounds (x : Q) :
  (Qfloor x <= round_half_even x <= Qfloor x + 1)%Z.
Proof.
  unfold round_half_even. cbv zeta.
  destruct (_ <? 0.5); [lia|]. destruct (0.5 <? _); [lia|].
  destruct (Z.even _); lia.
Qed.

Lemma round_half_even_near (x : Q) :
  x - 0.5 <= Z2Q (round_half_even x) /\ Z2Q (round_half_even x) <= x + 0.5.
Proof.
  pose proof (Qfloor_le x) as Hl. pose proof (Qlt_floor x) as Hu.
  unfold round_half_even, Z2Q in *. cbv zeta.
  rewrite inject_Z_plus in Hu. change (inject_Z 1) with 1 in Hu.
  destruct (_ <? 0.5) eqn:E1.
  - apply Qltb_lt in E1. lra.
  - apply Qltb_ge in E1. destruct (0.5 <? _) eqn:E2.
    + rewrite inject_Z_plus. change (inject_Z 1) with 1. lra.
    + apply Qltb_ge in E2. destruct (Z.even _).
      * lra.
      * rewrite inject_Z_plus. change (inject_Z 1) with 1. lra.
Qed.

Lemma round_half_even_mono (x y : Q) :
  x <= y -> (round_half_even x <= round_half_even y)%Z.
Proof.
  intros Hxy. pose proof (Qfloor_resp_le x y Hxy) as Hf.
  pose proof (round_half_even_bounds x). pose proof (round_half_even_bounds y).
  destruct (Z.eq_dec (Qfloor x) (Qfloor y)) as [E|E]; [|lia].
  unfold round_half_even in *. cbv zeta in *. rewrite E in *.
  destruct (x - _ <? 0.5) eqn:X1; [lia|]. apply Qltb_ge in X1.
  destruct (y - _ <? 0.5) eqn:Y1; [apply Qltb_lt in Y1; unfold Z2Q in *; lra|].
  destruct (0.5 <? x - _) eqn:X2.
  - apply Qltb_lt in X2.
    destruct (0.5 <? y - _) eqn:Y2; [lia|]. apply Qltb_ge in Y2. unfold Z2Q in *; lra.
  - destruct (0.5 <? y - _); [destruct (Z.even _); lia|lia].
Qed.

Lemma round_half_even_Z (k : Z) : round_half_even (Z2Q k) = k.
Proof.
  unfold round_half_even, Z2Q. cbv zeta. rewrite Qfloor_Z.
  assert ((inject_Z k - inject_Z k <? 0.5) = true) as ->; [|done].
  apply Qltb_lt. lra.
Qed.

Lemma scaled_bounds (x : Q) :
  0 < x ->
  pow2 52 <= x / pow2 (ilog2 x - 52) /\ x / pow2 (ilog2 x - 52) < pow2 53.
Proof.
  intros Hx. destruct (ilog2_spec x Hx) as [Hl Hu].
  pose proof (pow2_pos (ilog2 x - 52)) as Hp.
  assert (pow2 (ilog2 x) == pow2 52 * pow2 (ilog2 x - 52)) as E1.
  { rewrite <- pow2_plus. by replace (52 + (ilog2 x - 52))%Z with (ilog2 x) by lia. }
  assert (pow2 (ilog2 x + 1) == pow2 53 * pow2 (ilog2 x - 52)) as E2.
  { rewrite <- pow2_plus. by replace (53 + (ilog2 x - 52))%Z with (ilog2 x + 1)%Z by lia. }
  split.
  - apply Qle_shift_div_l; [done|]. by rewrite <- E1.
  - apply Qlt_shift_div_r; [done|]. by rewrite <- E2.
Qed.

Lemma mantissa_bounds (x : Q) :
  0 < x ->
  (2 ^ 52 <= round_half_even (x / pow2 (ilog2 x - 52)) <= 2 ^ 53)%Z.
Proof.
  intros Hx. destruct (scaled_bounds x Hx) as [Hl Hu].
  pose proof (round_half_even_bounds (x / pow2 (ilog2 x - 52))) as [Hb1 Hb2].
  apply Qfloor_resp_le in Hl. rewrite (pow2_Z 52) in Hl by lia.
  unfold Z2Q in Hl. rewrite Qfloor_Z in Hl.
  assert (Qfloor (x / pow2 (ilog2 x - 52)) < 2 ^ 53)%Z.
  { apply Z.lt_nge. intros Hge. apply (Qlt_not_le _ _ Hu).
    eapply Qle_trans; [|apply Qfloor_le]. rewrite (pow2_Z 53) by lia.
    unfold Z2Q. by rewrite <- Zle_Qle. }
  lia.
Qed.

Lemma nearest_pos (x : Q) : 0 < x -> 0 < nearest x.
Proof.
  intros Hx. unfold nearest. cbv zeta.
  pose proof (mantissa_bounds x Hx) as [Hm _].
  apply Qmult_lt_0_compat; [|apply pow2_pos].
  unfold Z2Q. change 0 with (inject_Z 0). rewrite <- Zlt_Qlt. lia.
Qed.

Lemma ilog2_mono (x y : Q) : 0 < x -> x <= y -> (ilog2 x <= ilog2 y)%Z.
Proof.
  intros Hx Hxy.
  destruct (ilog2_spec x Hx) as [Hl _].
  destruct (ilog2_spec y) as [_ Hu]; [lra|].
  assert (pow2 (ilog2 x) < pow2 (ilog2 y + 1)) as H by lra.
  apply pow2_lt_inv in H. lia.
Qed.

Lemma nearest_mono (x y : Q) : 0 < x -> x <= y -> nearest x <= nearest y.
Proof.
  intros Hx Hxy. assert (0 < y) as Hy by lra.
  pose proof (ilog2_mono x y Hx Hxy) as He.
  pose proof (mantissa_bounds x Hx) as [_ Hmx].
  pose proof (mantissa_bounds y Hy) as [Hmy _].
  unfold nearest. cbv zeta.
  destruct (Z.eq_dec (ilog2 x) (ilog2 y)) as [E|E].
  - rewrite E. apply Qmult_le_compat_r; [|apply Qlt_le_weak, pow2_pos].
    unfold Z2Q. rewrite <- Zle_Qle. apply round_half_even_mono.
    apply Qmult_le_compat_r; [done|]. apply Qlt_le_weak, Qinv_lt_0_compat, pow2_pos.
  - apply Qle_trans with (pow2 53 * pow2 (ilog2 x - 52)).
    { apply Qmult_le_compat_r; [|apply Qlt_le_weak, pow2_pos].
      rewrite (pow2_Z 53) by lia. unfold Z2Q. by rewrite <- Zle_Qle. }
    apply Qle_trans with (pow2 52 * pow2 (ilog2 y - 52)).
    { rewrite <- !pow2_plus. apply pow2_le. lia. }
    apply Qmult_le_compat_r; [|apply Qlt_le_weak, pow2_pos].
    rewrite (pow2_Z 52) by lia. unfold Z2Q. by rewrite <- Zle_Qle.
Qed.

Lemma Qnum_sign (x : Q) :
  match Qnum x with
  | Z0 => x == 0
  | Zpos _ => 0 < x
  | Zneg _ => x < 0
  end.
Proof. destruct x as [[|p|p] d]; unfold Qeq, Qlt; cbn; lia. Qed.

Lemma fl_sign (x : Q) :
  (x == 0 -> fl x == 0) /\ (0 < x -> fl x = nearest x) /\
  (x < 0 -> fl x = - nearest (- x)).
Proof.
  pose proof (Qnum_sign x) as H. unfold fl.
  destruct (Qnum x); repeat split; intros; try done; lra.
Qed.

Lemma fl_mono (x y : Q) : x <= y -> fl x <= fl y.
Proof.
  intros Hxy.
  destruct (fl_sign x) as (X0 & Xp & Xn). destruct (fl_sign y) as (Y0 & Yp & Yn).
  destruct (Q_dec x 0) as [[Hx|Hx]|Hx]; destruct (Q_dec y 0) as [[Hy|Hy]|Hy];
    try lra.
  all: first
    [ rewrite (Xn Hx), (Yn Hy); apply Qopp_le_compat, nearest_mono; lra
    | rewrite (Xn Hx), (Yp Hy);
      pose proof (nearest_pos (- x)); pose proof (nearest_pos y); lra
    | rewrite (Xn Hx), (Y0 Hy); pose proof (nearest_pos (- x)); lra
    | rewrite (Xp Hx), (Yp Hy); by apply nearest_mono
    | rewrite (X0 Hx), (Yp Hy); pose proof (nearest_pos y); lra
    | rewrite (X0 Hx), (Y0 Hy); lra ].
Qed.

#[global] Instance fl_proper : Proper (Qeq ==> Qeq) fl.
Proof.
  intros x y E. apply Qle_antisym; apply fl_mono; lra.
Qed.

(** The relative error of rounding is at most 2^-53. *)
Lemma nearest_error (x : Q) :
  0 < x ->
  x * (1 - pow2 (-53)) <= nearest x /\ nearest x <= x * (1 + pow2 (-53)).
Proof.
  intros Hx. destruct (ilog2_spec x Hx) as [Hl _].
  pose proof (pow2_pos (ilog2 x - 52)) as Hp.
  pose proof (round_half_even_near (x / pow2 (ilog2 x - 52))) as [Hn1 Hn2].
  unfold nearest. cbv zeta.
  set (m := Z2Q (round_half_even (x / pow2 (ilog2 x - 52)))) in *.
  assert (x / pow2 (ilog2 x - 52) * pow2 (ilog2 x - 52) == x) as Hy.
  { field. lra. }
  assert (pow2 (ilog2 x - 52) * 0.5 <= x * pow2 (-53)) as Hh.
  { assert (pow2 (ilog2 x - 52) * 0.5 == pow2 (ilog2 x) * pow2 (-53)) as ->.
    { rewrite <- pow2_plus.
      replace (ilog2 x + -53)%Z with (ilog2 x - 52 + -1)%Z by lia.
      rewrite pow2_plus. by apply Qmult_comp. }
    apply Qmult_le_compat_r; [done|]. apply Qlt_le_weak, pow2_pos. }
  split.
  - apply Qle_trans with ((x / pow2 (ilog2 x - 52) - 0.5) * pow2 (ilog2 x - 52)).
    + lra.
    + apply Qmult_le_compat_r; [done|lra].
  - apply Qle_trans with ((x / pow2 (ilog2 x - 52) + 0.5) * pow2 (ilog2 x - 52)).
    + apply Qmult_le_compat_r; [done|lra].
    + lra.
Qed.

Lemma fl_error (x : Q) :
  x - Qabs x * pow2 (-53) <= fl x /\ fl x <= x + Qabs x * pow2 (-53).
Proof.
  destruct (fl_sign x) as (X0 & Xp & Xn).
  destruct (Q_dec x 0) as [[Hx|Hx]|Hx].
  - rewrite (Xn Hx). rewrite (Qabs_neg x) by lra.
    destruct (nearest_error (- x)) as [H1 H2]; [lra|]. split; lra.
  - rewrite (Xp Hx). rewrite (Qabs_pos x) by lra.
    destruct (nearest_error x Hx) as [H1 H2]. split; lra.
  - rewrite (X0 Hx), Hx. split; by vm_compute.
Qed.

(** A minimum that is a number of tenths is not undercut by rounding the
    score to one decimal. *)
Lemma round1_tenths (k : Z) (x : Q) :
  (- 2 ^ 52 < k < 2 ^ 52)%Z ->
  fl (Z2Q k / 10) <= x -> fl (Z2Q k / 10) <= round1 x.
Proof.
  intros Hk Hx. unfold round1. apply fl_mono.
  apply Qmult_le_compat_r; [|done]. unfold Z2Q. rewrite <- Zle_Qle.
  destruct (fl_error (Z2Q k / 10)) as [He _].
  destruct (round_half_even_near (x * 10)) as [Hn _].
  assert (Qabs (Z2Q k / 10) * pow2 (-53) < 1 # 20) as Hsmall.
  { assert (Qabs (Z2Q k / 10) < pow2 52 / 10) as Ha.
    { rewrite (pow2_Z 52) by lia. unfold Z2Q.
      assert (inject_Z (- 2 ^ 52) < inject_Z k) as H1 by (rewrite <- Zlt_Qlt; lia).
      assert (inject_Z k < inject_Z (2 ^ 52)) as H2 by (rewrite <- Zlt_Qlt; lia).
      rewrite inject_Z_opp in H1.
      set (P := inject_Z (2 ^ 52)) in *. set (K := inject_Z k) in *.
      clearbody P K. apply Qabs_Qlt_condition.
      unfold Qdiv. change (/ 10) with (1 # 10). split; lra. }
    apply Qlt_le_trans with (pow2 52 / 10 * pow2 (-53)).
    - apply Qmult_lt_compat_r; [apply pow2_pos|done].
    - by vm_compute. }
  assert (Z2Q k - 1 < Z2Q (round_half_even (x * 10))) as Hr.
  { unfold Qdiv in *. change (/ 10) with (1 # 10) in *.
    set (e := Qabs _ * _) in *. set (f := fl _) in *. clearbody e f. lra. }
  assert (inject_Z (k - 1) < inject_Z (round_half_even (x * 10))) as Hz.
  { unfold Z.sub, Qminus in *. rewrite inject_Z_plus, inject_Z_opp. exact Hr. }
  rewrite <- Zlt_Qlt in Hz. lia.
Qed.

End Rounding.

(** ** The stable descending sort *)

Section SortedFacts.
Context {A : Type} (key : A -> Q).

Lemma insert_desc_perm (x : A) (l : list A) :
  PyLib.insert_desc key x l ≡ₚ x :: l.
Proof.
  induction l as [|y r IH]; simpl; [done|].
  destruct (key x <? key y)%Q; [|done].
  rewrite IH. apply Permutation_swap.
Qed.

Lemma sorted_desc_perm (l : list A) : PyLib.sorted_desc key l ≡ₚ l.
Proof.
  induction l as [|x r IH]; simpl; [done|].
  rewrite insert_desc_perm. by rewrite IH.
Qed.

Lemma sorted_desc_length (l : list A) :
  length (PyLib.sorted_desc key l) = length l.
Proof. apply Permutation_length, sorted_desc_perm. Qed.

Lemma insert_desc_sorted (x : A) (l : list A) :
  StronglySorted (desc key) l ->
  StronglySorted (desc key) (PyLib.insert_desc key x l).
Proof.
  induction 1 as [|y r Hr IH Hy]; simpl.
  - repeat constructor.
  - destruct (key x <? key y)%Q eqn:E.
    + constructor; [exact IH|].
      rewrite insert_desc_perm. constructor; [|exact Hy].
      apply Qltb_lt in E. by apply Qlt_le_weak.
    + apply Qltb_ge in E. constructor; [by constructor|].
      constructor; [exact E|].
      eapply Forall_impl; [exact Hy|].
      intros z Hz. unfold desc in *. by apply Qle_trans with (key y).
Qed.

Lemma sorted_desc_sorted (l : list A) :
  StronglySorted (desc key) (PyLib.sorted_desc key l).
Proof.
  induction l as [|x r IH]; simpl; [constructor|].
  by apply insert_desc_sorted.
Qed.

(** Stability: the elements of one key are in the order they had. *)
Lemma insert_desc_stable (q : Q) (x : A) (l : list A) :
  List.filter (has_key key q) (PyLib.insert_desc key x l)
  = List.filter (has_key key q) (x :: l).
Proof.
  induction l as [|y r IH]; [done|].
  cbn [PyLib.insert_desc]. destruct (key x <? key y)%Q eqn:E; [|done].
  cbn [List.filter] in *. rewrite IH.
  destruct (has_key key q x) eqn:Ex, (has_key key q y) eqn:Ey; try done.
  exfalso. unfold has_key in *.
  apply Qeq_bool_iff in Ex, Ey. apply Qltb_lt in E.
  rewrite Ex, Ey in E. by apply Qlt_irrefl in E.
Qed.

Lemma sorted_desc_stable (q : Q) (l : list A) :
  List.filter (has_key key q) (PyLib.sorted_desc key l)
  = List.filter (has_key key q) l.
Proof.
  induction l as [|x r IH]; [done|].
  cbn [PyLib.sorted_desc foldr]. rewrite insert_desc_stable.
  cbn [List.filter]. fold (PyLib.sorted_desc key r). by rewrite IH.
Qed.

End SortedFacts.

(** ** The weighted draw *)

Lemma accumulate_from_length (acc : Z) (ws : list Z) :
  length (PyLib.accumulate_from acc ws) = length ws.
Proof. revert acc. induction ws as [|w r IH]; intros acc; simpl; [done|]. by rewrite IH. Qed.

Lemma accumulate_from_last (acc : Z) (ws : list Z) :
  Forall (fun w => 1 <= w) ws -> ws <> [] ->
  exists t, last (PyLib.accumulate_from acc ws) = Some t /\ acc < t.
Proof.
  intros Hws. revert acc. induction Hws as [|w r Hw Hr IH]; intros acc Hne; [done|].
  destruct r as [|w' r'].
  - exists (acc + w). split; [done|lia].
  - destruct (IH (acc + w)) as (t & Ht & Hlt); [done|].
    exists t. split; [|lia].
    cbn [PyLib.accumulate_from] in *. by rewrite last_cons, Ht.
Qed.

Lemma midpoint_bounds (lo hi : nat) :
  (lo < hi)%nat -> (lo <= PyLib.midpoint lo hi < hi)%nat.
Proof.
  intros H. unfold PyLib.midpoint.
  pose proof (Nat.div_mod_eq (lo + hi) 2).
  pose proof (Nat.mod_upper_bound (lo + hi) 2). lia.
Qed.

Lemma bisect_in_range (a : list Z) (x : Q) (lo hi : nat) :
  (lo <= hi)%nat -> (hi <= length a)%nat ->
  exists i, PyLib.bisect a x lo hi = Returned i /\ (lo <= i <= hi)%nat.
Proof.
  funelim (PyLib.bisect a x lo hi); intros Hle Hlen;
    try match goal with
        | Hlt : (lo < hi)%nat |- _ => pose proof (midpoint_bounds lo hi Hlt)
        end.
  - exists lo. split; [done|lia].
  - exfalso.
    match goal with
    | Hnone : _ !! _ = None |- _ => apply lookup_ge_None in Hnone; lia
    end.
  - match goal with
    | IH : _ -> _ -> exists _, _ |- _ =>
      destruct IH as (i & Hi & Hr); [lia|lia|]
    end.
    exists i. split; [done|lia].
  - match goal with
    | IH : _ -> _ -> exists _, _ |- _ =>
      destruct IH as (i & Hi & Hr); [lia|lia|]
    end.
    exists i. split; [done|lia].
Qed.

(** The float of a positive total of weights is positive. *)
Lemma float_total_pos (w : Z) : 1 <= w -> (Z2Q w ⊕ 0 <=? 0)%Q = false.
Proof.
  intros Hw. apply not_true_iff_false. rewrite Qleb_le. apply Qlt_not_le.
  apply Qlt_le_trans with (fl 1); [by vm_compute|].
  apply fl_mono. rewrite Qplus_0_r. unfold Z2Q.
  change 1%Q with (inject_Z 1). rewrite <- Zle_Qle. lia.
Qed.

Lemma choices_member {A} (population : list A) (ws : list Z) (rnd : Q) :
  population <> [] -> length ws = length population ->
  Forall (fun w => 1 <= w) ws ->
  exists c, PyLib.choices population ws rnd = Returned c /\ c ∈ population.
Proof.
  intros Hne Hlen Hws. unfold PyLib.choices, PyLib.accumulate.
  rewrite accumulate_from_length, Hlen, Nat.eqb_refl. cbn [negb].
  destruct (accumulate_from_last 0 ws Hws) as (t & Ht & Hpos).
  { intros ->. by destruct population. }
  rewrite Ht, float_total_pos by lia.
  assert (0 < length population)%nat as Hn by (destruct population; simpl; [done|lia]).
  destruct (bisect_in_range (PyLib.accumulate_from 0 ws) (rnd ⊗ (Z2Q t ⊕ 0)) 0
              (length population - 1)) as (i & Hi & Hr); [lia| |].
  { rewrite accumulate_from_length. lia. }
  rewrite Hi. cbn [mbind result_bind].
  destruct (lookup_lt_is_Some_2 population i) as [c Hc]; [lia|].
  rewrite Hc. exists c. split; [done|]. by eapply list_elem_of_lookup_2.
Qed.

Lemma accumulate_from_lookup (acc : Z) (ws : list Z) (j : nat) :
  (j < length ws)%nat ->
  PyLib.accumulate_from acc ws !! j
  = Some (acc + total_weight (take (S j) ws)).
Proof.
  revert acc j. induction ws as [|w r IH]; intros acc j Hj; [cbn in Hj; lia|].
  destruct j as [|j]; cbn [PyLib.accumulate_from lookup list_lookup].
  - change (take 1 (w :: r)) with (w :: take 0 r). rewrite take_0.
    cbn [total_weight foldr]. f_equal. lia.
  - cbn [length] in Hj. rewrite IH by lia.
    change (take (S (S j)) (w :: r)) with (w :: take (S j) r).
    cbn [total_weight foldr]. fold (total_weight (take (S j) r)). f_equal. lia.
Qed.

Lemma total_weight_take_mono (ws : list Z) (i j : nat) :
  Forall (fun w => 1 <= w) ws -> (i <= j)%nat ->
  total_weight (take i ws) <= total_weight (take j ws).
Proof.
  intros Hws. revert i j. induction Hws as [|w r Hw Hr IH]; intros i j Hij.
  - by rewrite !take_nil.
  - destruct i as [|i]; destruct j as [|j]; try lia; cbn [take firstn total_weight foldr].
    + fold (total_weight (take j r)). specialize (IH 0%nat j ltac:(lia)).
      rewrite take_0 in IH. cbn in IH. lia.
    + fold (total_weight (take i r)) (total_weight (take j r)).
      specialize (IH i j ltac:(lia)). lia.
Qed.

(** [bisect_right] on a list in ascending order: everything before the
    answer is at most [x], everything from the answer up to the first
    value of [hi] is above [x]. *)
Lemma bisect_spec (a : list Z) (x : Q) (lo hi top : nat) :
  (forall i j vi vj, (i <= j)%nat ->
     a !! i = Some vi -> a !! j = Some vj -> vi <= vj) ->
  (lo <= hi)%nat -> (hi <= length a)%nat ->
  (forall j v, (j < lo)%nat -> a !! j = Some v -> (Z2Q v <= x)%Q) ->
  (forall j v, (hi <= j < top)%nat -> a !! j = Some v -> (x < Z2Q v)%Q) ->
  exists i, PyLib.bisect a x lo hi = Returned i /\ (lo <= i <= hi)%nat /\
    (forall j v, (j < i)%nat -> a !! j = Some v -> (Z2Q v <= x)%Q) /\
    (forall j v, (i <= j < top)%nat -> a !! j = Some v -> (x < Z2Q v)%Q).
Proof.
  intros Hsorted.
  funelim (PyLib.bisect a x lo hi); intros Hle Hlen Hlow Hhigh;
    try match goal with
        | Hlt : (lo < hi)%nat |- _ => pose proof (midpoint_bounds lo hi Hlt)
        end;
    try match goal with
        | IH : forall t : nat, _ -> _ -> _ -> _ -> _ -> exists _, _ |- _ =>
          specialize (IH top)
        end.
  - exists lo. repeat split; [lia|lia|exact Hlow|].
    intros j v Hj. apply Hhigh. lia.
  - exfalso.
    match goal with
    | Hnone : _ !! _ = None |- _ => apply lookup_ge_None in Hnone; lia
    end.
  - match goal with
    | IH : _ -> _ -> _ -> _ -> _ -> exists _, _, Ham : a !! _ = Some am,
      Hx : (x <? Z2Q am)%Q = true |- _ =>
      apply Qltb_lt in Hx;
      destruct IH as (i & Hi & Hr & Hl & Hh); [exact Hsorted|lia|lia|exact Hlow| |]
    end.
    + intros j v Hj Hv. eapply Qlt_le_trans; [eassumption|].
      unfold Z2Q. rewrite <- Zle_Qle.
      eapply (Hsorted (PyLib.midpoint lo hi) j); [lia|eassumption|exact Hv].
    + exists i. repeat split; [done|lia|lia|exact Hl|exact Hh].
  - match goal with
    | IH : _ -> _ -> _ -> _ -> _ -> exists _, _, Ham : a !! _ = Some am,
      Hx : (x <? Z2Q am)%Q = false |- _ =>
      apply Qltb_ge in Hx;
      destruct IH as (i & Hi & Hr & Hl & Hh); [exact Hsorted|lia|lia| |exact Hhigh|]
    end.
    + intros j v Hj Hv. eapply Qle_trans; [|eassumption].
      unfold Z2Q. rewrite <- Zle_Qle.
      eapply (Hsorted j (PyLib.midpoint lo hi)); [lia|exact Hv|eassumption].
    + exists i. repeat split; [done|lia|lia|exact Hl|exact Hh].
Qed.

(** The draw follows the weights: with [x] the float of [rnd * total],
    the element at position [i] is returned when [x] is at least the sum
    of the weights before [i] and below that sum plus the weight of [i].
    The last element is also returned for an [x] beyond the total, which
    the rounding of the product can produce. *)
Lemma choices_by_weight {A} (population : list A) (ws : list Z) (rnd : Q) :
  population <> [] -> length ws = length population ->
  Forall (fun w => 1 <= w) ws ->
  let x := rnd ⊗ (Z2Q (total_weight ws) ⊕ 0) in
  exists i c, PyLib.choices population ws rnd = Returned c /\
    population !! i = Some c /\
    ((0 < i)%nat -> (Z2Q (total_weight (take i ws)) <= x)%Q) /\
    ((i < length population - 1)%nat ->
       (x < Z2Q (total_weight (take (S i) ws)))%Q).
Proof.
  intros Hne Hlen Hws x. unfold PyLib.choices, PyLib.accumulate.
  rewrite accumulate_from_length, Hlen, Nat.eqb_refl. cbn [negb].
  assert (0 < length population)%nat as Hn by (destruct population; simpl; [done|lia]).
  assert (last (PyLib.accumulate_from 0 ws) = Some (total_weight ws)) as Hlast.
  { rewrite last_lookup, accumulate_from_length.
    rewrite accumulate_from_lookup by lia.
    replace (S (Nat.pred (length ws))) with (length ws) by lia.
    by rewrite firstn_all. }
  rewrite Hlast.
  destruct (accumulate_from_last 0 ws Hws) as (t & Ht & Hpos).
  { intros ->. by destruct population. }
  rewrite Hlast in Ht. injection Ht as <-.
  rewrite float_total_pos by lia. fold x.
  destruct (bisect_spec (PyLib.accumulate_from 0 ws) x 0
              (length population - 1) (length population - 1))
    as (i & Hi & Hrange & Hl & Hh).
  - intros i j vi vj Hij Hvi Hvj.
    pose proof (lookup_lt_Some _ _ _ Hvi) as Hi.
    pose proof (lookup_lt_Some _ _ _ Hvj) as Hj.
    rewrite accumulate_from_length in Hi, Hj.
    rewrite accumulate_from_lookup in Hvi, Hvj by lia.
    injection Hvi as <-. injection Hvj as <-.
    pose proof (total_weight_take_mono ws (S i) (S j) Hws ltac:(lia)). lia.
  - lia.
  - rewrite accumulate_from_length. lia.
  - intros j v Hj. lia.
  - intros j v Hj. lia.
  - rewrite Hi. cbn [mbind result_bind].
    destruct (lookup_lt_is_Some_2 population i) as [c Hc]; [lia|].
    rewrite Hc. exists i, c. split; [done|]. split; [done|]. split.
    + intros Hpos'. destruct i as [|i]; [lia|].
      apply (Hl i); [lia|]. by rewrite accumulate_from_lookup by lia.
    + intros Hlt. apply (Hh i); [lia|]. by rewrite accumulate_from_lookup by lia.
Qed.

(** ** Candidate scorer *)

Ltac score_cases :=
  unfold scorer, ErrorFinder._calculate_stackoverflow_confidence,
    ErrorFinder._calculate_reddit_confidence;
  cbv zeta;
  repeat match goal with
         | |- context [Z.gtb ?a ?b] =>
           let E := fresh "E" in destruct (Z.gtb_spec a b) as [E|E]
         end.

(** C5: whatever the metrics are -- zero, very large, or missing, in which
    case they count as 0 -- both scorers return a confidence in [0, 1].
    The scorers are total functions: no input makes them fail. *)
Theorem scorer_confidence_in_unit_interval (p : provider) (item : gmap string Z) :
  (0 <= scorer p item <= 1)%Q /\ (scorer p ∅ == 0)%Q.
Proof.
  split; [|by destruct p].
  destruct p; score_cases; split; apply Qle_bool_imp_le; by vm_compute.
Qed.

(** C4: if every metric that the scorer of a provider reads is at least as
    large in record [a] as in record [b], then the confidence of [a] is at
    least the confidence of [b]. *)
Theorem scorer_monotone (p : provider) (a b : gmap string Z) :
  (forall k, k ∈ metrics p -> get b k 0 <= get a k 0) ->
  (scorer p b <= scorer p a)%Q.
Proof.
  intros Hge. destruct p.
  - pose proof (Hge "score" ltac:(set_solver)).
    pose proof (Hge "view_count" ltac:(set_solver)).
    pose proof (Hge "answer_count" ltac:(set_solver)).
    score_cases; try lia; apply Qle_bool_imp_le; by vm_compute.
  - pose proof (Hge "ups" ltac:(set_solver)).
    pose proof (Hge "num_comments" ltac:(set_solver)).
    score_cases; try lia; apply Qle_bool_imp_le; by vm_compute.
Qed.

(** ** Filter and selection *)

Section FinderFacts.
Context {U : Unicode}.
Import ErrorFinder.

Lemma keeps_inv (cfg : config) (c : candidate) :
  keeps cfg c = true ->
  (get (criteria cfg) "min_confidence_score" 0.5 <= confidence c)%Q /\
  10 <= len (lower (message c)) /\
  (forall keyword, keyword ∈ exclude_keywords ->
     contains keyword (lower (message c)) = false).
Proof.
  unfold keeps. cbv zeta.
  destruct (confidence c <? _)%Q eqn:Ec; [done|].
  destruct (len (lower (message c)) <? 10) eqn:El; [done|].
  destruct (existsb _ exclude_keywords) eqn:Ek; [done|]. intros _.
  split; [by apply Qltb_ge|]. split; [lia|].
  intros keyword Hin. apply list_elem_of_In in Hin.
  rewrite <- not_true_iff_false in Ek |- *. intros Hc. apply Ek.
  apply existsb_exists. by exists keyword.
Qed.

Lemma keeps_has_message (cfg : config) (c : candidate) :
  keeps cfg c = true -> is_Some (error_message c).
Proof.
  intros (_ & Hlen & _)%keeps_inv. unfold message in Hlen.
  destruct (error_message c); [done|].
  exfalso. cbn [default] in Hlen. rewrite lower_empty in Hlen.
  by compute in Hlen.
Qed.

Lemma filter_candidates_spec (cfg : config) (pool : list candidate) :
  sublist (_filter_candidates cfg pool) pool /\
  forall c, c ∈ _filter_candidates cfg pool -> keeps cfg c = true.
Proof.
  induction pool as [|x r [IHs IHk]]; cbn [_filter_candidates].
  - split; [constructor|]. by intros c ?%elem_of_nil.
  - destruct (keeps cfg x) eqn:E.
    + split; [by constructor|].
      intros c [->|Hin]%elem_of_cons; auto.
    + split; [by constructor|]. done.
Qed.

Lemma unique_candidates_spec (am : article_manager) (l : list candidate) :
  sublist (unique_candidates am l) l /\
  forall c, c ∈ unique_candidates am l ->
    is_error_already_processed am (message c) = false.
Proof.
  induction l as [|x r [IHs IHk]]; cbn [unique_candidates].
  - split; [constructor|]. by intros c ?%elem_of_nil.
  - destruct (is_error_already_processed am (message x)) eqn:E; cbn [negb].
    + split; [by constructor|]. done.
    + split; [by constructor|].
      intros c [->|Hin]%elem_of_cons; auto.
Qed.

Lemma survivors_sublist (cfg : config) (manager : option article_manager)
    (pool : list candidate) :
  sublist (survivors cfg manager pool) (_filter_candidates cfg pool).
Proof.
  unfold survivors. destruct manager as [am|]; [|done].
  apply unique_candidates_spec.
Qed.

(** C3: the filter stage returns a subsequence of the pool, so every text
    it keeps is a text of the pool, and each candidate it keeps has a
    confidence of at least the configured minimum (0.5 by default), a
    lower-cased text of at least 10 characters that contains none of the
    exclusion keywords, and a text that the duplicate check of the article
    manager, when one is supplied, does not report as processed. *)
Theorem filter_stage_sound (cfg : config) (manager : option article_manager)
    (pool : list candidate) :
  let kept := survivors cfg manager pool in
  sublist kept pool /\
  forall c, c ∈ kept ->
    message c ∈ map message pool /\
    (get (criteria cfg) "min_confidence_score" 0.5 <= confidence c)%Q /\
    10 <= len (lower (message c)) /\
    (forall keyword, keyword ∈ exclude_keywords ->
       contains keyword (lower (message c)) = false) /\
    (forall am, manager = Some am ->
       is_error_already_processed am (message c) = false).
Proof.
  intros kept.
  assert (sublist kept pool) as Hsub.
  { etrans; [apply survivors_sublist|apply filter_candidates_spec]. }
  split; [exact Hsub|]. intros c Hc.
  split. { apply list_elem_of_In, in_map, list_elem_of_In. by eapply elem_of_sublist. }
  assert (keeps cfg c = true) as Hk.
  { apply (filter_candidates_spec cfg pool).
    eapply elem_of_sublist; [exact Hc|apply survivors_sublist]. }
  destruct (keeps_inv cfg c Hk) as (H1 & H2 & H3).
  repeat split; try done.
  intros am ->. by apply (unique_candidates_spec am (_filter_candidates cfg pool)).
Qed.

Lemma weights_length (top : list candidate) : length (weights top) = length top.
Proof. apply length_imap. Qed.

Lemma weights_lookup (top : list candidate) (i : nat) (c : candidate) :
  top !! i = Some c -> weights top !! i = Some (Z.max 1 (4 - Z.of_nat i)).
Proof. intros H. unfold weights. by rewrite list_lookup_imap, H. Qed.

Lemma weights_positive (top : list candidate) : Forall (fun w => 1 <= w) (weights top).
Proof.
  apply Forall_lookup. intros i w Hw. unfold weights in Hw.
  rewrite list_lookup_imap in Hw. destruct (top !! i); [|done].
  cbn in Hw. injection Hw as <-. lia.
Qed.

Lemma top_candidates_nonempty (l : list candidate) :
  l <> [] -> top_candidates l <> [].
Proof.
  intros Hne. unfold top_candidates, top_count.
  pose proof (sorted_desc_length confidence l) as Hlen.
  destruct (PyLib.sorted_desc confidence l) as [|x r] eqn:E.
  - destruct l; [done|discriminate].
  - replace (Z.to_nat _) with (S (Z.to_nat (Z.max 3 (len (x :: r) / 3)) - 1)) by lia.
    done.
Qed.

Lemma top_candidates_subseteq (l : list candidate) (c : candidate) :
  c ∈ top_candidates l -> c ∈ l.
Proof.
  unfold top_candidates. intros Hin.
  apply subseteq_take in Hin.
  by rewrite sorted_desc_perm in Hin.
Qed.

Lemma select_member (l : list candidate) (rnd : Q) :
  l <> [] -> (forall c, c ∈ l -> is_Some (error_message c)) ->
  exists best, select l rnd = Returned best /\ best ∈ top_candidates l.
Proof.
  intros Hne Hmsg. unfold select. cbv zeta.
  destruct (choices_member (top_candidates l) (weights (top_candidates l)) rnd)
    as (best & Hbest & Hin).
  - by apply top_candidates_nonempty.
  - apply weights_length.
  - apply weights_positive.
  - rewrite Hbest. cbn [mbind result_bind].
    destruct (Hmsg best) as [m Hm]; [by apply top_candidates_subseteq|].
    rewrite Hm. by exists best.
Qed.

Lemma survivors_have_message (cfg : config) (manager : option article_manager)
    (raw : list candidate) (c : candidate) :
  c ∈ survivors cfg manager raw -> is_Some (error_message c).
Proof.
  intros Hc. apply (keeps_has_message cfg).
  apply (filter_candidates_spec cfg raw).
  eapply elem_of_sublist; [exact Hc|apply survivors_sublist].
Qed.

Lemma total_weight_app (a b : list Z) :
  total_weight (a ++ b) = total_weight a + total_weight b.
Proof.
  induction a as [|w a IH]; [done|].
  cbn [app total_weight foldr]. fold (total_weight (a ++ b)) (total_weight a).
  lia.
Qed.

Lemma weight_before_S (n : nat) :
  weight_before (S n) = weight_before n + position_weight n.
Proof.
  unfold weight_before. rewrite seq_S, fmap_app, total_weight_app.
  cbn [fmap list_fmap total_weight foldr Nat.add]. lia.
Qed.

Lemma weight_before_mono (i j : nat) :
  (i <= j)%nat -> weight_before i <= weight_before j.
Proof.
  induction 1 as [|j _ IH]; [lia|].
  rewrite weight_before_S. unfold position_weight. lia.
Qed.

Lemma weights_positions (top : list candidate) :
  weights top = position_weight <$> seq 0 (length top).
Proof.
  apply list_eq. intros i. unfold weights.
  rewrite list_lookup_imap, list_lookup_fmap.
  destruct (top !! i) as [c|] eqn:E.
  - rewrite (lookup_seq_lt 0 (length top) i)
      by (by eapply lookup_lt_Some).
    done.
  - rewrite (lookup_seq_ge 0 (length top) i)
      by (by apply lookup_ge_None).
    done.
Qed.

Lemma weights_take (top : list candidate) (i : nat) :
  (i <= length top)%nat ->
  total_weight (take i (weights top)) = weight_before i.
Proof.
  intros Hi. unfold weight_before.
  rewrite weights_positions, <- fmap_take, take_seq.
  by replace (i `min` length top)%nat with i by lia.
Qed.

(** The draw of [select] follows the weights of the window. *)
Lemma select_by_weight (l : list candidate) (rnd : Q) :
  l <> [] -> (forall c, c ∈ l -> is_Some (error_message c)) ->
  let top := top_candidates l in
  let x := rnd ⊗ (Z2Q (weight_before (length top)) ⊕ 0) in
  exists i best, select l rnd = Returned best /\ top !! i = Some best /\
    ((0 < i)%nat -> (Z2Q (weight_before i) <= x)%Q) /\
    ((i < length top - 1)%nat -> (x < Z2Q (weight_before (S i)))%Q).
Proof.
  intros Hne Hmsg top x. unfold select. cbv zeta. fold top.
  destruct (choices_by_weight top (weights top) rnd)
    as (i & best & Hbest & Hi & Hlow & Hhigh).
  - by apply top_candidates_nonempty.
  - apply weights_length.
  - apply weights_positive.
  - pose proof (lookup_lt_Some _ _ _ Hi) as Hlt.
    assert (Ht : total_weight (weights top) = weight_before (length top)).
    { rewrite <- (weights_take top (length top)) by lia.
      by rewrite <- (weights_length top), firstn_all. }
    rewrite Ht in Hlow, Hhigh.
    rewrite !weights_take in Hlow, Hhigh by lia.
    rewrite Hbest. cbn [mbind result_bind].
    destruct (Hmsg best) as [m Hm].
    { apply top_candidates_subseteq. by eapply list_elem_of_lookup_2. }
    rewrite Hm. by exists i, best.
Qed.

(** With a manager or without, discovery on a pool of which something
    survives the filter stage returns what [select] returns for the
    survivors. *)
Lemma find_trending_error_select (cfg : config) (net : adapters)
    (manager : option article_manager) (rnd : Q) :
  survivors cfg manager (all_candidates cfg net) <> [] ->
  find_trending_error cfg net manager rnd
  = (best ← select (survivors cfg manager (all_candidates cfg net)) rnd;
     Returned (Some best)).
Proof.
  unfold find_trending_error, survivors. cbv zeta.
  destruct (all_candidates cfg net) as [|c0 all];
    [intros H; exfalso; apply H; by destruct manager|].
  destruct (_filter_candidates cfg (c0 :: all)) as [|f0 filtered];
    [intros H; exfalso; apply H; by destruct manager|].
  cbn [truthy negb].
  destruct manager as [am|]; [|done].
  by destruct (unique_candidates am (f0 :: filtered)).
Qed.

(** C2: on a non-empty filtered pool the selection stage sorts by
    descending confidence, the candidates of equal confidence staying in
    discovery order; its window is the first K = max(3, pool_size // 3)
    candidates of the sorted pool; the weight of window position [i] is
    max(1, 4 - i); and, whatever the generator draws, the call returns a
    candidate of that window. Which one is settled by the draw and the
    weights: with [x] the float of the draw times the sum of the weights
    of the window, the call returns the candidate at the one position [i]
    for which [x] is at least the sum of the weights before [i] and below
    that sum plus the weight of [i] (the first position also takes an [x]
    below 0, the last an [x] from the sum on). Discovery on a raw pool with
    survivors returns that candidate. *)
Theorem selection_in_top_window (cfg : config) (manager : option article_manager)
    (raw : list candidate) (rnd : Q) :
  let pool := survivors cfg manager raw in
  let sorted_pool := PyLib.sorted_desc confidence pool in
  let K := Z.to_nat (Z.max 3 (len pool / 3)) in
  let window := take K sorted_pool in
  let x := rnd ⊗ (Z2Q (total_weight (weights window)) ⊕ 0) in
  pool <> [] ->
  sorted_pool ≡ₚ pool /\
  StronglySorted (desc confidence) sorted_pool /\
  (forall q, List.filter (has_key confidence q) sorted_pool
             = List.filter (has_key confidence q) pool) /\
  top_candidates pool = take K sorted_pool /\
  (forall i c, take K sorted_pool !! i = Some c ->
     weights (take K sorted_pool) !! i = Some (Z.max 1 (4 - Z.of_nat i))) /\
  (exists best, select pool rnd = Returned best /\ best ∈ take K sorted_pool) /\
  (weights window = position_weight <$> seq 0 (length window) /\
   forall i, (i <= length window)%nat ->
     total_weight (take i (weights window)) = weight_before i) /\
  (exists i best, select pool rnd = Returned best /\ window !! i = Some best /\
     ((0 < i)%nat -> (Z2Q (weight_before i) <= x)%Q) /\
     ((i < length window - 1)%nat -> (x < Z2Q (weight_before (S i)))%Q)) /\
  (forall i c, window !! i = Some c ->
     (Z2Q (weight_before i) <= x)%Q -> (x < Z2Q (weight_before (S i)))%Q ->
     select pool rnd = Returned c) /\
  (forall net, raw = all_candidates cfg net ->
     exists best, select pool rnd = Returned best /\
       find_trending_error cfg net manager rnd = Returned (Some best)).
Proof.
  intros pool sorted_pool K window x Hne.
  assert (top_candidates pool = take K sorted_pool) as Htop.
  { unfold top_candidates, top_count, K, sorted_pool, len.
    by rewrite sorted_desc_length. }
  assert (Hmsg : forall c, c ∈ pool -> is_Some (error_message c)).
  { intros c. apply survivors_have_message. }
  assert (Hx : x = rnd ⊗ (Z2Q (weight_before (length window)) ⊕ 0)).
  { unfold x. rewrite <- (weights_take window (length window)) by lia.
    by rewrite <- (weights_length window), firstn_all. }
  destruct (select_by_weight pool rnd Hne Hmsg)
    as (i & best & Hbest & Hi & Hlow & Hhigh).
  rewrite Htop in Hi, Hlow, Hhigh. fold window in Hi, Hlow, Hhigh.
  rewrite <- Hx in Hlow, Hhigh.
  split; [apply sorted_desc_perm|].
  split; [apply sorted_desc_sorted|].
  split; [intros q; apply sorted_desc_stable|].
  split; [exact Htop|].
  split; [intros j c; apply weights_lookup|].
  split.
  { exists best. split; [exact Hbest|]. by eapply list_elem_of_lookup_2. }
  split.
  { split; [apply weights_positions|]. intros j. apply weights_take. }
  split; [by exists i, best|].
  split.
  - intros j c Hj Hl Hh.
    pose proof (lookup_lt_Some _ _ _ Hi) as Hilt.
    pose proof (lookup_lt_Some _ _ _ Hj) as Hjlt.
    assert (i = j) as ->; [|congruence].
    destruct (Nat.lt_trichotomy i j) as [Hlt|[->|Hgt]]; [exfalso|done|exfalso].
    + specialize (Hhigh ltac:(lia)).
      pose proof (weight_before_mono (S i) j ltac:(lia)) as Hm.
      assert (Z2Q (weight_before (S i)) <= Z2Q (weight_before j))%Q
        by (unfold Z2Q; by rewrite <- Zle_Qle).
      lra.
    + specialize (Hlow ltac:(lia)).
      pose proof (weight_before_mono (S j) i ltac:(lia)) as Hm.
      assert (Z2Q (weight_before (S j)) <= Z2Q (weight_before i))%Q
        by (unfold Z2Q; by rewrite <- Zle_Qle).
      lra.
  - intros net ->. exists best. split; [exact Hbest|].
    rewrite find_trending_error_select by exact Hne.
    fold pool. by rewrite Hbest.
Qed.

(** C6: discovery never raises. It returns None when the adapters yield
    no candidate, when no candidate passes [_filter_candidates], and when
    none survives the filter stage with its duplicate check. *)
Theorem discovery_returns_none_without_raising (cfg : config) (net : adapters)
    (manager : option article_manager) (rnd : Q) :
  let found := find_trending_error cfg net manager rnd in
  (exists r, found = Returned r) /\
  (all_candidates cfg net = [] -> found = Returned None) /\
  (_filter_candidates cfg (all_candidates cfg net) = [] ->
     found = Returned None) /\
  (survivors cfg manager (all_candidates cfg net) = [] ->
     found = Returned None).
Proof.
  intros found. unfold found, find_trending_error. cbv zeta.
  pose proof (survivors_have_message cfg manager (all_candidates cfg net)) as Hmsg.
  unfold survivors in *. cbv zeta in *.
  destruct (all_candidates cfg net) as [|c0 all] eqn:Eall;
    [cbn; by eauto 10|].
  destruct (_filter_candidates cfg (c0 :: all)) as [|f0 filtered] eqn:Ef.
  { cbn. repeat split; eauto. }
  cbn [truthy negb].
  destruct manager as [am|].
  - destruct (unique_candidates am (f0 :: filtered)) as [|u0 unique] eqn:Eu.
    { cbn. repeat split; eauto. }
    cbn [truthy negb].
    destruct (select_member (u0 :: unique) rnd) as (best & -> & _);
      [done|exact Hmsg|].
    cbn. repeat split; eauto; done.
  - destruct (select_member (f0 :: filtered) rnd) as (best & -> & _);
      [done|exact Hmsg|].
    cbn. repeat split; eauto; done.
Qed.

End FinderFacts.

(** ** Solution aggregator *)

Section CollectorFacts.
Import InfoCollector.

Lemma unique_loop_acc (srcs : list source) (seen : gset pystr)
    (acc : list source) :
  unique_loop srcs seen acc = acc ++ unique_loop srcs seen [].
Proof.
  revert seen acc. induction srcs as [|x r IH]; intros seen acc;
    cbn [unique_loop].
  - by rewrite app_nil_r.
  - destruct (truthy (url_of x) && bool_decide (url_of x ∉ seen)).
    + rewrite (IH _ (acc ++ [x])), (IH _ ([] ++ [x])).
      by rewrite <- app_assoc.
    + apply IH.
Qed.

(** What the loop keeps of [x :: r], one step at a time. *)
Lemma unique_loop_cons (x : source) (r : list source) (seen : gset pystr) :
  unique_loop (x :: r) seen [] =
    if truthy (url_of x) && bool_decide (url_of x ∉ seen)
    then x :: unique_loop r ({[url_of x]} ∪ seen) []
    else unique_loop r seen [].
Proof.
  cbn [unique_loop].
  destruct (truthy (url_of x) && bool_decide (url_of x ∉ seen)); [|done].
  by rewrite unique_loop_acc.
Qed.


Lemma unique_loop_sublist (srcs : list source) (seen : gset pystr) :
  sublist (unique_loop srcs seen []) srcs.
Proof.
  revert seen. induction srcs as [|x r IH]; intros seen; [constructor|].
  rewrite unique_loop_cons.
  destruct (truthy (url_of x) && bool_decide (url_of x ∉ seen));
    by constructor.
Qed.




Lemma sorted_desc_fixed {A} (key : A -> Q) (l : list A) :
  StronglySorted (desc key) l -> PyLib.sorted_desc key l = l.
Proof.
  induction 1 as [|x r Hr IH Hx]; [done|].
  cbn [PyLib.sorted_desc foldr]. fold (PyLib.sorted_desc key r). rewrite IH.
  destruct r as [|y r']; [done|]. cbn [PyLib.insert_desc].
  apply Forall_cons in Hx as [Hy _].
  by apply Qltb_ge in Hy as ->.
Qed.



(** C10, as the code has it: the call leaves the caller's citations list
    as it was and sorts the caller's solutions list in place. After the
    call that list holds the same elements, ordered by descending
    reliability, and it is unchanged exactly when it was so ordered
    already. The candidate is only read: the bundle holds it as it was
    passed, with its message (the empty string when it has none). The one
    reading from outside is the clock, which the bundle records as its
    collection time and which changes nothing else, neither in the bundle
    nor in the caller's lists. *)
Theorem aggregate_sorts_solutions_in_place (candidate : ErrorFinder.candidate)
    (now : Q) (h : heap) :
  let info := fst (_integrate_information candidate now h) in
  let h' := snd (_integrate_information candidate now h) in
  (sources_list h' = sources_list h /\
   solutions_list h' = PyLib.sorted_desc reliability_of (solutions_list h) /\
   solutions_list h' ≡ₚ solutions_list h /\
   (solutions_list h' = solutions_list h <->
    StronglySorted (desc reliability_of) (solutions_list h))) /\
  (error_candidate info = candidate /\
   error_message info = default [] (ErrorFinder.error_message candidate)) /\
  (collection_time (summary info) = now /\
   forall later : Q,
     let info' := fst (_integrate_information candidate later h) in
     snd (_integrate_information candidate later h) = h' /\
     error_candidate info' = error_candidate info /\
     error_message info' = error_message info /\
     solutions info' = solutions info /\
     sources info' = sources info /\
     total_solutions (summary info') = total_solutions (summary info) /\
     total_sources (summary info') = total_sources (summary info) /\
     reliability_scores (summary info') = reliability_scores (summary info) /\
     avg_reliability (summary info') = avg_reliability (summary info) /\
     collection_time (summary info') = later).
Proof.
  intros info h'. split; [|split].
  - cbn. split; [done|]. split; [done|].
    split; [apply sorted_desc_perm|]. split.
    + intros <-. apply sorted_desc_sorted.
    + apply sorted_desc_fixed.
  - done.
  - split; [done|]. intros later. by cbn.
Qed.

End CollectorFacts.

(** ** Quality gate *)

Section CheckerFacts.
Context {U : Unicode} {L : QualityChecker.UrlLib}.
Import QualityChecker.

Lemma count_severity_app (f : issue -> bool) (l1 l2 : list issue) :
  count_severity f (l1 ++ l2) = count_severity f l1 + count_severity f l2.
Proof.
  unfold count_severity, len. rewrite List.filter_app, length_app. lia.
Qed.

Lemma count_severity_nonneg (f : issue -> bool) (l : list issue) :
  0 <= count_severity f l.
Proof. unfold count_severity, len. lia. Qed.

Lemma count_high_zero (l : list issue) :
  count_severity is_high l = 0 ->
  Forall (fun i => issue_severity i <> high) l.
Proof.
  induction l as [|i r IH]; [constructor|].
  unfold count_severity, len, is_high in *. cbn [List.filter].
  destruct (issue_severity i) eqn:E; cbn [length]; intros H;
    try (constructor; [congruence|by apply IH]).
  lia.
Qed.

Lemma count_high_elem (l : list issue) (m : message) :
  Issue m high ∈ l -> 1 <= count_severity is_high l.
Proof.
  intros (l1 & l2 & ->)%list_elem_of_split.
  rewrite count_severity_app. change (Issue m high :: l2) with ([Issue m high] ++ l2).
  rewrite count_severity_app.
  pose proof (count_severity_nonneg is_high l1).
  pose proof (count_severity_nonneg is_high l2).
  change (count_severity is_high [Issue m high]) with 1. lia.
Qed.

Lemma verdict_passed (cfg : config) (t : tally) :
  report_passed (verdict cfg t) = true ->
  (get (thresholds cfg) "min_seo_score" 70 <= overall t)%Q /\
  Forall (fun i => issue_severity i <> high) (tally_issues t).
Proof.
  cbn. intros [Hmin Hhigh]%andb_true_iff.
  split; [by apply Qleb_le|]. apply count_high_zero. lia.
Qed.

(** C1, as the code has it: a report with passed = true comes from checks
    that ran to their end; the overall score before rounding,
    total / max * 100, is at least the configured minimum (70 by
    default); no issue of the report has severity high; the overall
    score that the report shows is that score rounded to one decimal,
    and it is at least the minimum whenever the minimum is the float of
    a whole number of tenths. *)
Theorem passed_means_threshold_and_no_high (cfg : config) (a : article) :
  let r := check_quality cfg a in
  let min_score := get (thresholds cfg) "min_seo_score" 70%Q in
  report_passed r = true ->
  exists t, run_checks cfg a = Returned t /\
    (min_score <= overall t)%Q /\
    overall_score r = round1 (overall t) /\
    Forall (fun i => issue_severity i <> high) (report_issues r) /\
    (forall k : Z, - 2 ^ 52 < k < 2 ^ 52 ->
       (min_score == fl (Z2Q k / 10))%Q ->
       (min_score <= overall_score r)%Q).
Proof.
  intros r min_score. unfold r, check_quality, check_quality_body.
  destruct (run_checks cfg a) as [t|e]; cbn [mbind result_bind];
    [|by cbn].
  intros Hp. destruct (verdict_passed cfg t Hp) as [Hmin Hhigh].
  exists t. split; [done|]. split; [done|]. split; [done|].
  split; [done|]. intros k Hr Hk. cbn [overall_score verdict].
  unfold min_score in *. rewrite Hk in Hmin |- *. by apply round1_tenths.
Qed.

Lemma run_checks_issues (cfg : config) (a : article) (t : tally) :
  run_checks cfg a = Returned t ->
  exists rest,
    tally_issues t = issues (_check_basic_quality cfg a) ++ rest.
Proof.
  unfold run_checks. cbv zeta.
  set (basic := issues (_check_basic_quality cfg a)).
  set (seo := issues (_check_seo_quality a)).
  set (structure := issues (_check_content_structure a)).
  set (readable := issues (_check_readability a)).
  destruct (get (checks_config cfg) "duplicate_detection" false);
    [destruct (negb (flag_passed (_check_duplicates a)))|];
    (destruct (get (checks_config cfg) "link_validation" false);
     [destruct (_check_links a) as [lr|e]; cbn [mbind result_bind];
      [destruct (negb (flag_passed lr))|]|]);
    cbn [mbind result_bind]; intros [= <-]; cbn [tally_issues];
    rewrite ?app_nil_l, <- ?app_assoc; eauto.
Qed.

Lemma high_basic_issue_fails (cfg : config) (a : article) (m : message) :
  Issue m high ∈ issues (_check_basic_quality cfg a) ->
  report_passed (check_quality cfg a) = false.
Proof.
  intros Hin. unfold check_quality, check_quality_body.
  destruct (run_checks cfg a) as [t|e] eqn:E; cbn [mbind result_bind]; [|done].
  destruct (run_checks_issues cfg a t E) as (rest & Hrest).
  cbn. rewrite Hrest, count_severity_app.
  pose proof (count_high_elem _ _ Hin).
  pose proof (count_severity_nonneg is_high rest).
  apply andb_false_iff. right. lia.
Qed.

(** C9, as the code has it: for an article of 500 words against the
    window [3000, 5000], with a title of 15 characters and no excerpt, the
    word-count, title and excerpt checks fail; the content check is
    independent of them, so the basic sub-score is 20 when the article has
    content and 0 when it has none; the issues of the basic check include
    the high-severity issue on the insufficient length; and the report has
    passed = false. *)
Theorem short_article_fails (cfg : config) (a : article) (ttl : pystr) :
  (get (thresholds cfg) "min_word_count" 2000 == 3000)%Q ->
  (get (thresholds cfg) "max_word_count" 8000 == 5000)%Q ->
  word_count a = Some 500 ->
  title a = Some ttl -> len ttl = 15 ->
  default [] (excerpt a) = [] ->
  let basic := _check_basic_quality cfg a in
  score basic = (if truthy (default [] (content a)) then 20 else 0) /\
  Issue (word_count_short 500 (get (thresholds cfg) "min_word_count" 2000%Q)) high
    ∈ issues basic /\
  report_passed (check_quality cfg a) = false.
Proof.
  intros Hmin Hmax Hwc Httl Hlen Hex basic.
  assert (score basic = (if truthy (default [] (content a)) then 20 else 0) /\
          Issue (word_count_short 500 (get (thresholds cfg) "min_word_count" 2000%Q)) high
            ∈ issues basic) as [Hs Hi].
  { unfold basic, _check_basic_quality. cbv zeta.
    rewrite Hwc, Httl, Hex. cbn [default from_option id truthy negb].
    assert ((Z2Q 500 <? get (thresholds cfg) "min_word_count" 2000)%Q = true) as ->.
    { apply Qltb_lt. by rewrite Hmin. }
    assert (truthy ttl = true) as -> by (destruct ttl; [by compute in Hlen|done]).
    cbn [negb]. rewrite Hlen. cbn [Z.ltb Z.compare Pos.compare Pos.compare_cont].
    destruct (truthy (default [] (content a))); cbn; split; try done; set_solver. }
  split; [exact Hs|]. split; [exact Hi|].
  by eapply high_basic_issue_fails.
Qed.

Lemma density_block_frame (body kw : pystr) (s : Z) (iss : list issue) :
  density_block body kw (s, iss) =
    (s + fst (density_block body kw (0, [])),
     iss ++ snd (density_block body kw (0, []))).
Proof.
  unfold density_block.
  destruct (truthy body); [|cbn; f_equal; [lia|by rewrite app_nil_r]].
  destruct (len_split body >? 0); [|cbn; f_equal; [lia|by rewrite app_nil_r]].
  repeat match goal with
         | |- context [if ?b then _ else _] => destruct b
         end; cbn; f_equal; try lia; by rewrite ?app_nil_r.
Qed.

Lemma len_split_truthy (body : pystr) : 0 < len_split body -> truthy body = true.
Proof. destruct body; [by compute|done]. Qed.

Lemma density_block_cases (body kw : pystr) (s : Z) (iss : list issue) :
  0 < len_split body ->
  let d := keyword_density body kw in
  density_block body kw (s, iss) =
    if (1 <=? d)%Q && (d <=? 3)%Q then (s + 25, iss)
    else if (0.5 <=? d)%Q && (d <? 1)%Q
         then (s + 15, iss ++ [Issue (density_low d) low])
    else if (3 <? d)%Q then (s, iss ++ [Issue (density_high d) medium])
    else (s, iss ++ [Issue keyword_rare medium]).
Proof.
  intros Hwords d. unfold density_block.
  rewrite (len_split_truthy body Hwords).
  assert ((len_split body >? 0) = true) as -> by lia. done.
Qed.

Lemma density_block_empty (kw : pystr) (st : Z * list issue) :
  density_block [] kw st = st.
Proof. by destruct st. Qed.

(** The SEO check of an article with a keyword, next to the check of the
    same article without its content: the density block adds its points
    to the score and puts its issues after those on the title and the
    excerpt, before those on the slug, the tags and the images. *)
Lemma seo_density_frame (a : article) (kw body : pystr) :
  error_message a = Some kw -> kw <> [] -> content a = Some body ->
  let seo := _check_seo_quality a in
  let rest := _check_seo_quality (without_content a) in
  let pre :=
    (if contains (lower kw) (lower (default [] (title a)))
     then [] else [Issue keyword_not_in_title high]) ++
    (if contains (lower kw) (lower (default [] (excerpt a)))
     then [] else [Issue keyword_not_in_excerpt medium]) in
  exists post,
    issues rest = pre ++ post /\
    issues seo = pre ++ snd (density_block body kw (0, [])) ++ post /\
    score seo = score rest + fst (density_block body kw (0, [])).
Proof.
  intros Hkw Hne Hbody. unfold _check_seo_quality. cbv zeta.
  cbn [without_content title content excerpt error_message slug tags
       html_content].
  rewrite Hkw, Hbody. cbn [default from_option id].
  assert (truthy kw = true) as -> by (by destruct kw).
  destruct (contains (lower kw) (lower (default [] (title a))));
    destruct (contains (lower kw) (lower (default [] (excerpt a))));
    rewrite density_block_empty, density_block_frame;
    destruct (density_block body kw (0, [])) as [delta ext];
    cbn [fst snd];
    repeat match goal with
           | |- context [if ?b then _ else _] => destruct b
           end;
    cbn [issues score];
    (eexists; split; [|split];
     [cbn [app]; reflexivity
     |repeat rewrite <- app_assoc; cbn [app]; rewrite ?app_nil_r; reflexivity
     |lia]).
Qed.

(** C8, as the code has it: when the keyword is non-empty and the content
    has at least one word, the density is the number of occurrences of the
    lower-cased keyword in the lower-cased content, divided by the number
    of words of the content, times 100. A density in [1, 3] adds 25 to the
    score and no issue; a density in [0.5, 1) adds 15 and a low-severity
    issue; a density above 3 adds nothing and a medium-severity issue; a
    density below 0.5 adds nothing and a medium-severity issue. The issues
    of the block are issues of the SEO result. These are the points and
    the issue by which the result of the SEO check differs from the
    result for the same article without its content: the score is that
    score plus 25, 15 or 0, and the issue stands after the issues on the
    keyword in the title and in the excerpt, before all others. *)
Theorem keyword_density_scoring (a : article) (kw body : pystr)
    (s : Z) (iss : list issue) :
  error_message a = Some kw -> kw <> [] ->
  content a = Some body -> 0 < len_split body ->
  let d := keyword_density body kw in
  let block := density_block body kw (s, iss) in
  let seo := _check_seo_quality a in
  let rest := _check_seo_quality (without_content a) in
  let pre :=
    (if contains (lower kw) (lower (default [] (title a)))
     then [] else [Issue keyword_not_in_title high]) ++
    (if contains (lower kw) (lower (default [] (excerpt a)))
     then [] else [Issue keyword_not_in_excerpt medium]) in
  d = Z2Q (count (lower kw) (lower body)) ⊘ Z2Q (len_split body) ⊗ 100 /\
  ((1 <= d)%Q -> (d <= 3)%Q -> block = (s + 25, iss)) /\
  ((0.5 <= d)%Q -> (d < 1)%Q ->
     block = (s + 15, iss ++ [Issue (density_low d) low])) /\
  ((3 < d)%Q -> block = (s, iss ++ [Issue (density_high d) medium])) /\
  ((d < 0.5)%Q -> block = (s, iss ++ [Issue keyword_rare medium])) /\
  (forall i, i ∈ snd (density_block body kw (0, [])) ->
     i ∈ issues (_check_seo_quality a)) /\
  exists post,
    issues rest = pre ++ post /\
    ((1 <= d)%Q -> (d <= 3)%Q ->
       score seo = score rest + 25 /\ issues seo = pre ++ post) /\
    ((0.5 <= d)%Q -> (d < 1)%Q ->
       score seo = score rest + 15 /\
       issues seo = pre ++ Issue (density_low d) low :: post) /\
    ((3 < d)%Q ->
       score seo = score rest /\
       issues seo = pre ++ Issue (density_high d) medium :: post) /\
    ((d < 0.5)%Q ->
       score seo = score rest /\
       issues seo = pre ++ Issue keyword_rare medium :: post).
Proof.
  intros Hkw Hne Hbody Hwords d block seo rest pre.
  split; [done|].
  assert (Hcases : forall s iss,
    ((1 <= d)%Q -> (d <= 3)%Q -> density_block body kw (s, iss) = (s + 25, iss)) /\
    ((0.5 <= d)%Q -> (d < 1)%Q ->
       density_block body kw (s, iss)
       = (s + 15, iss ++ [Issue (density_low d) low])) /\
    ((3 < d)%Q ->
       density_block body kw (s, iss)
       = (s, iss ++ [Issue (density_high d) medium])) /\
    ((d < 0.5)%Q ->
       density_block body kw (s, iss) = (s, iss ++ [Issue keyword_rare medium]))).
  { intros s' iss'. rewrite (density_block_cases body kw s' iss' Hwords).
    fold d. repeat split.
    - intros H1 H3. apply Qleb_le in H1, H3. by rewrite H1, H3.
    - intros H1 H2. pose proof H1 as H1b. pose proof H2 as H2b.
      apply Qleb_le in H1b. apply Qltb_lt in H2b. rewrite H1b, H2b.
      assert ((1 <=? d)%Q = false) as ->; [|done].
      apply not_true_iff_false. rewrite Qleb_le. lra.
    - intros H3. pose proof H3 as H3b. apply Qltb_lt in H3b. rewrite H3b.
      assert ((d <=? 3)%Q = false) as ->.
      { apply not_true_iff_false. rewrite Qleb_le. lra. }
      assert ((d <? 1)%Q = false) as ->.
      { apply not_true_iff_false. rewrite Qltb_lt. lra. }
      by rewrite !andb_false_r.
    - intros H5.
      assert ((1 <=? d)%Q = false) as ->.
      { apply not_true_iff_false. rewrite Qleb_le. lra. }
      assert ((0.5 <=? d)%Q = false) as ->.
      { apply not_true_iff_false. rewrite Qleb_le. lra. }
      assert ((3 <? d)%Q = false) as ->; [|done].
      apply not_true_iff_false. rewrite Qltb_lt. lra. }
  destruct (seo_density_frame a kw body Hkw Hne Hbody)
    as (post & Hrest & Hseo & Hscore).
  fold seo rest pre in Hrest, Hseo, Hscore.
  destruct (Hcases s iss) as (B1 & B2 & B3 & B4).
  do 4 (split; [assumption|]).
  split.
  - intros i Hi. fold seo. rewrite Hseo, !elem_of_app. auto.
  - destruct (Hcases 0 []) as (Z1 & Z2 & Z3 & Z4).
    exists post. split; [exact Hrest|].
    rewrite Hseo, Hscore.
    split; [|split; [|split]].
    + intros H1 H3. by rewrite (Z1 H1 H3).
    + intros H1 H2. by rewrite (Z2 H1 H2).
    + intros H3. rewrite (Z3 H3). cbn [fst snd app]. split; [lia|done].
    + intros H5. rewrite (Z4 H5). cbn [fst snd app]. split; [lia|done].
Qed.

End CheckerFacts.

(** ** Worked examples *)

Section Examples.
#[local] Existing Instance Ascii_text.
#[local] Existing Instance Plain_urls.

(** A question with more votes, views and answers scores at least as
    high as one that has 6 votes and nothing else. *)
Lemma scorer_monotone_example :
  (scorer stackoverflow so_quiet <= scorer stackoverflow so_popular)%Q.
Proof.
  apply (scorer_monotone stackoverflow so_popular so_quiet).
  intros k Hk. unfold metrics in Hk.
  repeat (apply elem_of_cons in Hk as [->|Hk]); [by vm_compute..|].
  by apply elem_of_nil in Hk.
Defined.

(** The filter keeps two of the four sample candidates, in pool order. *)
Lemma filter_stage_example :
  sublist (ErrorFinder.survivors default_finder None sample_pool) sample_pool.
Proof.
  exact (proj1 (filter_stage_sound default_finder None sample_pool)).
Defined.

(** With the draw 1/2 the selection returns a candidate of the window,
    and discovery returns the same candidate. *)
Lemma selection_example :
  let pool := ErrorFinder.survivors default_finder None sample_pool in
  pool <> [] /\
  (exists best,
     ErrorFinder.select pool 0.5 = Returned best /\
     best ∈ take 3 (PyLib.sorted_desc ErrorFinder.confidence pool)) /\
  exists best,
    ErrorFinder.select pool 0.5 = Returned best /\
    ErrorFinder.find_trending_error default_finder sample_net None 0.5
    = Returned (Some best).
Proof.
  assert (ErrorFinder.survivors default_finder None sample_pool <> [])
    as Hne by (by vm_compute).
  pose proof (selection_in_top_window default_finder None sample_pool 0.5 Hne)
    as T.
  split; [exact Hne|].
  split; [exact (proj1 (proj2 (proj2 (proj2 (proj2 (proj2 T))))))|].
  exact (proj2 (proj2 (proj2 (proj2 (proj2 (proj2 (proj2 (proj2 (proj2 T))))))))
           sample_net eq_refl).
Defined.

(** A window of three candidates has the weights 4, 3, 2; the draws 0.4,
    0.5 and 0.8 fall in the first, second and third of the intervals
    [0, 4/9), [4/9, 7/9), [7/9, 1), and discovery returns the candidate of
    the highest, the middle and the lowest confidence. *)
Lemma three_candidate_draws :
  ErrorFinder.survivors default_finder None three_errors = three_errors /\
  ErrorFinder.top_candidates three_errors
  = [found "Segmentation fault core" 0.9; found "Permission denied /usr" 0.8;
     found "NullPointerException at boot" 0.7] /\
  ErrorFinder.weights (ErrorFinder.top_candidates three_errors) = [4; 3; 2] /\
  ErrorFinder.find_trending_error default_finder three_net None 0.4
  = Returned (Some (found "Segmentation fault core" 0.9)) /\
  ErrorFinder.find_trending_error default_finder three_net None 0.5
  = Returned (Some (found "Permission denied /usr" 0.8)) /\
  ErrorFinder.find_trending_error default_finder three_net None 0.8
  = Returned (Some (found "NullPointerException at boot" 0.7)).
Proof. repeat split; by vm_compute. Qed.

(** Of the sample pool the filter drops "DISK_FULL", which is 9
    characters long, and "test sample error", which holds an exclusion
    keyword although its confidence is the highest; the window is the two
    candidates left, with the weights 4 and 3, and the draw 0.5 selects
    the first. *)
Lemma discovery_on_sample_pool :
  ErrorFinder.find_trending_error default_finder sample_net None 0.5
  = Returned (Some (found "OUT_OF_MEMORY_0x1" 0.9)).
Proof. by vm_compute. Qed.

(** No adapter answers: discovery returns None. *)
Lemma discovery_example :
  ErrorFinder.find_trending_error default_finder silent_net None 0.5
  = Returned None.
Proof.
  apply (discovery_returns_none_without_raising
           default_finder silent_net None 0.5).
  reflexivity.
Defined.



(** C10, as stated, fails on two solutions collected in ascending order
    of reliability: after the call the caller's list is in the other
    order. *)
Lemma caller_solutions_are_reordered :
  InfoCollector.solutions_list
    (snd (InfoCollector._integrate_information
            kernel_panic 0 collected_unsorted))
  <> InfoCollector.solutions_list collected_unsorted.
Proof. vm_compute. intros [=]. Qed.

(** The citations of the caller stay as they were, the bundle holds the
    candidate, and its collection time is the clock reading 1700000000. *)
Lemma in_place_sort_example :
  let r := InfoCollector._integrate_information
             kernel_panic 1700000000 collected_unsorted in
  InfoCollector.sources_list (snd r)
  = InfoCollector.sources_list collected_unsorted /\
  InfoCollector.error_candidate (fst r) = kernel_panic /\
  InfoCollector.collection_time (InfoCollector.summary (fst r))
  = 1700000000%Q.
Proof.
  pose proof (aggregate_sorts_solutions_in_place
                kernel_panic 1700000000 collected_unsorted) as T.
  split; [exact (proj1 (proj1 T))|].
  split; [exact (proj1 (proj1 (proj2 T)))|].
  exact (proj1 (proj2 (proj2 T))).
Defined.

(** C1, as stated, fails for the minimum 71.25: the checks of
    [fair_article] sum to 285 of 400, that is 71.25, the article passes,
    and its report shows the overall score 71.2. *)
Lemma rounded_score_below_minimum :
  ~ gate_invariant strict_quality
      (QualityChecker.check_quality strict_quality fair_article).
Proof.
  intros H. destruct H as [Hmin _]; [by vm_compute|].
  apply Qle_bool_iff in Hmin. by vm_compute in Hmin.
Qed.

Lemma passing_article_example :
  QualityChecker.report_passed
    (QualityChecker.check_quality default_quality fair_article) = true /\
  exists t,
    QualityChecker.run_checks default_quality fair_article = Returned t /\
    (70 <= QualityChecker.overall t)%Q.
Proof.
  assert (QualityChecker.report_passed
            (QualityChecker.check_quality default_quality fair_article) = true)
    as Hp by (by vm_compute).
  split; [exact Hp|].
  destruct (passed_means_threshold_and_no_high default_quality fair_article Hp)
    as (t & Ht & Hmin & _).
  exists t. split; [exact Ht|exact Hmin].
Defined.

(** C8, as stated, fails on a content made of the keyword alone: the
    density is 100, the issue on it has severity medium, and no issue of
    the SEO result has severity high. *)
Lemma dense_keyword_issue_is_medium :
  (3 < QualityChecker.keyword_density (py "err err") (py "err"))%Q /\
  QualityChecker.Issue
    (QualityChecker.density_high
       (QualityChecker.keyword_density (py "err err") (py "err")))
    QualityChecker.medium
    ∈ QualityChecker.issues (QualityChecker._check_seo_quality stuffed_article) /\
  Forall (fun i => QualityChecker.issue_severity i <> QualityChecker.high)
    (QualityChecker.issues (QualityChecker._check_seo_quality stuffed_article)).
Proof.
  split; [by apply Qltb_lt; vm_compute|].
  split; vm_compute.
  - by left.
  - repeat constructor; discriminate.
Qed.

(** The SEO check of that article: the density of 100 earns nothing, so
    the score is the one of the article without its content, and the
    medium-severity issue follows the issues on the title and the
    excerpt. *)
Lemma keyword_density_example :
  QualityChecker.score (QualityChecker._check_seo_quality stuffed_article)
  = QualityChecker.score
      (QualityChecker._check_seo_quality (without_content stuffed_article)) /\
  QualityChecker.Issue
    (QualityChecker.density_high
       (QualityChecker.keyword_density (py "err err") (py "err")))
    QualityChecker.medium
  ∈ QualityChecker.issues (QualityChecker._check_seo_quality stuffed_article) /\
  QualityChecker.density_block (py "err err") (py "err") (35, [])
  = (35, [] ++ [QualityChecker.Issue
                  (QualityChecker.density_high
                     (QualityChecker.keyword_density (py "err err") (py "err")))
                  QualityChecker.medium]).
Proof.
  assert (3 < QualityChecker.keyword_density (py "err err") (py "err"))%Q
    as Hd by (apply Qltb_lt; by vm_compute).
  destruct (keyword_density_scoring stuffed_article (py "err") (py "err err")
              35 [])
    as (_ & _ & _ & Hblock & _ & _ & post & _ & _ & _ & Hhigh & _);
    [reflexivity|discriminate|reflexivity|by vm_compute|].
  destruct (Hhigh Hd) as [Hs Hi].
  split; [exact Hs|]. split; [|exact (Hblock Hd)].
  rewrite Hi. apply elem_of_app. right. by left.
Defined.

(** C9, as stated, fails on an article of 500 words with a title of 15
    characters, no excerpt and a content: the content check succeeds and
    the basic sub-score is 20. *)
Lemma short_article_scores_twenty :
  QualityChecker.word_count short_article = Some 500 /\
  len (default [] (QualityChecker.title short_article)) = 15 /\
  QualityChecker.excerpt short_article = None /\
  QualityChecker.score
    (QualityChecker._check_basic_quality long_form_quality short_article)
  <> 0.
Proof. repeat split; by vm_compute. Qed.

Lemma short_article_example :
  QualityChecker.score
    (QualityChecker._check_basic_quality long_form_quality short_article) = 20 /\
  QualityChecker.report_passed
    (QualityChecker.check_quality long_form_quality short_article) = false.
Proof.
  destruct (short_article_fails long_form_quality short_article
              (py "Fix the err now"))
    as (Hs & _ & Hp); try reflexivity.
  split; [exact Hs|exact Hp].
Defined.

End Examples.

(** ** Strings *)

Lemma eqc_eq (a b : char) : eqc a b = true <-> a = b.
Proof. apply N.eqb_eq. Qed.

Lemma eqc_refl (a : char) : eqc a a = true.
Proof. apply N.eqb_refl. Qed.

Lemma startswith_app (p s : pystr) :
  startswith p s = true <-> exists t, s = p ++ t.
Proof.
  revert s. induction p as [|a p IH]; intros s; simpl.
  - split; [by exists s | done].
  - destruct s as [|b s]; simpl.
    + split; [done | by intros [t Ht]].
    + rewrite andb_true_iff, eqc_eq, IH. split.
      * intros [-> [t ->]]. by exists t.
      * intros [t [= -> ->]]. split; [done | by exists t].
Qed.

Lemma contains_app (p s : pystr) :
  contains p s = true <-> exists a b, s = a ++ p ++ b.
Proof.
  induction s as [|c s IH].
  - simpl. rewrite orb_false_r, startswith_app. split.
    + intros [t Ht]. by exists [], t.
    + intros (a & b & H). symmetry in H.
      apply app_eq_nil in H as [-> H]. by exists b.
  - simpl. rewrite orb_true_iff, startswith_app, IH. split.
    + intros [[t Ht] | (a & b & ->)].
      * by exists [], t.
      * by exists (c :: a), b.
    + intros (a & b & H). destruct a as [|c' a].
      * left. by exists b.
      * right. injection H as -> ->. by exists a, b.
Qed.

Lemma contains_false_app (p a b : pystr) :
  contains p (a ++ b) = false -> contains p a = false /\ contains p b = false.
Proof.
  intros H. split; apply not_true_iff_false; intros C;
    apply not_true_iff_false in H; apply H;
    apply contains_app in C as (x & y & ->); apply contains_app.
  - exists x, (y ++ b). by rewrite <- !app_assoc.
  - exists (a ++ x), y. by rewrite <- !app_assoc.
Qed.
(** ** Article manager *)

Section ManagerFacts.
Import ArticleManager.
Context {W : WordTable}.

Lemma lstrip_of_suffix (cls : char -> bool) (s : pystr) :
  exists t, s = t ++ lstrip_of cls s.
Proof.
  induction s as [|c s [t IH]]; simpl.
  - by exists [].
  - destruct (cls c).
    + exists (c :: t). simpl. by f_equal.
    + by exists [].
Qed.

Lemma lstrip_of_head (cls : char -> bool) (s : pystr) (c : char) :
  head (lstrip_of cls s) = Some c -> cls c = false.
Proof.
  induction s as [|a s IH]; simpl; [done|].
  destruct (cls a) eqn:E; [done|]. simpl. by intros [= <-].
Qed.

Lemma lstrip_of_id (cls : char -> bool) (s : pystr) :
  (forall c, head s = Some c -> cls c = false) -> lstrip_of cls s = s.
Proof.
  destruct s as [|a s]; simpl; [done|].
  intros H. by rewrite (H a).
Qed.

Lemma last_rev (s : pystr) : last (rev s) = head s.
Proof. destruct s; simpl; [done|]. apply last_snoc. Qed.

Lemma head_rev (s : pystr) : head (rev s) = last s.
Proof. by rewrite <- (rev_involutive s) at 2; rewrite last_rev. Qed.

Lemma rstrip_of_prefix (cls : char -> bool) (s : pystr) :
  exists t, s = rstrip_of cls s ++ t.
Proof.
  unfold rstrip_of. destruct (lstrip_of_suffix cls (rev s)) as [t Ht].
  exists (rev t). by rewrite <- rev_app_distr, <- Ht, rev_involutive.
Qed.

Lemma rstrip_of_last (cls : char -> bool) (s : pystr) (c : char) :
  last (rstrip_of cls s) = Some c -> cls c = false.
Proof. unfold rstrip_of. rewrite last_rev. apply lstrip_of_head. Qed.

Lemma rstrip_of_id (cls : char -> bool) (s : pystr) :
  (forall c, last s = Some c -> cls c = false) -> rstrip_of cls s = s.
Proof.
  intros H. unfold rstrip_of. rewrite lstrip_of_id, rev_involutive; [done|].
  by rewrite head_rev.
Qed.

Lemma head_prefix (s t : pystr) : s <> [] -> head (s ++ t) = head s.
Proof. by destruct s. Qed.

Lemma sub_unsafe_safe (s : pystr) :
  Forall (fun c => safe_char c = true) (sub_unsafe s).
Proof.
  unfold sub_unsafe. induction s as [|x s IH]; simpl; constructor; [|done].
  destruct (safe_char x) eqn:E; [done|].
  unfold safe_char. by rewrite eqc_refl, orb_true_r.
Qed.

Lemma sub_unsafe_id (s : pystr) :
  Forall (fun c => safe_char c = true) s -> sub_unsafe s = s.
Proof.
  unfold sub_unsafe. induction 1 as [|c s Hc _ IH]; simpl; [done|].
  by rewrite Hc, IH.
Qed.

Lemma sub_runs_safe (s : pystr) (b : bool) :
  Forall (fun c => safe_char c = true) s ->
  Forall (fun c => safe_char c = true) (sub_runs s b).
Proof.
  intros H. revert b. induction H as [|c s Hc _ IH]; intros b; simpl.
  - constructor.
  - destruct (eqc c underscore); [destruct b|]; try constructor; auto.
    unfold safe_char, underscore. by rewrite orb_true_r.
Qed.

Lemma contains_run_cons (c : char) (s : pystr) :
  contains (py "__") (c :: s)
  = eqc c underscore
    && match s with d :: _ => eqc d underscore | [] => false end
    || contains (py "__") s.
Proof.
  change (py "__") with [underscore; underscore].
  cbn [contains startswith]. f_equal. unfold eqc.
  rewrite (N.eqb_sym underscore c). destruct s as [|d r].
  - by rewrite andb_false_r.
  - by rewrite (N.eqb_sym underscore d), andb_true_r.
Qed.

Lemma sub_runs_squeezed (s : pystr) (b : bool) :
  contains (py "__") (sub_runs s b) = false /\
  (b = true -> head (sub_runs s b) <> Some underscore).
Proof.
  revert b. induction s as [|c s IH]; intros b.
  - by destruct b.
  - cbn [sub_runs]. destruct (eqc c underscore) eqn:E.
    + destruct (IH true) as [H1 H2]. destruct b; [done|].
      split; [|done]. specialize (H2 eq_refl).
      rewrite contains_run_cons, H1, orb_false_r, eqc_refl.
      destruct (sub_runs s true) as [|d r]; [done|].
      cbn [head] in H2. destruct (eqc d underscore) eqn:D; [|done].
      apply eqc_eq in D. by subst d.
    + destruct (IH false) as [H1 _]. split.
      * by rewrite contains_run_cons, H1, E.
      * intros _. cbn [head]. intros [= ->]. by rewrite eqc_refl in E.
Qed.

Lemma sub_runs_id (s : pystr) (b : bool) :
  contains (py "__") s = false ->
  (b = true -> head s <> Some underscore) ->
  sub_runs s b = s.
Proof.
  revert b. induction s as [|c s IH]; intros b Hc Hb; [done|].
  rewrite contains_run_cons in Hc.
  apply orb_false_iff in Hc as [Hs Hc].
  cbn [sub_runs]. destruct (eqc c underscore) eqn:E.
  - apply eqc_eq in E. subst c.
    destruct b; [by destruct (Hb eq_refl)|].
    f_equal. apply IH; [done|]. intros _.
    destruct s as [|d r]; [done|]. cbn [head].
    intros [= ->]. by rewrite eqc_refl in Hs.
  - f_equal. by apply IH.
Qed.

(** The default name. *)
Lemma unknown_error_safe : directory_safe (py "UNKNOWN_ERROR").
Proof.
  repeat split; try done.
  - simpl. lia.
  - repeat constructor; unfold safe_char;
      (rewrite isword_ascii; [done | by vm_compute]).
Qed.

Lemma safe_prefix (s t : pystr) :
  Forall (fun c => safe_char c = true) (s ++ t) ->
  contains (py "__") (s ++ t) = false ->
  Forall (fun c => safe_char c = true) s /\ contains (py "__") s = false.
Proof.
  intros H1 H2. apply Forall_app in H1 as [H1 _].
  by apply contains_false_app in H2 as [H2 _].
Qed.

Lemma safe_suffix (s t : pystr) :
  Forall (fun c => safe_char c = true) (s ++ t) ->
  contains (py "__") (s ++ t) = false ->
  Forall (fun c => safe_char c = true) t /\ contains (py "__") t = false.
Proof.
  intros H1 H2. apply Forall_app in H1 as [_ H1].
  by apply contains_false_app in H2 as [_ H2].
Qed.

Lemma sanitize_safe (error_message : pystr) :
  directory_safe (_sanitize_error_name error_message).
Proof.
  unfold _sanitize_error_name.
  set (s1 := sub_runs (sub_unsafe error_message) false).
  assert (F1 : Forall (fun c => safe_char c = true) s1)
    by apply sub_runs_safe, sub_unsafe_safe.
  assert (C1 : contains (py "__") s1 = false) by apply sub_runs_squeezed.
  set (s2 := strip_of (eqc underscore) s1).
  assert (S2 : Forall (fun c => safe_char c = true) s2 /\
               contains (py "__") s2 = false /\
               head s2 <> Some underscore /\ last s2 <> Some underscore).
  { subst s2. unfold strip_of.
    destruct (lstrip_of_suffix (eqc underscore) s1) as [t Ht].
    set (l := lstrip_of (eqc underscore) s1) in *.
    rewrite Ht in F1, C1. apply safe_suffix in F1 as [F C]; [|done].
    destruct (rstrip_of_prefix (eqc underscore) l) as [t' Ht'].
    assert (L : last (rstrip_of (eqc underscore) l) <> Some underscore).
    { intros E. apply rstrip_of_last in E. by rewrite eqc_refl in E. }
    set (r := rstrip_of (eqc underscore) l) in *.
    rewrite Ht' in F, C. apply safe_prefix in F as [F' C']; [|done].
    repeat split; try done.
    destruct r as [|a r]; [done|].
    intros E. assert (H : head l = Some underscore) by by rewrite Ht'.
    apply lstrip_of_head in H. by rewrite eqc_refl in H. }
  clearbody s2. clear s1 F1 C1. destruct S2 as (F2 & C2 & H2 & L2).
  set (s3 := if len s2 >? 50 then _ else s2).
  assert (S3 : Forall (fun c => safe_char c = true) s3 /\
               contains (py "__") s3 = false /\
               head s3 <> Some underscore /\ last s3 <> Some underscore /\
               (length s3 <= 50)%nat).
  { subst s3. unfold len. destruct (_ >? 50) eqn:E.
    - rewrite <- (take_drop 50 s2) in F2, C2.
      apply safe_prefix in F2 as [F C]; [|done].
      destruct (rstrip_of_prefix (eqc underscore) (take 50 s2)) as [t' Ht'].
      assert (L : last (rstrip_of (eqc underscore) (take 50 s2))
                  <> Some underscore).
      { intros E'. apply rstrip_of_last in E'. by rewrite eqc_refl in E'. }
      assert (N : (length (rstrip_of (eqc underscore) (take 50 s2)) <= 50)%nat).
      { apply (f_equal length) in Ht'. rewrite length_app, length_take in Ht'.
        lia. }
      set (r := rstrip_of (eqc underscore) (take 50 s2)) in *.
      rewrite Ht' in F, C. apply safe_prefix in F as [F' C']; [|done].
      repeat split; try done.
      destruct r as [|a r]; [done|].
      intros E'. apply H2.
      rewrite <- (take_drop 50 s2), Ht'. by simpl in E' |- *.
    - repeat split; try done. rewrite Z.gtb_ltb in E. apply Z.ltb_ge in E. lia. }
  clearbody s3. destruct S3 as (F3 & C3 & H3 & L3 & N3).
  destruct s3 as [|a s3]; [apply unknown_error_safe|].
  simpl negb. cbv iota. by repeat split.
Qed.

(** X1. Whatever the error message, the name that [_sanitize_error_name]
    returns is safe for a directory: it is not empty, has at most 50
    characters, holds only word characters, hyphens and underscores,
    neither starts nor ends with an underscore and has no two underscores
    in a row. *)
Theorem sanitized_name_is_directory_safe (error_message : pystr) :
  directory_safe (_sanitize_error_name error_message).
Proof. apply sanitize_safe. Qed.

Lemma directory_safe_fixed (s : pystr) :
  directory_safe s -> _sanitize_error_name s = s.
Proof.
  intros (N & L & F & H & T & C). unfold _sanitize_error_name.
  rewrite sub_unsafe_id by done.
  rewrite sub_runs_id by done.
  unfold strip_of. rewrite lstrip_of_id, rstrip_of_id.
  - replace (len s >? 50) with false.
    + by destruct s.
    + symmetry. unfold len. apply not_true_iff_false. intros E.
      apply Z.gtb_lt in E. lia.
  - intros c Hc. apply not_true_iff_false. intros E. apply eqc_eq in E.
    by subst c.
  - intros c Hc. apply not_true_iff_false. intros E. apply eqc_eq in E.
    by subst c.
Qed.

(** X2. Sanitizing is idempotent: a sanitized name is sanitized to
    itself, so that the history check treats a message and its sanitized
    name alike. *)
Theorem sanitize_idempotent (error_message : pystr) :
  _sanitize_error_name (_sanitize_error_name error_message)
  = _sanitize_error_name error_message.
Proof. apply directory_safe_fixed, sanitize_safe. Qed.

(** *** Decimal numbers *)

Lemma digits_ascii (f : nat) (n : Z) :
  0 <= n -> Forall (fun c => in_range 48 57 c = true) (digits f n).
Proof.
  revert n. induction f as [|f IH]; intros n Hn; cbn [digits]; [constructor|].
  apply Forall_app. split.
  - destruct (n <? 10); [constructor|]. apply IH. by apply Z.div_pos.
  - repeat constructor. unfold in_range.
    pose proof (Z.mod_pos_bound n 10).
    apply andb_true_iff. split; apply N.leb_le; lia.
Qed.

Lemma digits_fuel (f f' : nat) (n : Z) :
  0 <= n < 2 ^ Z.of_nat (S f) -> (f <= f')%nat ->
  digits (S f') n = digits (S f) n.
Proof.
  revert f' n. induction f as [|f IH]; intros f' n Hn Hf.
  - cbn [digits]. change (2 ^ Z.of_nat 1) with 2 in Hn.
    by replace (n <? 10) with true by (symmetry; apply Z.ltb_lt; lia).
  - destruct f' as [|f']; [lia|].
    change (digits (S (S f')) n)
      with ((if n <? 10 then [] else digits (S f') (n / 10))
            ++ [Z.to_N (48 + n mod 10)]).
    change (digits (S (S f)) n)
      with ((if n <? 10 then [] else digits (S f) (n / 10))
            ++ [Z.to_N (48 + n mod 10)]).
    destruct (n <? 10) eqn:E; [done|]. f_equal. apply IH; [|lia].
    rewrite Nat2Z.inj_succ, Z.pow_succ_r in Hn by lia.
    split; [apply Z.div_pos; lia|].
    apply Z.div_lt_upper_bound; lia.
Qed.

Lemma str_int_fuel (f : nat) (n : Z) :
  0 <= n < 2 ^ Z.of_nat (S f) -> str_int n = digits (S f) n.
Proof.
  intros Hn. unfold str_int.
  destruct (decide (n = 0)) as [->|N0].
  - change (Z.to_nat (Z.log2 0)) with 0%nat. symmetry.
    apply digits_fuel; [done | lia].
  - symmetry. apply digits_fuel.
    + pose proof (Z.log2_spec n ltac:(lia)) as L.
      pose proof (Z.log2_nonneg n).
      rewrite Nat2Z.inj_succ, Z2Nat.id by done. lia.
    + apply Nat2Z.inj_le. rewrite Z2Nat.id by apply Z.log2_nonneg.
      apply Z.lt_succ_r, Z.log2_lt_pow2; lia.
Qed.

Lemma format_04d_small (n : Z) :
  0 <= n <= 9999 ->
  format_04d n
  = [digit_char (n / 1000); digit_char (n / 100 mod 10);
     digit_char (n / 10 mod 10); digit_char (n mod 10)].
Proof.
  intros Hn. unfold format_04d. rewrite (str_int_fuel 13) by lia.
  unfold digit_char.
  do 4 (let d := fresh in
        match goal with
        | |- context [digits (S ?f) ?m] =>
          change (digits (S f) m)
            with ((if m <? 10 then [] else digits f (m / 10))
                  ++ [Z.to_N (48 + m mod 10)]);
          destruct (m <? 10) eqn:d;
          [apply Z.ltb_lt in d | apply Z.ltb_ge in d]
        | _ => idtac
        end);
    try (exfalso; Z.to_euclidean_division_equations; lia);
    cbn [app length repeat Nat.sub];
    repeat (match goal with |- _ :: _ = _ :: _ => f_equal end);
    Z.to_euclidean_division_equations; lia.
Qed.

Lemma digit_char_value (d : Z) :
  0 <= d <= 9 -> digit_value (digit_char d) = Some d.
Proof.
  intros Hd. rewrite digit_value_ascii.
  - f_equal. unfold digit_char. lia.
  - unfold in_range, digit_char.
    apply andb_true_iff. split; apply N.leb_le; lia.
Qed.

Lemma article_number_format (n : Z) (rest : pystr) :
  0 <= n <= 9999 ->
  article_number (format_04d n ++ py "_" ++ rest) = Some n.
Proof.
  intros Hn. rewrite format_04d_small by done.
  change (py "_") with [underscore]. cbn [app article_number].
  rewrite eqc_refl.
  rewrite !digit_char_value by (Z.to_euclidean_division_equations; lia).
  cbn. f_equal. Z.to_euclidean_division_equations; lia.
Qed.

Lemma digits_length (k : nat) (f : nat) (n : Z) :
  10 ^ Z.of_nat k <= n < 2 ^ Z.of_nat f -> (k < length (digits f n))%nat.
Proof.
  revert f n. induction k as [|k IH]; intros f n Hn.
  - destruct f as [|f]; [change (2 ^ Z.of_nat 0) with 1 in Hn; lia|].
    cbn [digits]. rewrite length_app. simpl. lia.
  - rewrite Nat2Z.inj_succ, Z.pow_succ_r in Hn by lia.
    assert (0 < 10 ^ Z.of_nat k) by (apply Z.pow_pos_nonneg; lia).
    destruct f as [|f]; [change (2 ^ Z.of_nat 0) with 1 in Hn; lia|].
    cbn [digits]. rewrite length_app. simpl.
    replace (n <? 10) with false by (symmetry; apply Z.ltb_ge; lia).
    rewrite Nat2Z.inj_succ, Z.pow_succ_r in Hn by lia.
    specialize (IH f (n / 10)). 
    assert (10 ^ Z.of_nat k <= n / 10) by (apply Z.div_le_lower_bound; lia).
    assert (n / 10 < 2 ^ Z.of_nat f) by (apply Z.div_lt_upper_bound; lia).
    lia.
Qed.

Lemma article_number_overflow (n : Z) (rest : pystr) :
  10000 <= n -> article_number (format_04d n ++ rest) = None.
Proof.
  intros Hn. unfold format_04d.
  assert (L : (4 < length (str_int n))%nat).
  { unfold str_int. apply (digits_length 4).
    pose proof (Z.log2_spec n ltac:(lia)) as L.
    pose proof (Z.log2_nonneg n).
    change (10 ^ Z.of_nat 4) with 10000.
    rewrite Nat2Z.inj_succ, Z2Nat.id by done. lia. }
  assert (D : Forall (fun c => in_range 48 57 c = true) (str_int n))
    by (apply digits_ascii; lia).
  replace (4 - length (str_int n))%nat with 0%nat by lia.
  cbn [repeat app].
  destruct (str_int n) as [|a [|b [|c [|d [|u r]]]]]; simpl in L; try lia.
  cbn [app article_number].
  replace (eqc u underscore) with false; [done|].
  do 4 apply Forall_cons in D as [_ D]. apply Forall_cons in D as [D _].
  symmetry. apply not_true_iff_false. intros E. apply eqc_eq in E. by subst u.
Qed.

Lemma format_04d_ascii (n : Z) :
  0 <= n -> Forall (fun c => in_range 48 57 c = true) (format_04d n).
Proof.
  intros Hn. unfold format_04d. apply Forall_app. split.
  - induction (4 - length (str_int n))%nat; simpl; by constructor.
  - by apply digits_ascii.
Qed.

(** *** The numbers of the directories *)

Lemma foldl_max_ge (ns : list Z) (n x : Z) :
  x ∈ n :: ns -> x <= foldl Z.max n ns.
Proof.
  assert (G : forall ns n,
             n <= foldl Z.max n ns /\
             forall x, x ∈ ns -> x <= foldl Z.max n ns).
  { clear. induction ns as [|m ns IH]; intros n; cbn [foldl].
    - split; [lia|]. by intros x H%elem_of_nil.
    - destruct (IH (Z.max n m)) as [H1 H2]. split; [lia|].
      intros x [->|Hx]%elem_of_cons; [lia | by apply H2]. }
  intros [->|Hx]%elem_of_cons; [apply (proj1 (G ns n)) | by apply (proj2 (G ns n))].
Qed.

Lemma foldl_max_elem (ns : list Z) (n : Z) : foldl Z.max n ns ∈ n :: ns.
Proof.
  revert n. induction ns as [|m ns IH]; intros n; cbn [foldl]; [left|].
  specialize (IH (Z.max n m)).
  apply elem_of_cons in IH as [E|IH]; [|by do 2 right].
  rewrite E. destruct (Z.max_spec n m) as [[_ ->]|[_ ->]]; [right|]; left.
Qed.

Lemma article_number_range (dir_name : pystr) (k : Z) :
  article_number dir_name = Some k -> 0 <= k <= 9999.
Proof.
  destruct dir_name as [|a [|b [|c [|d [|u r]]]]]; try done.
  cbn [article_number]. destruct (eqc u underscore); [|done].
  destruct (digit_value a) as [x|] eqn:A; [|done].
  destruct (digit_value b) as [y|] eqn:B; [|done].
  destruct (digit_value c) as [z|] eqn:C; [|done].
  destruct (digit_value d) as [w|] eqn:D; [|done].
  apply digit_value_range in A, B, C, D. cbn. intros [= <-]. lia.
Qed.

Lemma existing_dirs_elem (articles_dir : list item) (k : Z) :
  k ∈ existing_dirs articles_dir <->
  exists i, i ∈ articles_dir /\ is_dir i = true /\
            article_number (name i) = Some k.
Proof.
  induction articles_dir as [|i rest IH]; cbn [existing_dirs].
  - split; [by intros H%elem_of_nil | by intros (i & H%elem_of_nil & _)].
  - destruct (is_dir i) eqn:D;
      [destruct (article_number (name i)) as [n|] eqn:A|].
    + rewrite elem_of_cons, IH. split.
      * intros [->|(j & Hj & H)]; [exists i | exists j];
          (split; [|done]); [left | by right].
      * intros (j & Hj & Dj & Aj). apply elem_of_cons in Hj as [->|Hj].
        -- left. congruence.
        -- right. by exists j.
    + rewrite IH. split.
      * intros (j & Hj & H). exists j. split; [by right | done].
      * intros (j & Hj & Dj & Aj). apply elem_of_cons in Hj as [->|Hj];
          [congruence | by exists j].
    + rewrite IH. split.
      * intros (j & Hj & H). exists j. split; [by right | done].
      * intros (j & Hj & Dj & Aj). apply elem_of_cons in Hj as [->|Hj];
          [congruence | by exists j].
Qed.

Lemma existing_dirs_app (a b : list item) :
  existing_dirs (a ++ b) = existing_dirs a ++ existing_dirs b.
Proof.
  induction a as [|i a IH]; [done|]. cbn [app existing_dirs].
  destruct (is_dir i); [|done].
  destruct (article_number (name i)); [|done]. by rewrite IH.
Qed.

Lemma next_number_bounds (articles_dir : list item) :
  1 <= get_next_article_number articles_dir <= 10000 /\
  forall i k, i ∈ articles_dir -> is_dir i = true ->
    article_number (name i) = Some k ->
    k < get_next_article_number articles_dir.
Proof.
  unfold get_next_article_number.
  destruct (existing_dirs articles_dir) as [|n ns] eqn:E.
  - split; [lia|]. intros i k Hi D A.
    assert (H : k ∈ existing_dirs articles_dir)
      by (apply existing_dirs_elem; by exists i).
    rewrite E in H. by apply elem_of_nil in H.
  - pose proof (foldl_max_elem ns n) as M. rewrite <- E in M.
    apply existing_dirs_elem in M as (j & _ & _ & M).
    apply article_number_range in M. split; [lia|].
    intros i k Hi D A.
    assert (H : k ∈ n :: ns)
      by (rewrite <- E; apply existing_dirs_elem; by exists i).
    apply foldl_max_ge in H. lia.
Qed.

(** X3. The next article number lies between 1 and 10000 and is greater
    than the number of every existing directory whose name starts with
    four digits and an underscore. *)
Theorem next_number_is_above_existing (articles_dir : list item) :
  1 <= get_next_article_number articles_dir <= 10000 /\
  forall i k, i ∈ articles_dir -> is_dir i = true ->
    article_number (name i) = Some k ->
    k < get_next_article_number articles_dir.
Proof. apply next_number_bounds. Qed.

(** *** Creating a directory *)

Lemma find_name_none (articles_dir : list item) (dir_name : pystr) :
  List.find (fun i => bool_decide (name i = dir_name)) articles_dir = None ->
  Forall (fun i => name i <> dir_name) articles_dir.
Proof.
  induction articles_dir as [|i rest IH]; cbn [List.find]; [constructor|].
  case_bool_decide; [done|]. intros F. constructor; auto.
Qed.

Lemma find_name_some (articles_dir : list item) (dir_name : pystr) (i : item) :
  List.find (fun i => bool_decide (name i = dir_name)) articles_dir = Some i ->
  i ∈ articles_dir /\ name i = dir_name.
Proof.
  induction articles_dir as [|j rest IH]; cbn [List.find]; [done|].
  case_bool_decide.
  - intros [= ->]. split; [left | done].
  - intros F. destruct (IH F). split; [by right | done].
Qed.

Lemma find_name_app (articles_dir : list item) (dir_name : pystr) :
  List.find (fun i => bool_decide (name i = dir_name)) articles_dir = None ->
  List.find (fun i => bool_decide (name i = dir_name))
    (articles_dir ++ [{| name := dir_name; is_dir := true |}])
  = Some {| name := dir_name; is_dir := true |}.
Proof.
  induction articles_dir as [|j rest IH]; cbn [List.find app].
  - intros _. by rewrite bool_decide_eq_true_2.
  - case_bool_decide; [done | apply IH].
Qed.

(** What the creation does to the directory: nothing, when it has a
    directory of that name already, and a new entry at its end
    otherwise. *)
Lemma create_article_directory_inv (articles_dir articles_dir' : list item)
    (error_message dir_name : pystr) :
  create_article_directory articles_dir error_message
    = Done (dir_name, articles_dir') ->
  dir_name = format_04d (get_next_article_number articles_dir) ++ py "_"
             ++ _sanitize_error_name error_message ++ py "_記事" /\
  ((exists i, i ∈ articles_dir /\ name i = dir_name /\ is_dir i = true /\
              articles_dir' = articles_dir) \/
   (Forall (fun i => name i <> dir_name) articles_dir /\
    articles_dir' = articles_dir ++ [{| name := dir_name; is_dir := true |}])).
Proof.
  unfold create_article_directory, mkdir_exist_ok.
  set (n := format_04d _ ++ _).
  destruct (List.find _ articles_dir) as [i|] eqn:F.
  - destruct (is_dir i) eqn:D; [|done]. intros [= <- <-].
    apply find_name_some in F as [F1 F2]. split; [done|]. left. by exists i.
  - intros [= <- <-]. split; [done|]. right.
    split; [by apply find_name_none | done].
Qed.

Lemma get_next_article_number_snoc (articles_dir : list item)
    (dir_name : pystr) :
  article_number dir_name = Some (get_next_article_number articles_dir) ->
  get_next_article_number
    (articles_dir ++ [{| name := dir_name; is_dir := true |}])
  = get_next_article_number articles_dir + 1.
Proof.
  intros A. unfold get_next_article_number at 1.
  rewrite existing_dirs_app. cbn [existing_dirs is_dir name]. rewrite A.
  unfold get_next_article_number.
  destruct (existing_dirs articles_dir) as [|n ns]; [done|].
  cbn [app]. rewrite foldl_app. cbn [foldl]. lia.
Qed.

(** X4. While the next number has at most four digits, a creation that
    succeeds makes a directory that did not exist before, appends it to
    the articles directory under the next number, and the numbering
    moves on by one. *)
Theorem creation_advances_numbering (articles_dir articles_dir' : list item)
    (error_message dir_name : pystr) :
  get_next_article_number articles_dir <= 9999 ->
  create_article_directory articles_dir error_message
    = Done (dir_name, articles_dir') ->
  Forall (fun i => name i <> dir_name) articles_dir /\
  articles_dir' = articles_dir ++ [{| name := dir_name; is_dir := true |}] /\
  article_number dir_name = Some (get_next_article_number articles_dir) /\
  get_next_article_number articles_dir'
  = get_next_article_number articles_dir + 1.
Proof.
  intros Hn Hc. apply create_article_directory_inv in Hc as [Hd Hc].
  destruct (next_number_bounds articles_dir) as [Hr Ha].
  assert (A : article_number dir_name
              = Some (get_next_article_number articles_dir)).
  { rewrite Hd. apply article_number_format. lia. }
  destruct Hc as [(i & Hi & Ni & Di & _) | [Hf ->]].
  - rewrite <- Ni in A. specialize (Ha i _ Hi Di A). lia.
  - repeat split; try done. by apply get_next_article_number_snoc.
Qed.

(** X5. Once a directory has the number 9999 the numbering stops: the
    directory made for the number 10000 is not read as a numbered one,
    the next number stays 10000, and the next creation for the same error
    returns the same directory again. *)
Theorem numbering_stalls_after_9999 (articles_dir articles_dir' : list item)
    (error_message dir_name : pystr) :
  get_next_article_number articles_dir = 10000 ->
  create_article_directory articles_dir error_message
    = Done (dir_name, articles_dir') ->
  article_number dir_name = None /\
  get_next_article_number articles_dir' = 10000 /\
  create_article_directory articles_dir' error_message
    = Done (dir_name, articles_dir').
Proof.
  intros Hn Hc. pose proof Hc as Hi.
  apply create_article_directory_inv in Hi as [Hd Hi].
  assert (A : article_number dir_name = None).
  { rewrite Hd, Hn. apply article_number_overflow. lia. }
  assert (N : get_next_article_number articles_dir' = 10000).
  { destruct Hi as [(i & _ & _ & _ & ->) | [_ ->]]; [done|].
    unfold get_next_article_number in *. rewrite existing_dirs_app.
    cbn [existing_dirs is_dir name]. rewrite A. by rewrite app_nil_r. }
  repeat split; try done.
  unfold create_article_directory. rewrite N, <- Hn, <- Hd.
  unfold mkdir_exist_ok.
  destruct Hi as [(i & Hi & Ni & Di & ->) | [Hf ->]].
  - unfold create_article_directory in Hc. rewrite <- Hd in Hc.
    unfold mkdir_exist_ok in Hc.
    destruct (List.find _ articles_dir) as [j|]; [|done].
    by destruct (is_dir j).
  - rewrite find_name_app; [done|].
    clear -Hf. induction Hf as [|j rest Hj _ IH]; cbn [List.find]; [done|].
    by rewrite bool_decide_eq_false_2.
Qed.

(** *** The history check *)

Lemma replace_from_none (old new s : pystr) :
  contains old s = false -> replace_from old new s 0 = s.
Proof.
  induction s as [|c s IH]; [done|]. cbn [contains replace_from].
  intros [H1 H2]%orb_false_iff. rewrite H1. f_equal. by apply IH.
Qed.

Lemma replace_from_length (old s : pystr) (k : nat) :
  (length (replace_from old [] s k) <= length s)%nat.
Proof.
  revert k. induction s as [|c s IH]; intros k; cbn [replace_from]; [done|].
  destruct k as [|k].
  - destruct (startswith old (c :: s)); cbn [app length].
    + specialize (IH (pred (length old))). lia.
    + specialize (IH 0%nat). lia.
  - specialize (IH k). simpl. lia.
Qed.

Lemma replace_from_shorter (old s : pystr) :
  old <> [] -> contains old s = true ->
  (length (replace_from old [] s 0) < length s)%nat.
Proof.
  intros Ho. induction s as [|c s IH].
  - by destruct old.
  - cbn [contains replace_from]. intros [H|H]%orb_true_iff.
    + rewrite H. cbn [app length].
      pose proof (replace_from_length old s (pred (length old))). lia.
    + destruct (startswith old (c :: s)); cbn [app length].
      * pose proof (replace_from_length old s (pred (length old))). lia.
      * specialize (IH H). lia.
Qed.

(** The suffix [_記事] does not overlap an occurrence of itself. *)
Lemma suffix_no_overlap (s : pystr) :
  s <> [] -> startswith (py "_記事") (s ++ py "_記事") = startswith (py "_記事") s.
Proof.
  intros Hs. change (py "_記事") with [95; 35352; 20107]%N.
  destruct s as [|a [|b [|c r]]]; [done|..]; cbn [app startswith].
  - by destruct (eqc 95 a).
  - by destruct (eqc 95 a), (eqc 35352 b).
  - done.
Qed.

Lemma replace_suffix (s : pystr) (k : nat) :
  (k <= length s)%nat ->
  replace_from (py "_記事") [] (s ++ py "_記事") k
  = replace_from (py "_記事") [] s k.
Proof.
  revert k. induction s as [|c s IH]; intros k Hk.
  - by replace k with 0%nat by (simpl in Hk; lia).
  - destruct k as [|k].
    + change ((c :: s) ++ py "_記事") with (c :: (s ++ py "_記事")).
      cbn [replace_from].
      change (c :: (s ++ py "_記事")) with ((c :: s) ++ py "_記事").
      rewrite suffix_no_overlap by done.
      destruct (startswith (py "_記事") (c :: s)) eqn:E.
      * f_equal. apply IH.
        apply startswith_app in E as [t E]. apply (f_equal length) in E.
        change (py "_記事") with [95; 35352; 20107]%N in *. simpl in E |- *. lia.
      * f_equal. apply IH. lia.
    + cbn [app replace_from]. apply IH. simpl in Hk. lia.
Qed.

Lemma split_once_number (num rest : pystr) :
  Forall (fun c => in_range 48 57 c = true) num ->
  split_once underscore (num ++ py "_" ++ rest) = [num; rest].
Proof.
  intros H. unfold split_once.
  assert (S : span (fun c => negb (eqc c underscore)) (num ++ py "_" ++ rest)
              = (num, py "_" ++ rest)).
  { induction H as [|c num Hc _ IH]; [done|].
    cbn [app span]. rewrite IH.
    replace (eqc c underscore) with false; [done|].
    symmetry. apply not_true_iff_false. intros E. apply eqc_eq in E.
    by subst c. }
  by rewrite S.
Qed.

(** Whether the directory made for the name [safe] counts for the
    sanitized error [sanitized_error]. *)
Lemma names_error_created (n : Z) (safe sanitized_error : pystr) :
  0 <= n ->
  names_error sanitized_error (format_04d n ++ py "_" ++ safe ++ py "_記事")
  = bool_decide (replace (py "_記事") [] safe = sanitized_error).
Proof.
  intros Hn. unfold names_error.
  rewrite split_once_number by by apply format_04d_ascii.
  unfold replace. by rewrite replace_suffix by lia.
Qed.

Lemma names_error_own (n : Z) (safe : pystr) :
  0 <= n ->
  names_error safe (format_04d n ++ py "_" ++ safe ++ py "_記事")
  = negb (contains (py "_記事") safe).
Proof.
  intros Hn. rewrite names_error_created by done.
  destruct (contains (py "_記事") safe) eqn:C.
  - apply bool_decide_eq_false_2. intros E.
    apply replace_from_shorter in C; [|done].
    unfold replace in E. rewrite E in C. lia.
  - apply bool_decide_eq_true_2. by apply replace_from_none.
Qed.

Lemma is_error_already_processed_app (a b : list item) (m : pystr) :
  is_error_already_processed (a ++ b) m
  = is_error_already_processed a m || is_error_already_processed b m.
Proof. unfold is_error_already_processed. apply existsb_app. Qed.

Lemma is_error_already_processed_elem (articles_dir : list item) (i : item)
    (m : pystr) :
  i ∈ articles_dir -> is_dir i = true ->
  names_error (_sanitize_error_name m) (name i) = true ->
  is_error_already_processed articles_dir m = true.
Proof.
  intros Hi D N. unfold is_error_already_processed.
  apply existsb_exists. exists i. split; [by apply list_elem_of_In|].
  by rewrite D, N.
Qed.

Lemma create_marks_processed
    (articles_dir articles_dir' : list item) (error_message dir_name : pystr) :
  contains (py "_記事") (_sanitize_error_name error_message) = false ->
  create_article_directory articles_dir error_message
    = Done (dir_name, articles_dir') ->
  is_error_already_processed articles_dir' error_message = true /\
  forall other, is_error_already_processed articles_dir other = true ->
    is_error_already_processed articles_dir' other = true.
Proof.
  intros Hs Hc. apply create_article_directory_inv in Hc as [Hd Hc].
  destruct (next_number_bounds articles_dir) as [Hr _].
  assert (N : names_error (_sanitize_error_name error_message) dir_name = true).
  { rewrite Hd, names_error_own, Hs by lia. done. }
  destruct Hc as [(i & Hi & Ni & Di & ->) | [_ ->]].
  - split; [|done]. apply (is_error_already_processed_elem _ i); [done..|].
    by rewrite Ni.
  - split.
    + rewrite is_error_already_processed_app. apply orb_true_iff. right.
      unfold is_error_already_processed. cbn [existsb is_dir name].
      by rewrite N.
    + intros other Ho. rewrite is_error_already_processed_app, Ho. done.
Qed.

(** X6. Creation followed by the history check: once the directory of
    an error is made, [is_error_already_processed] answers True for that
    error, provided that its sanitized name does not hold the suffix
    [_記事] of the directory names; and what was processed before stays
    processed. *)
Theorem created_directory_marks_error_processed
    (articles_dir articles_dir' : list item) (error_message dir_name : pystr) :
  contains (py "_記事") (_sanitize_error_name error_message) = false ->
  create_article_directory articles_dir error_message
    = Done (dir_name, articles_dir') ->
  is_error_already_processed articles_dir' error_message = true /\
  forall other, is_error_already_processed articles_dir other = true ->
    is_error_already_processed articles_dir' other = true.
Proof. apply create_marks_processed. Qed.

(** X7. The blind spot of the history check: when the sanitized name of
    an error holds [_記事], making its directory does not change the
    answer of [is_error_already_processed] for it, because the check
    removes every occurrence of [_記事] from the directory name. *)
Theorem name_with_suffix_is_never_recognised
    (articles_dir articles_dir' : list item) (error_message dir_name : pystr) :
  contains (py "_記事") (_sanitize_error_name error_message) = true ->
  create_article_directory articles_dir error_message
    = Done (dir_name, articles_dir') ->
  is_error_already_processed articles_dir' error_message
  = is_error_already_processed articles_dir error_message.
Proof.
  intros Hs Hc. apply create_article_directory_inv in Hc as [Hd Hc].
  destruct (next_number_bounds articles_dir) as [Hr _].
  destruct Hc as [(i & _ & _ & _ & ->) | [_ ->]]; [done|].
  rewrite is_error_already_processed_app.
  unfold is_error_already_processed at 2. cbn [existsb is_dir name].
  rewrite Hd, names_error_own, Hs by lia. cbn. by rewrite orb_false_r.
Qed.

End ManagerFacts.

(** ** Quality gate: scores and severities *)

Section CheckerRanges.
Context {U : Unicode} {L : QualityChecker.UrlLib}.
Import QualityChecker.

Lemma truthy_nonempty {A} (s : list A) : truthy s = true <-> s <> [].
Proof. by destruct s. Qed.

Lemma not_high_nil : Forall not_high [] <-> True.
Proof. split; [done | constructor]. Qed.

Lemma not_high_cons (l : list issue) (m : message) (s : severity) :
  Forall not_high (Issue m s :: l) <-> s <> high /\ Forall not_high l.
Proof. by rewrite Forall_cons. Qed.

Lemma not_high_app (l1 l2 : list issue) :
  Forall not_high (l1 ++ l2) <-> Forall not_high l1 /\ Forall not_high l2.
Proof. apply Forall_app. Qed.

Ltac split_checks :=
  repeat match goal with
         | |- context [if ?c then _ else _] => destruct c eqn:?
         end.

Lemma basic_quality_facts (cfg : config) (a : article) :
  let r := _check_basic_quality cfg a in
  0 <= score r <= 100 /\ max_score r = 100 /\
  (Forall not_high (issues r) <->
     (get (thresholds cfg) "min_word_count" 2000
        <= Z2Q (default 0%Z (word_count a)))%Q /\
     default [] (title a) <> [] /\ default [] (content a) <> []).
Proof.
  unfold _check_basic_quality. cbv zeta.
  rewrite <- Qltb_ge, <- !truthy_nonempty.
  destruct (Z2Q (default 0%Z (word_count a)) <? _)%Q;
  destruct (truthy (default [] (title a)));
  destruct (truthy (default [] (content a)));
  cbn [negb]; split_checks; cbn [score max_score issues app];
  rewrite ?not_high_cons, ?not_high_nil;
  (split; [lia|]); (split; [done|]); intuition congruence.
Qed.

Lemma density_block_facts (content error_message : pystr) :
  let r := density_block content error_message (0, []) in
  0 <= fst r <= 25 /\ Forall not_high (snd r).
Proof.
  unfold density_block. cbv zeta. split_checks; cbn [fst snd app];
    rewrite ?not_high_cons, ?not_high_nil; (split; [lia|]); intuition congruence.
Qed.

Lemma seo_quality_facts (a : article) :
  let r := _check_seo_quality a in
  0 <= score r <= 100 /\ max_score r = 100 /\
  (Forall not_high (issues r) <->
     (default [] (error_message a) <> [] ->
      contains (lower (default [] (error_message a)))
        (lower (default [] (title a))) = true)).
Proof.
  unfold _check_seo_quality. cbv zeta.
  rewrite <- truthy_nonempty.
  destruct (truthy (default [] (error_message a))).
  - destruct (contains _ (lower (default [] (title a))));
      destruct (contains _ (lower (default [] (excerpt a))));
      rewrite density_block_frame;
      destruct (density_block_facts (default [] (content a))
                  (default [] (error_message a))) as [Hs Hi];
      destruct (density_block _ _ (0, [])) as [ds di]; cbn [fst snd] in *;
      split_checks; cbn [score max_score issues];
      rewrite ?not_high_app, ?not_high_cons, ?not_high_nil;
      (split; [lia|]); (split; [done|]); intuition congruence.
  - split_checks; cbn [score max_score issues app];
      rewrite ?not_high_app, ?not_high_cons, ?not_high_nil;
      (split; [lia|]); (split; [done|]); intuition congruence.
Qed.

Lemma content_structure_facts (a : article) :
  let r := _check_content_structure a in
  0 <= score r <= 100 /\ max_score r = 100 /\
  (Forall not_high (issues r) <->
     0 < count_lines (startswith (py "# ")) (default [] (content a))).
Proof.
  unfold _check_content_structure. cbv zeta.
  set (h1 := count_lines (startswith (py "# ")) (default [] (content a))).
  assert (0 <= h1) by (unfold h1, count_lines, len; lia).
  destruct (h1 =? 1) eqn:E1;
    [apply Z.eqb_eq in E1
    |apply Z.eqb_neq in E1; destruct (h1 =? 0) eqn:E0;
     [apply Z.eqb_eq in E0 | apply Z.eqb_neq in E0]];
    split_checks; cbn [score max_score issues app];
    rewrite ?not_high_cons, ?not_high_nil;
    (split; [lia|]); (split; [done|]);
    (split; [intros; intuition (try congruence; try lia)
            | intros; repeat split; try congruence; lia]).
Qed.

Lemma readability_facts (a : article) :
  let r := _check_readability a in
  0 <= score r <= 100 /\ max_score r = 100 /\
  (Forall not_high (issues r) <-> default [] (content a) <> []).
Proof.
  unfold _check_readability. cbv zeta.
  rewrite <- truthy_nonempty.
  destruct (truthy (default [] (content a))); cbn [negb].
  - split_checks; cbn [score max_score issues app];
      rewrite ?not_high_cons, ?not_high_nil;
      (split; [lia|]); (split; [done|]); intuition congruence.
  - cbn [score max_score issues]. rewrite not_high_cons, not_high_nil.
    split; [lia|]. split; [done|]. intuition congruence.
Qed.

(** X8. Each of the four scored checks returns a score between 0 and
    its maximum, and the maximum is 100: the points that a check can
    award add up to no more than 100. *)
Theorem check_scores_within_maximum (cfg : config) (a : article) :
  Forall (fun r => 0 <= score r <= max_score r /\ max_score r = 100)
    [ _check_basic_quality cfg a; _check_seo_quality a;
      _check_content_structure a; _check_readability a ].
Proof.
  destruct (basic_quality_facts cfg a) as (? & ? & _).
  destruct (seo_quality_facts a) as (? & ? & _).
  destruct (content_structure_facts a) as (? & ? & _).
  destruct (readability_facts a) as (? & ? & _).
  repeat constructor; lia.
Qed.

(** *** The optional checks *)

Lemma duplicates_not_high (a : article) :
  Forall not_high (flag_issues (_check_duplicates a)).
Proof.
  unfold _check_duplicates. cbv zeta. split_checks; cbn [flag_issues app];
    rewrite ?not_high_cons, ?not_high_nil; intuition congruence.
Qed.

Lemma links_loop_not_high (links : list pystr) (iss r : list issue) :
  links_loop links iss = Returned r ->
  Forall not_high iss -> Forall not_high r.
Proof.
  revert iss. induction links as [|url rest IH]; intros iss; cbn [links_loop].
  - by intros [= <-].
  - destruct (urlparse url) as [[scheme netloc]|e]; cbn [mbind result_bind];
      [|done].
    destruct (_ || _); intros H F; apply (IH _ H); [|done].
    apply not_high_app. split; [done|].
    rewrite not_high_cons, not_high_nil. intuition congruence.
Qed.

Lemma links_loop_raised (links : list pystr) (iss : list issue) :
  (exists e, links_loop links iss = Raised e) <->
  (exists url e, url ∈ links /\ urlparse url = Raised e).
Proof.
  revert iss. induction links as [|url rest IH]; intros iss; cbn [links_loop].
  - split; [by intros [e H] | by intros (url & e & H%elem_of_nil & _)].
  - destruct (urlparse url) as [[scheme netloc]|e] eqn:P;
      cbn [mbind result_bind].
    + assert (R : forall iss', (exists e, links_loop rest iss' = Raised e) <->
                  (exists u e, u ∈ url :: rest /\ urlparse u = Raised e)).
      { intros iss'. rewrite IH. split.
        - intros (u & e & Hu & He). exists u, e. split; [by right | done].
        - intros (u & e & Hu & He). apply elem_of_cons in Hu as [->|Hu];
            [congruence|]. by exists u, e. }
      destruct (_ || _); apply R.
    + split; [|by exists e]. intros _. exists url, e. split; [left | done].
Qed.

(** What [run_checks] adds up when it returns. *)
Lemma run_checks_inv (cfg : config) (a : article) (t : tally) :
  run_checks cfg a = Returned t ->
  total_score t
  = score (_check_basic_quality cfg a) + score (_check_seo_quality a)
    + score (_check_content_structure a) + score (_check_readability a) /\
  tally_max_score t = 400 /\
  basic_quality (check_results t) = _check_basic_quality cfg a /\
  seo_quality (check_results t) = _check_seo_quality a /\
  content_structure (check_results t) = _check_content_structure a /\
  readability (check_results t) = _check_readability a /\
  exists optional,
    tally_issues t
    = issues (_check_basic_quality cfg a) ++ issues (_check_seo_quality a)
      ++ issues (_check_content_structure a)
      ++ issues (_check_readability a) ++ optional /\
    Forall not_high optional.
Proof.
  destruct (basic_quality_facts cfg a) as (_ & M1 & _).
  destruct (seo_quality_facts a) as (_ & M2 & _).
  destruct (content_structure_facts a) as (_ & M3 & _).
  destruct (readability_facts a) as (_ & M4 & _).
  cbv zeta in M1, M2, M3, M4.
  unfold run_checks. cbv zeta. rewrite M1, M2, M3, M4.
  pose proof (duplicates_not_high a) as D.
  destruct (get (checks_config cfg) "duplicate_detection" false);
    [destruct (negb (flag_passed (_check_duplicates a)))|];
    (destruct (get (checks_config cfg) "link_validation" false);
     [unfold _check_links;
      destruct (links_loop _ []) as [li|e] eqn:E; cbn [mbind result_bind];
      [pose proof (links_loop_not_high _ _ _ E (Forall_nil_2 _));
       cbn [flag_passed flag_issues]; destruct (negb (truthy li))|]|]);
    cbn [mbind result_bind]; intros [= <-];
    cbn [total_score tally_max_score tally_issues check_results
         basic_quality seo_quality content_structure readability];
    (split; [lia|]); (split; [done|]); do 4 (split; [done|]);
    rewrite ?app_nil_l, <- ?app_assoc;
    first [ eexists; split; [reflexivity|]
          | exists []; split; [by rewrite !app_nil_r|] ];
    rewrite ?not_high_app; repeat split; done || constructor.
Qed.

Lemma run_checks_raised (cfg : config) (a : article) :
  (exists e, run_checks cfg a = Raised e) <->
  get (checks_config cfg) "link_validation" false = true /\
  exists url e,
    url ∈ findall_links (default [] (content a)) 0 /\
    urlparse url = Raised e.
Proof.
  rewrite <- (links_loop_raised _ []).
  set (loop := links_loop (findall_links (default [] (content a)) 0) []).
  assert (R : (exists e, run_checks cfg a = Raised e) <->
              get (checks_config cfg) "link_validation" false = true /\
              exists e, loop = Raised e); [|done].
  unfold run_checks. cbv zeta.
  destruct (get (checks_config cfg) "duplicate_detection" false);
    [destruct (negb (flag_passed (_check_duplicates a)))|];
    (destruct (get (checks_config cfg) "link_validation" false);
     [unfold _check_links; fold loop; destruct loop as [li|e];
      cbn [mbind result_bind flag_passed]; [destruct (negb (truthy li))|]|]);
    cbn [mbind result_bind];
    (split; [intros [e' H]; first [done | split; [done | by eexists]]
            |intros [H1 [e' H2]]; first [done | by eexists]]).
Qed.

(** *** Floats between 0 and 100 *)

Lemma fl_range (lo hi x : Q) :
  (fl lo == lo)%Q -> (fl hi == hi)%Q -> (lo <= x <= hi)%Q ->
  (lo <= fl x <= hi)%Q.
Proof.
  intros Hlo Hhi [H1 H2]. split.
  - rewrite <- Hlo. by apply fl_mono.
  - rewrite <- Hhi. by apply fl_mono.
Qed.

Lemma ratio_percentage (s m : Z) :
  0 <= s <= m -> 0 < m -> percentage (Z2Q s ⊘ Z2Q m ⊗ 100).
Proof.
  intros Hs Hm. unfold percentage, fdiv, fmul, Z2Q.
  assert (M : (0 < inject_Z m)%Q) by (by rewrite (Zlt_Qlt 0 m) in Hm).
  assert (R : (0 <= fl (inject_Z s / inject_Z m) <= 1)%Q).
  { apply fl_range; [by vm_compute | by vm_compute |]. split.
    - apply Qle_shift_div_l; [done|]. rewrite Qmult_0_l.
      rewrite (Zle_Qle 0 s) in Hs. tauto.
    - apply Qle_shift_div_r; [done|]. rewrite Qmult_1_l.
      rewrite <- Zle_Qle. lia. }
  apply fl_range; [by vm_compute | by vm_compute |].
  destruct R. split; lra.
Qed.

Lemma round1_percentage (x : Q) : percentage x -> percentage (round1 x).
Proof.
  unfold percentage, round1. intros [H1 H2].
  assert (0 <= round_half_even (x * 10) <= 1000) as [K1 K2].
  { split.
    - rewrite <- (round_half_even_Z 0). apply round_half_even_mono.
      unfold Z2Q. change (inject_Z 0) with 0%Q. lra.
    - rewrite <- (round_half_even_Z 1000). apply round_half_even_mono.
      unfold Z2Q. change (inject_Z 1000) with 1000%Q. lra. }
  apply fl_range; [by vm_compute | by vm_compute |].
  unfold Z2Q. rewrite (Zle_Qle 0), (Zle_Qle _ 1000) in *.
  change (inject_Z 0) with 0%Q in K1. change (inject_Z 1000) with 1000%Q in K2.
  unfold Qdiv. change (/ 10)%Q with (1 # 10)%Q. split; lra.
Qed.

Lemma percent_percentage (r : check_result) :
  0 <= score r <= max_score r -> percentage (percent r).
Proof.
  intros H. unfold percent. destruct (max_score r >? 0) eqn:E.
  - apply round1_percentage, ratio_percentage; [done|].
    by apply Z.gtb_lt in E.
  - unfold percentage. split; [done | by vm_compute].
Qed.

(** X9. Whatever the article and the configuration, the three scores of
    a report (overall, SEO, readability) are percentages: floats between
    0 and 100, the rounding of the division, of the multiplication and of
    [round(..., 1)] included. *)
Theorem report_scores_are_percentages (cfg : config) (a : article) :
  let r := check_quality cfg a in
  percentage (overall_score r) /\ percentage (seo_score r) /\
  percentage (readability_score r).
Proof.
  cbv zeta. unfold check_quality, check_quality_body.
  destruct (run_checks cfg a) as [t|e] eqn:E; cbn [mbind result_bind].
  - apply run_checks_inv in E as (T & M & _ & S & _ & R & _).
    destruct (basic_quality_facts cfg a) as (? & _).
    destruct (seo_quality_facts a) as (? & ? & _).
    destruct (content_structure_facts a) as (? & _).
    destruct (readability_facts a) as (? & ? & _).
    cbn [verdict overall_score seo_score readability_score].
    rewrite S, R. split; [|split].
    + apply round1_percentage. unfold overall. rewrite M. cbn [Z.gtb Z.compare].
      apply ratio_percentage; lia.
    + apply percent_percentage. lia.
    + apply percent_percentage. lia.
  - cbn [overall_score seo_score readability_score].
    assert (percentage 0) by (split; by vm_compute). done.
Qed.

End CheckerRanges.

(** ** Quality gate: the verdict *)

Section GateFacts.
Context {U : Unicode} {L : QualityChecker.UrlLib}.
Import QualityChecker.

Lemma count_high_not_high (l : list issue) :
  count_severity is_high l = 0 <-> Forall not_high l.
Proof.
  split; [apply count_high_zero|].
  induction 1 as [|i l Hi _ IH]; [done|].
  change (i :: l) with ([i] ++ l). rewrite count_severity_app, IH.
  unfold not_high in Hi. unfold count_severity, is_high. cbn [List.filter].
  by destruct (issue_severity i).
Qed.

Lemma tally_not_high (cfg : config) (a : article) (t : tally) :
  run_checks cfg a = Returned t ->
  Forall not_high (tally_issues t) <-> essentials cfg a.
Proof.
  intros (_ & _ & _ & _ & _ & _ & opt & -> & Ho)%run_checks_inv.
  destruct (basic_quality_facts cfg a) as (_ & _ & B).
  destruct (seo_quality_facts a) as (_ & _ & S).
  destruct (content_structure_facts a) as (_ & _ & C).
  destruct (readability_facts a) as (_ & _ & R).
  cbv zeta in B, S, C, R.
  rewrite !not_high_app, B, S, C, R. unfold essentials. tauto.
Qed.

Lemma passed_iff (cfg : config) (a : article) :
  report_passed (check_quality cfg a) = true <->
  (exists t, run_checks cfg a = Returned t /\
     (get (thresholds cfg) "min_seo_score" 70 <= overall t)%Q) /\
  essentials cfg a.
Proof.
  unfold check_quality, check_quality_body.
  destruct (run_checks cfg a) as [t|e] eqn:E; cbn [mbind result_bind].
  - cbn [verdict report_passed].
    rewrite andb_true_iff, Qleb_le, Z.eqb_eq, count_high_not_high,
      (tally_not_high cfg a t E).
    split.
    + intros [H1 H2]. split; [by exists t | done].
    + intros [(t' & [= <-] & H1) H2]. done.
  - cbn [report_passed]. split; [done|]. by intros [(t & ? & _) _].
Qed.

(** X10. The gate, read on the article: a report has passed = true
    exactly when the checks ran to their end, the overall score before
    rounding is at least the configured minimum, and the article has the
    five essentials (enough words, a title, a content, the keyword in the
    title when there is a keyword, a first-level heading); every other
    shortcoming is of severity medium or low and costs points only. *)
Theorem gate_passes_iff_score_and_essentials (cfg : config) (a : article) :
  report_passed (check_quality cfg a) = true <->
  (exists t, run_checks cfg a = Returned t /\
     (get (thresholds cfg) "min_seo_score" 70 <= overall t)%Q) /\
  essentials cfg a.
Proof. apply passed_iff. Qed.

Lemma overall_mono (t t' : tally) :
  tally_max_score t = 400 -> tally_max_score t' = 400 ->
  total_score t <= total_score t' -> (overall t <= overall t')%Q.
Proof.
  intros M M' H. unfold overall. rewrite M, M'. cbn [Z.gtb Z.compare].
  unfold fmul, fdiv. apply fl_mono.
  assert (fl (Z2Q (total_score t) / Z2Q 400)
          <= fl (Z2Q (total_score t') / Z2Q 400))%Q as F.
  { apply fl_mono. unfold Z2Q, Qdiv.
    rewrite (Zle_Qle (total_score t)) in H.
    change (/ inject_Z 400)%Q with (1 # 400)%Q. lra. }
  lra.
Qed.

Lemma overall_default_threshold (t : tally) :
  tally_max_score t = 400 ->
  (70 <= overall t)%Q <-> 280 <= total_score t.
Proof.
  intros M. split.
  - intros H. apply Z.nlt_ge. intros N.
    assert (overall t <= overall (points 279))%Q as O
      by (apply overall_mono; [done | done | cbn; lia]).
    assert (overall (points 279) < 70)%Q by (by vm_compute). lra.
  - intros H.
    assert (overall (points 280) <= overall t)%Q as O
      by (by apply overall_mono).
    assert (70 <= overall (points 280))%Q by (by vm_compute). lra.
Qed.

(** X11. With the default minimum of 70 the gate asks for 280 of the 400
    points: an article passes exactly when its four checks award at least
    280 points in total and it has the five essentials. The float
    computation total / 400 * 100 does not move this threshold. *)
Theorem default_gate_is_280_points (cfg : config) (a : article) :
  thresholds cfg !! "min_seo_score" = None ->
  report_passed (check_quality cfg a) = true <->
  (exists t, run_checks cfg a = Returned t /\ 280 <= total_score t) /\
  essentials cfg a.
Proof.
  intros D. rewrite passed_iff. unfold get. rewrite D.
  cbn [default from_option id].
  split; intros [(t & E & H) Hess]; (split; [|done]); exists t;
    (split; [done|]);
    pose proof (run_checks_inv cfg a t E) as (_ & M & _);
    by apply (overall_default_threshold t M).
Qed.

Lemma not_high_count (l1 l2 : list issue) :
  Forall not_high l2 ->
  count_severity is_high (l1 ++ l2) = count_severity is_high l1.
Proof.
  intros H. apply count_high_not_high in H.
  rewrite count_severity_app. lia.
Qed.

(** X12. The two optional checks (duplicate detection, link validation)
    add issues of severity low and medium only and award no points:
    switching them on or off changes neither the verdict nor any of the
    three scores of the report, as long as no exception is raised. *)
Theorem optional_checks_never_change_verdict (cfg cfg' : config)
    (a : article) (r r' : report) :
  thresholds cfg = thresholds cfg' ->
  check_quality_body cfg a = Returned r ->
  check_quality_body cfg' a = Returned r' ->
  report_passed r = report_passed r' /\
  overall_score r = overall_score r' /\
  seo_score r = seo_score r' /\
  readability_score r = readability_score r'.
Proof.
  intros T. unfold check_quality_body.
  destruct (run_checks cfg a) as [t|] eqn:E; [|done].
  destruct (run_checks cfg' a) as [t'|] eqn:E'; [|done].
  cbn [mbind result_bind]. intros [= <-] [= <-].
  apply run_checks_inv in E as (S & M & _ & Q & _ & R & opt & I & O).
  apply run_checks_inv in E' as (S' & M' & _ & Q' & _ & R' & opt' & I' & O').
  assert (B : _check_basic_quality cfg a = _check_basic_quality cfg' a)
    by (unfold _check_basic_quality; by rewrite T).
  assert (V : overall t = overall t')
    by (unfold overall; rewrite M, M', S, S'; by rewrite B).
  cbn [verdict report_passed overall_score seo_score readability_score].
  rewrite V, Q, Q', R, R', T. repeat split.
  rewrite I, I', B, !app_assoc.
  by rewrite (not_high_count _ opt), (not_high_count _ opt').
Qed.

(** X13. The [except] clause of [check_quality] is reached exactly when
    link validation is switched on and [urlparse] raises on one of the
    Markdown links of the content; the report is then the failure report
    with score 0 and one issue, whatever the rest of the article is. *)
Theorem error_report_iff_link_raises (cfg : config) (a : article) :
  (exists e, check_quality cfg a = error_report e) <->
  get (checks_config cfg) "link_validation" false = true /\
  exists url e,
    url ∈ findall_links (default [] (content a)) 0 /\
    urlparse url = Raised e.
Proof.
  rewrite <- run_checks_raised. unfold check_quality, check_quality_body.
  destruct (run_checks cfg a) as [t|e]; cbn [mbind result_bind].
  - split; [|by intros [e H]].
    intros [e H]. apply (f_equal report_details) in H. done.
  - split; intros _; by exists e.
Qed.

End GateFacts.

(** ** Worked examples: the quality gate *)

Section GateExamples.
Import QualityChecker.
#[local] Existing Instance Ascii_text.

(** [fair_article] passes under the default configuration: it has 285
    points and the essentials. *)
Lemma default_gate_example :
  (exists t, run_checks (L := Plain_urls) default_quality fair_article
             = Returned t /\ 280 <= total_score t) /\
  essentials default_quality fair_article.
Proof.
  apply (default_gate_is_280_points (L := Plain_urls)
           default_quality fair_article); by vm_compute.
Defined.

(** The article with a repetitive title and a relative link gets two
    more issues from the optional checks, and the same verdict and
    scores. *)
Lemma optional_checks_example :
  let a := linked_article "[home](https://a.example/)" in
  let r := check_quality (L := Plain_urls) default_quality a in
  let r' := check_quality (L := Plain_urls) thorough_quality a in
  len (report_issues r') = len (report_issues r) + 2 /\
  report_passed r = report_passed r' /\
  overall_score r = overall_score r' /\
  seo_score r = seo_score r' /\
  readability_score r = readability_score r'.
Proof.
  cbv zeta. split; [by vm_compute|].
  apply (optional_checks_never_change_verdict (L := Plain_urls)
           default_quality thorough_quality
           (linked_article "[home](https://a.example/)"));
    by vm_compute.
Defined.

(** A link whose host has an opening bracket only makes [urlparse]
    raise: the report is the failure report. *)
Lemma error_report_example :
  exists e,
    check_quality (L := Bracket_urls) thorough_quality
      (linked_article "[router](http://[::1/admin)")
    = error_report e.
Proof.
  apply (error_report_iff_link_raises (L := Bracket_urls)).
  split; [by vm_compute|].
  exists (py "http://[::1/admin"), ValueError.
  split; [|by vm_compute].
  assert (findall_links
            (default [] (content (linked_article "[router](http://[::1/admin)")))
            0
          = [py "docs/index.html"; py "http://[::1/admin"]) as ->
    by (by vm_compute).
  right. left.
Defined.

End GateExamples.

(** ** The search for solutions *)

Section SearchFacts.
Context {U : Unicode}.
Import InfoCollector SolutionSearch.

(** X14. [collect_solution_info] returns None exactly when neither
    Microsoft Learn nor Stack Overflow gave a solution: the Apple search
    adds sources only, so that sources found for an error without
    solutions are dropped with it. *)
Theorem no_bundle_iff_no_solution (net : answers) (now : Q)
    (error_candidate : ErrorFinder.candidate) :
  let error_message :=
    default [] (ErrorFinder.error_message error_candidate) in
  collect_solution_info net now error_candidate = None <->
  fst (_search_microsoft_learn net error_message) = [] /\
  fst (_search_stackoverflow_solutions net error_message) = [].
Proof.
  cbv zeta. unfold collect_solution_info. cbv zeta.
  destruct (_search_microsoft_learn net _) as [ms_solutions ms_sources].
  destruct (_search_stackoverflow_solutions net _)
    as [so_solutions so_sources].
  cbn [fst app].
  destruct (_is_macos_error _); cbn [_search_apple_support];
    rewrite ?app_nil_r;
    destruct ms_solutions, so_solutions; cbn; intuition congruence.
Qed.

Lemma omap_cons_eq {A B} (f : A -> option B) (x : A) (l : list A) :
  omap f (x :: l)
  = match f x with Some y => y :: omap f l | None => omap f l end.
Proof. done. Qed.

Lemma omap_length_le {A B} (f : A -> option B) (l : list A) :
  (length (omap f l) <= length l)%nat.
Proof.
  induction l as [|x l IH]; [done|]. rewrite omap_cons_eq.
  destruct (f x); simpl; lia.
Qed.

(** X15. The Apple search returns no solution and at most three sources;
    each source has a url, and it is official with reliability 1.0 when
    the url contains support.apple.com, and community with reliability
    0.7 otherwise. *)
Theorem apple_support_gives_sources_only (net : answers)
    (error_message : pystr) :
  let r := _search_apple_support net error_message in
  fst r = [] /\
  (length (snd r) <= 3)%nat /\
  Forall (fun s =>
            exists u, url s = Some u /\
              if contains (py "support.apple.com") u
              then type_ s = Some (py "official") /\
                   source_reliability s = Some 1.0%Q
              else type_ s = Some (py "community") /\
                   source_reliability s = Some (fl 0.7))
         (snd r).
Proof.
  cbv zeta. unfold _search_apple_support. cbn [fst snd].
  split; [done|]. split.
  - etransitivity; [apply omap_length_le|]. rewrite length_take. lia.
  - generalize (take 3 (apple_results net error_message)).
    induction l as [|x l IH]; [constructor|].
    rewrite omap_cons_eq. unfold apple_source at 1.
    destruct (title_elem x) as [t|]; [|done].
    destruct (link_elem x) as [href|]; [|done].
    constructor; [|done].
    exists (default [] href). cbn [url type_ source_reliability].
    split; [done|]. by destruct (contains _ (default [] href)).
Qed.



End SearchFacts.

(** ** The average reliability *)

Section AverageFacts.
Import InfoCollector.
Local Open Scope Q_scope.

Lemma round_half_even_proper (x y : Q) :
  x == y -> round_half_even x = round_half_even y.
Proof.
  intros E. apply Z.le_antisymm; apply round_half_even_mono; lra.
Qed.

(** The integers below 2^53 are floats. *)
Lemma fl_integer (k : Z) : (0 <= k < 2 ^ 53)%Z -> fl (Z2Q k) == Z2Q k.
Proof.
  intros [H0 H1]. destruct (decide (k = 0%Z)) as [->|N]; [by vm_compute|].
  assert (P : 0 < Z2Q k).
  { unfold Z2Q. change 0 with (inject_Z 0). rewrite <- Zlt_Qlt. lia. }
  destruct (fl_sign (Z2Q k)) as (_ & F & _). rewrite (F P).
  unfold nearest. cbv zeta.
  set (e := (ilog2 (Z2Q k) - 52)%Z).
  assert (E : (e <= 0)%Z).
  { destruct (ilog2_spec (Z2Q k) P) as [L _].
    assert (pow2 (ilog2 (Z2Q k)) < pow2 53) as B.
    { eapply Qle_lt_trans; [exact L|]. rewrite (pow2_Z 53) by lia.
      unfold Z2Q. by rewrite <- Zlt_Qlt. }
    apply pow2_lt_inv in B. lia. }
  assert (I : pow2 e * pow2 (- e) == 1).
  { rewrite <- pow2_plus. by replace (e + - e)%Z with 0%Z by lia. }
  pose proof (pow2_pos e) as Pe.
  assert (V : / pow2 e == pow2 (- e)).
  { apply (Qmult_inj_l _ _ (pow2 e)); [lra|].
    rewrite Qmult_inv_r by lra. by rewrite I. }
  assert (M : Z2Q (k * 2 ^ (- e)) == Z2Q k * pow2 (- e)).
  { rewrite (pow2_Z (- e)) by lia. unfold Z2Q. by rewrite inject_Z_mult. }
  assert (S : Z2Q k / pow2 e == Z2Q (k * 2 ^ (- e))).
  { rewrite M. unfold Qdiv. by rewrite V. }
  rewrite (round_half_even_proper _ _ S), round_half_even_Z, M.
  rewrite <- Qmult_assoc, (Qmult_comm (pow2 (- e))), I. ring.
Qed.

Lemma sum_Q_bounds (qs : list Q) (acc : Q) (a : Z) :
  Forall (fun q => 0 <= q <= 1) qs ->
  (0 <= a)%Z -> (a + len qs < 2 ^ 53)%Z ->
  0 <= acc <= Z2Q a ->
  0 <= foldl fadd acc qs <= Z2Q (a + len qs).
Proof.
  intros F. revert acc a. induction F as [|q qs Hq _ IH]; intros acc a Ha Hn Hacc.
  - cbn [foldl]. unfold len. cbn [length]. by rewrite Z.add_0_r.
  - cbn [foldl]. unfold len in *. cbn [length] in *.
    replace (a + Z.of_nat (S (length qs)))%Z
      with ((a + 1) + Z.of_nat (length qs))%Z by lia.
    apply IH; [lia | lia |]. unfold fadd.
    assert (Z2Q (a + 1) == Z2Q a + 1) as E
      by (unfold Z2Q; by rewrite inject_Z_plus).
    split.
    + assert (fl 0 == 0) as <- by (by vm_compute). apply fl_mono. lra.
    + rewrite <- (fl_integer (a + 1)) by lia. apply fl_mono. lra.
Qed.

(** X17. When every solution collected has a reliability between 0 and 1
    (the adapters assign 0.6, 0.8 and min(0.9, ...)), the average
    reliability of the summary is a float between 0 and 1, the rounding
    of each addition and of the division included. *)
Theorem average_reliability_in_unit_interval
    (error_candidate : ErrorFinder.candidate) (now : Q) (h : heap) :
  Forall (fun s => 0 <= reliability_of s <= 1) (solutions_list h) ->
  (len (solutions_list h) < 2 ^ 53)%Z ->
  let r := fst (_integrate_information error_candidate now h) in
  0 <= avg_reliability (summary r) <= 1.
Proof.
  intros F N. cbv zeta. unfold _integrate_information.
  cbn [fst summary avg_reliability].
  set (sorted := PyLib.sorted_desc reliability_of (solutions_list h)).
  assert (Fs : Forall (fun q => 0 <= q <= 1) (map reliability_of sorted)).
  { apply Forall_map. unfold sorted.
    by rewrite (sorted_desc_perm reliability_of (solutions_list h)). }
  assert (Ls : len sorted = len (solutions_list h))
    by (unfold len, sorted; by rewrite sorted_desc_length).
  destruct (truthy sorted) eqn:T; [|lra].
  assert (0 < len sorted)%Z as Pn by (destruct sorted; [done | unfold len; simpl; lia]).
  pose proof (sum_Q_bounds (map reliability_of sorted) 0 0 Fs) as B.
  unfold len in B. rewrite length_map in B. fold (len sorted) in B.
  rewrite Z.add_0_l in B.
  destruct B as [B1 B2]; [lia | lia | by vm_compute |].
  fold (sum_Q (map reliability_of sorted)) in B1, B2.
  unfold fdiv.
  assert (0 < Z2Q (len sorted)) as Pq.
  { unfold Z2Q. change 0 with (inject_Z 0). by rewrite <- Zlt_Qlt. }
  split.
  - assert (fl 0 == 0) as <- by (by vm_compute). apply fl_mono.
    apply Qle_shift_div_l; [done|]. lra.
  - assert (fl 1 == 1) as <- by (by vm_compute). apply fl_mono.
    apply Qle_shift_div_r; [done|]. lra.
Qed.

End AverageFacts.

(** ** The full cycle *)

Section CycleFacts.
Context {U : Unicode} {L : QualityChecker.UrlLib}
  {W : ArticleManager.WordTable}.
Import Main.

(** What discovery returns has passed the filter and is new to the
    article manager. *)
Lemma find_trending_error_fresh (cfg : ErrorFinder.config)
    (net : ErrorFinder.adapters) (am : ErrorFinder.article_manager)
    (rnd : Q) (c : ErrorFinder.candidate) :
  ErrorFinder.find_trending_error cfg net (Some am) rnd = Returned (Some c) ->
  ErrorFinder.keeps cfg c = true /\
  ErrorFinder.is_error_already_processed am (ErrorFinder.message c) = false.
Proof.
  unfold ErrorFinder.find_trending_error. cbv zeta.
  destruct (negb (truthy (ErrorFinder.all_candidates cfg net))); [done|].
  set (filtered := ErrorFinder._filter_candidates cfg _).
  destruct (negb (truthy filtered)); [done|].
  set (unique := ErrorFinder.unique_candidates am filtered).
  destruct (negb (truthy unique)) eqn:T; [done|].
  assert (Hu : forall x, x ∈ unique ->
                 ErrorFinder.keeps cfg x = true /\
                 ErrorFinder.is_error_already_processed am
                   (ErrorFinder.message x) = false).
  { intros x Hx. split.
    - apply (filter_candidates_spec cfg (ErrorFinder.all_candidates cfg net)).
      eapply elem_of_sublist; [exact Hx|]. apply unique_candidates_spec.
    - by apply (unique_candidates_spec am filtered). }
  destruct (select_member unique rnd) as (best & Hb & Hin).
  - by destruct unique.
  - intros x Hx. apply (keeps_has_message cfg). by apply Hu.
  - rewrite Hb. cbn [mbind result_bind]. intros [= <-].
    apply Hu. by apply top_candidates_subseteq.
Qed.

(** The cases of [save_and_publish]. *)
Lemma save_and_publish_inv (cfg : config) (env : services)
    (error_message : pystr) (a : QualityChecker.article)
    (r : QualityChecker.report) (w w' : world) (st : outcome) :
  save_and_publish cfg env error_message a r w = (st, w') ->
  (st = system_error FileExists /\ w' = w) \/
  exists article_dir articles_dir',
    ArticleManager.create_article_directory (articles_dir w) error_message
      = ArticleManager.Done (article_dir, articles_dir') /\
    articles_dir w' = articles_dir' /\
    saved_data w' = saved_data w ++ [(article_dir, a, r)] /\
    handed_to_wordpress w'
    = (if get (wordpress cfg) "auto_publish" true
       then handed_to_wordpress w ++ [a] else handed_to_wordpress w).
Proof.
  unfold save_and_publish.
  destruct (ArticleManager.create_article_directory _ _)
    as [[article_dir articles_dir']|]; [|intros [= <- <-]; by left].
  intros H. right. exists article_dir, articles_dir'. split; [done|].
  revert H. unfold success_result.
  destruct (get (wordpress cfg) "auto_publish" true);
    [destruct (publish_article env a) as [p|];
     [destruct (link p)|]|];
    try destruct (QualityChecker.title a);
    by intros [= <- <-].
Qed.

(** The error that the cycle works on. *)
Lemma run_full_cycle_inv (cfg : config) (env : services) (w w' : world)
    (st : outcome) :
  run_full_cycle cfg env w = (st, w') ->
  w' = w \/
  exists c m info a,
    ErrorFinder.find_trending_error (error_discovery cfg)
      (discovery_net env) (Some (manager_of (articles_dir w))) (rnd env)
      = Returned (Some c) /\
    ErrorFinder.error_message c = Some m /\
    SolutionSearch.collect_solution_info (search_net env) (now env) c
      = Some info /\
    generate_article env info = Some a /\
    (QualityChecker.report_passed
       (QualityChecker.check_quality (quality cfg) a) = true \/
     get (quality_flags cfg) "allow_low_quality" false = true) /\
    save_and_publish cfg env m a
      (QualityChecker.check_quality (quality cfg) a) w = (st, w').
Proof.
  unfold run_full_cycle.
  destruct (ErrorFinder.find_trending_error _ _ _ _) as [[c|]|e];
    [|intros [= <- <-]; by left..].
  destruct (ErrorFinder.error_message c) as [m|] eqn:M;
    [|intros [= <- <-]; by left].
  destruct (SolutionSearch.collect_solution_info _ _ c) as [info|] eqn:C;
    [|intros [= <- <-]; by left].
  destruct (generate_article env info) as [a|] eqn:G;
    [|intros [= <- <-]; by left].
  cbv zeta.
  destruct (QualityChecker.report_passed _) eqn:P; cbn [negb andb].
  - intros H. right. exists c, m, info, a.
    do 4 (split; [done|]). split; [by left | done].
  - destruct (get (quality_flags cfg) "allow_low_quality" false) eqn:F;
      cbn [negb]; [|intros [= <- <-]; by left].
    intros H. right. exists c, m, info, a.
    do 4 (split; [done|]). split; [by right | done].
Qed.

(** X18. A cycle changes nothing (no directory, no saved data, nothing
    handed to WordPress) unless discovery, collection and generation all
    succeeded and the generated article passed the quality gate or
    allow_low_quality is set; what it then saves is that article with its
    quality report, and it hands the article to WordPress exactly when
    auto_publish is on. *)
Theorem world_changes_only_after_the_gate (cfg : config) (env : services)
    (w w' : world) (st : outcome) :
  run_full_cycle cfg env w = (st, w') ->
  w' <> w ->
  exists c info a article_dir,
    ErrorFinder.find_trending_error (error_discovery cfg)
      (discovery_net env) (Some (manager_of (articles_dir w))) (rnd env)
      = Returned (Some c) /\
    SolutionSearch.collect_solution_info (search_net env) (now env) c
      = Some info /\
    generate_article env info = Some a /\
    (QualityChecker.report_passed
       (QualityChecker.check_quality (quality cfg) a) = true \/
     get (quality_flags cfg) "allow_low_quality" false = true) /\
    saved_data w'
    = saved_data w
      ++ [(article_dir, a, QualityChecker.check_quality (quality cfg) a)] /\
    handed_to_wordpress w'
    = (if get (wordpress cfg) "auto_publish" true
       then handed_to_wordpress w ++ [a] else handed_to_wordpress w).
Proof.
  intros H N.
  apply run_full_cycle_inv in H as [->|(c & m & info & a & F & M & C & G & Q & S)];
    [done|].
  apply save_and_publish_inv in S as [[_ ->]|(d & ds & _ & _ & S1 & S2)];
    [done|].
  by exists c, info, a, d.
Qed.

Lemma cycle_marks_processed (cfg : config) (env : services)
    (w w' : world) (st : outcome) :
  run_full_cycle cfg env w = (st, w') ->
  w' <> w ->
  exists c m,
    ErrorFinder.find_trending_error (error_discovery cfg)
      (discovery_net env) (Some (manager_of (articles_dir w))) (rnd env)
      = Returned (Some c) /\
    ErrorFinder.error_message c = Some m /\
    ArticleManager.is_error_already_processed (articles_dir w) m = false /\
    (contains (py "_記事") (ArticleManager._sanitize_error_name m) = false ->
     ArticleManager.is_error_already_processed (articles_dir w') m = true).
Proof.
  intros H N.
  apply run_full_cycle_inv in H as [->|(c & m & info & a & F & M & C & G & Q & S)];
    [done|].
  apply save_and_publish_inv in S as [[_ ->]|(d & ds & S0 & S1 & _)];
    [done|].
  exists c, m. split; [done|]. split; [done|]. split.
  - apply find_trending_error_fresh in F as [_ F].
    unfold ErrorFinder.message in F. by rewrite M in F.
  - intros Hs. rewrite S1.
    exact (proj1 (create_marks_processed (articles_dir w) ds m d Hs S0)).
Qed.

(** X19. Whenever a cycle changes anything, the error it worked on was
    not processed before and is processed afterwards (its sanitized name
    not holding [_記事]): this includes the cycles that end with
    wordpress_publish_failed or system_error after the directory was
    made, so that an error whose publication failed is not taken up
    again. *)
Theorem touched_error_is_marked_processed (cfg : config) (env : services)
    (w w' : world) (st : outcome) :
  run_full_cycle cfg env w = (st, w') ->
  w' <> w ->
  exists c m,
    ErrorFinder.find_trending_error (error_discovery cfg)
      (discovery_net env) (Some (manager_of (articles_dir w))) (rnd env)
      = Returned (Some c) /\
    ErrorFinder.error_message c = Some m /\
    ArticleManager.is_error_already_processed (articles_dir w) m = false /\
    (contains (py "_記事") (ArticleManager._sanitize_error_name m) = false ->
     ArticleManager.is_error_already_processed (articles_dir w') m = true).
Proof. apply cycle_marks_processed. Qed.

Lemma is_error_already_processed_sanitized
    (articles_dir : list ArticleManager.item) (m1 m2 : pystr) :
  ArticleManager._sanitize_error_name m1
  = ArticleManager._sanitize_error_name m2 ->
  ArticleManager.is_error_already_processed articles_dir m1
  = ArticleManager.is_error_already_processed articles_dir m2.
Proof.
  intros E. unfold ArticleManager.is_error_already_processed. by rewrite E.
Qed.

(** X20. No error is written twice: after a cycle that changed anything
    for an error (whose sanitized name does not hold [_記事]), discovery
    in the resulting world never returns a candidate whose message has
    the same sanitized name, whatever its configuration, the answers of
    the network and the random draw. *)
Theorem no_error_is_taken_up_twice (cfg : config) (env : services)
    (w w' : world) (st : outcome) (cfg2 : ErrorFinder.config)
    (net2 : ErrorFinder.adapters) (rnd2 : Q) (c c2 : ErrorFinder.candidate) :
  run_full_cycle cfg env w = (st, w') ->
  w' <> w ->
  ErrorFinder.find_trending_error (error_discovery cfg)
    (discovery_net env) (Some (manager_of (articles_dir w))) (rnd env)
    = Returned (Some c) ->
  contains (py "_記事")
    (ArticleManager._sanitize_error_name (ErrorFinder.message c)) = false ->
  ErrorFinder.find_trending_error cfg2 net2
    (Some (manager_of (articles_dir w'))) rnd2 = Returned (Some c2) ->
  ArticleManager._sanitize_error_name (ErrorFinder.message c2)
  <> ArticleManager._sanitize_error_name (ErrorFinder.message c).
Proof.
  intros H N F Hs F2 E.
  destruct (cycle_marks_processed cfg env w w' st H N)
    as (c' & m & F' & M & _ & P).
  rewrite F in F'. injection F' as <-.
  unfold ErrorFinder.message in Hs, E. rewrite M in Hs, E.
  cbn [default from_option id] in Hs, E.
  specialize (P Hs).
  apply find_trending_error_fresh in F2 as [_ F2].
  cbn [manager_of ErrorFinder.is_error_already_processed] in F2.
  rewrite (is_error_already_processed_sanitized _ _ m) in F2 by done.
  congruence.
Qed.

End CycleFacts.

(** ** Worked examples: the article manager *)

Section ManagerExamples.
Import ArticleManager.

(** The second article of the archive: the directory is new and the
    numbering moves on to 3. *)
Lemma creation_advances_numbering_example :
  let dir_name := py "0002_Connection_refused_ssh_記事" in
  Forall (fun i => name i <> dir_name) archive /\
  article_number (W := Ascii_words) dir_name = Some 2 /\
  get_next_article_number (W := Ascii_words) (archive ++ [folder "0002_Connection_refused_ssh_記事"]) = 3.
Proof.
  destruct (creation_advances_numbering (W := Ascii_words) archive
              (archive ++ [folder "0002_Connection_refused_ssh_記事"])
              (py "Connection refused (ssh)")
              (py "0002_Connection_refused_ssh_記事"))
    as (H1 & _ & H3 & H4); [by vm_compute | by vm_compute |].
  split; [exact H1|]. split; [exact H3 | exact H4].
Defined.

(** After the article 9999 every new article gets the number 10000. *)
Lemma numbering_stalls_example :
  let after := full_archive ++ [folder "10000_DISK_FULL_記事"] in
  get_next_article_number (W := Ascii_words) after = 10000 /\
  create_article_directory (W := Ascii_words) after (py "DISK FULL")
  = Done (py "10000_DISK_FULL_記事", after).
Proof.
  destruct (numbering_stalls_after_9999 (W := Ascii_words) full_archive
              (full_archive ++ [folder "10000_DISK_FULL_記事"])
              (py "DISK FULL") (py "10000_DISK_FULL_記事"))
    as (_ & H2 & H3); [by vm_compute | by vm_compute |].
  split; [exact H2 | exact H3].
Defined.

(** The error of a directory just made is known to the history check,
    however it is spelled. *)
Lemma created_directory_example :
  is_error_already_processed (W := Ascii_words)
    (archive ++ [folder "0002_Connection_refused_ssh_記事"])
    (py "Connection refused (ssh)") = true.
Proof.
  refine (proj1 (created_directory_marks_error_processed (W := Ascii_words)
                   archive
                   (archive ++ [folder "0002_Connection_refused_ssh_記事"])
                   (py "Connection refused (ssh)")
                   (py "0002_Connection_refused_ssh_記事") _ _));
    by vm_compute.
Defined.

(** An error message that holds the suffix of the directory names is not
    found again. *)
Lemma name_with_suffix_example :
  is_error_already_processed (W := Cjk_words)
    (archive ++ [folder "0002_backup_記事_failed_記事"])
    (py "backup_記事 failed") = false.
Proof.
  rewrite (name_with_suffix_is_never_recognised (W := Cjk_words) archive
             (archive ++ [folder "0002_backup_記事_failed_記事"])
             (py "backup_記事 failed")
             (py "0002_backup_記事_failed_記事"));
    by vm_compute.
Defined.

End ManagerExamples.

(** ** Worked examples: the search for solutions *)

Section SearchExamples.
Import InfoCollector SolutionSearch.
#[local] Existing Instance Ascii_text.

(** A kernel panic for which only Apple Support has a page: the page is
    found, and no bundle is returned. *)
Lemma apple_only_example :
  _is_macos_error (ErrorFinder.message kernel_panic) = true /\
  length (snd (_search_apple_support apple_only (ErrorFinder.message kernel_panic))) = 1%nat /\
  collect_solution_info apple_only 0 kernel_panic = None.
Proof.
  split; [by vm_compute|]. split; [by vm_compute|].
  by apply (no_bundle_iff_no_solution apple_only 0 kernel_panic).
Defined.

(** The average of the reliabilities 0.9 and 0.5. *)
Lemma average_reliability_example :
  (0 <= avg_reliability
          (summary (fst (_integrate_information kernel_panic 0
                           collected_unsorted))) <= 1)%Q.
Proof.
  apply (average_reliability_in_unit_interval kernel_panic 0
           collected_unsorted).
  - repeat constructor; by vm_compute.
  - by vm_compute.
Defined.

End SearchExamples.

(** ** Worked examples: the full cycle *)

Section CycleExamples.
Import Main.
#[local] Existing Instance Ascii_text.
#[local] Existing Instance Plain_urls.
#[local] Existing Instance ArticleManager.Ascii_words.

(** The cycle on the sample world: "OUT_OF_MEMORY_0x1" has its article
    already, the error taken up is "Connection refused ssh", and the
    article is saved in the directory 0002 and published. *)
Lemma sample_cycle :
  run_full_cycle default_config sample_services sample_world
  = (success (py "0002_Connection_refused_ssh_記事")
       (py "Connection refused ssh") (py "How to fix err quickly now")
       (QualityChecker.seo_score
          (QualityChecker.check_quality default_quality fair_article))
       (Some (py "https://blog.example/?p=1")),
     {| articles_dir :=
          archive ++ [folder "0002_Connection_refused_ssh_記事"];
        saved_data :=
          [(py "0002_Connection_refused_ssh_記事", fair_article,
            QualityChecker.check_quality default_quality fair_article)];
        saved_results :=
          [(py "0002_Connection_refused_ssh_記事",
            {| link := Some (py "https://blog.example/?p=1") |})];
        handed_to_wordpress := [fair_article] |}).
Proof. by vm_compute. Qed.

Lemma sample_cycle_changes :
  snd (run_full_cycle default_config sample_services sample_world)
  <> sample_world.
Proof.
  rewrite sample_cycle. intros H.
  apply (f_equal (fun w => length (handed_to_wordpress w))) in H.
  discriminate H.
Qed.

(** What the sample cycle saved is the generated article with its report,
    and the article went to WordPress. *)
Lemma world_change_example :
  let w' := snd (run_full_cycle default_config sample_services sample_world) in
  exists article_dir,
    saved_data w'
    = [(article_dir, fair_article,
        QualityChecker.check_quality default_quality fair_article)] /\
    handed_to_wordpress w' = [fair_article].
Proof.
  destruct (world_changes_only_after_the_gate default_config sample_services
              sample_world
              (snd (run_full_cycle default_config sample_services sample_world))
              (fst (run_full_cycle default_config sample_services sample_world)))
    as (c & info & a & d & _ & _ & G & _ & S & P);
    [apply surjective_pairing | apply sample_cycle_changes |].
  injection G as <-. exists d. split; [exact S | exact P].
Defined.

(** After the sample cycle "Connection refused ssh" is a processed
    error. *)
Lemma touched_error_example :
  ArticleManager.is_error_already_processed
    (articles_dir sample_world) (py "Connection refused ssh") = false /\
  ArticleManager.is_error_already_processed
    (articles_dir
       (snd (run_full_cycle default_config sample_services sample_world)))
    (py "Connection refused ssh") = true.
Proof.
  destruct (touched_error_is_marked_processed default_config sample_services
              sample_world
              (snd (run_full_cycle default_config sample_services sample_world))
              (fst (run_full_cycle default_config sample_services sample_world)))
    as (c & m & F & M & H0 & H1);
    [apply surjective_pairing | apply sample_cycle_changes |].
  assert (c = found "Connection refused ssh" 0.9) as ->.
  { assert (ErrorFinder.find_trending_error (error_discovery default_config)
              (discovery_net sample_services)
              (Some (manager_of (articles_dir sample_world)))
              (rnd sample_services)
            = Returned (Some (found "Connection refused ssh" 0.9))) as E
      by (by vm_compute).
    rewrite E in F. by injection F. }
  injection M as <-.
  split; [exact H0|]. apply H1. by vm_compute.
Defined.

(** The cycle after the sample cycle, whatever Stack Overflow shows again,
    takes up another error: here "Segmentation fault core". *)
Lemma no_second_article_example :
  ArticleManager._sanitize_error_name (py "Segmentation fault core")
  <> ArticleManager._sanitize_error_name (py "Connection refused ssh").
Proof.
  apply (no_error_is_taken_up_twice default_config sample_services
           sample_world
           (snd (run_full_cycle default_config sample_services sample_world))
           (fst (run_full_cycle default_config sample_services sample_world))
           default_finder later_net 0.5
           (found "Connection refused ssh" 0.9)
           (found "Segmentation fault core" 0.8));
    [apply surjective_pairing | apply sample_cycle_changes
    | by vm_compute | by vm_compute |].
  rewrite sample_cycle. by vm_compute.
Defined.

End CycleExamples.
